(** * adb-tv-tool: the device session core

    A shallow embedding of the three components that the specification
    calls the device session core:

    - [Executor]: [ADBManager.run_adb_command] of
      [adb_tv_tool/utils/adb_manager.py], together with a model of the
      standard-library call [subprocess.run] it is built on;
    - [Resolver]: [ADBManager.setup_builtin_adb] and its helpers, over a
      model of the file system;
    - [Registry]: [DeviceManager] of [adb_tv_tool/utils/device_manager.py].

    Python code is embedded in a state-and-exception monad: a computation
    takes the state of the world and gives back an outcome (a value or a
    raised exception) with the new state.  State changes made before an
    exception is raised are kept, as in Python. *)

From Stdlib Require Import ZArith String Ascii.
From Stdlib.Strings Require Import Byte.
From stdpp Require Import base gmap strings list pretty.

Open Scope string_scope.
Open Scope Z_scope.

(** ** Python values, exceptions and the monad *)

Module Py.

(** The classes of exception met in the embedded code.  All of them derive
    from Python's [Exception]; the signals that derive from [BaseException]
    only ([KeyboardInterrupt], [SystemExit]) are outside the model. *)
Inductive ExnClass :=
| TimeoutExpired
| CalledProcessError
| UnicodeDecodeError
| FileNotFoundError
| PermissionError
| OSError
| KeyError
| ValueError
| TypeError
| RuntimeError.

Global Instance ExnClass_eq_dec : EqDecision ExnClass.
Proof. solve_decision. Defined.

(** An exception instance: its class and the text [str(e)] gives. *)
Record exn := Exn { exn_class : ExnClass; exn_text : string }.

Inductive Outcome (A : Type) :=
| Ok (a : A)
| Raise (e : exn).
Arguments Ok {A} a.
Arguments Raise {A} e.

(** A computation over the state [S]. *)
Definition M (S A : Type) : Type := S -> Outcome A * S.

Global Instance M_ret {S} : MRet (M S) := fun A a s => (Ok a, s).
Global Instance M_bind {S} : MBind (M S) := fun A B f m s =>
  match m s with
  | (Ok a, s') => f a s'
  | (Raise e, s') => (Raise e, s')
  end.

Definition raise {S A} (e : exn) : M S A := fun s => (Raise e, s).
Definition get {S} : M S S := fun s => (Ok s, s).
Definition modify {S} (f : S -> S) : M S unit := fun s => (Ok tt, f s).

(** [except subprocess.TimeoutExpired] and [except Exception]. *)
Definition is_TimeoutExpired (e : exn) : bool :=
  bool_decide (exn_class e = TimeoutExpired).
Definition is_Exception (e : exn) : bool := true.

(** The values stored in the result dictionaries.  A Python [str] is held
    as the string of its UTF-8 bytes. *)
Inductive value :=
| VBool (b : bool)
| VInt (z : Z)
| VStr (s : string)
| VBytes (bs : list byte).

(** Truth value of an object, as [if x] and [x or y] test it. *)
Definition truthy (v : value) : bool :=
  match v with
  | VBool b => b
  | VInt z => negb (z =? 0)
  | VStr s => negb (String.eqb s "")
  | VBytes bs => negb (bool_decide (bs = []))
  end.

(** [x or default] where [x] may be [None]. *)
Definition or_default (x : option value) (default : value) : value :=
  match x with
  | Some v => if truthy v then v else default
  | None => default
  end.

(** A dictionary with string keys. *)
Abbreviation dict := (gmap string value).

(** [d[k]] raises [KeyError] on a missing key; [d.get(k, default)] does not. *)
Definition getitem {S} (d : dict) (k : string) : M S value :=
  match d !! k with
  | Some v => mret v
  | None => raise (Exn KeyError ("'" +:+ k +:+ "'"))
  end.
Definition get_default (d : dict) (k : string) (dflt : value) : value :=
  default dflt (d !! k).

(** [' '.join(xs)]. *)
Definition join (sep : string) (xs : list string) : string :=
  String.concat sep xs.

(** [str(n)] of an integer. *)
Definition str_int (n : Z) : string := pretty n.

(** [needle in hay] on strings, as a proposition. *)
Definition contains (hay needle : string) : Prop :=
  exists pre post, hay = pre +:+ needle +:+ post.

(** [try: ... except C1: ... except C2: ...]: the first clause that accepts
    the exception handles it; an exception raised inside a handler is not
    offered to the clauses that follow. *)
Fixpoint dispatch {S A} (clauses : list ((exn -> bool) * (exn -> M S A)))
    (e : exn) : M S A :=
  match clauses with
  | [] => raise e
  | (catches, handler) :: rest =>
      if catches e then handler e else dispatch rest e
  end.
Definition try_excepts {S A} (body : M S A)
    (clauses : list ((exn -> bool) * (exn -> M S A))) : M S A := fun s =>
  match body s with
  | (Ok a, s') => (Ok a, s')
  | (Raise e, s') => dispatch clauses e s'
  end.

(** File-system paths as lists of components; [str(p)]. *)
Definition path := list string.
Definition path_str (p : path) : string := join "/" p.

End Py.

(** ** The command executor *)

Module Executor.
Import Py.

(** *** The environment: [subprocess.run]

    [run_adb_command] delegates to [subprocess.run] of the standard
    library.  The library is modelled as far as the result record depends on
    it: what the spawned child does is given by the world, and so is the
    wording of the exceptions the library raises. *)

Inductive Platform := Posix | Windows.

(** Error handlers of a text decoder: [errors='strict'] (the default),
    ['ignore'], ['replace']. *)
Inductive ErrHandler := Strict | Ignore | Replace.

(** The keyword arguments that [subprocess.run] interprets and that bear on
    what it returns; [run_adb_command] forwards its [**kwargs] to it. *)
Record Kwargs := { kw_check : bool; kw_errors : option ErrHandler }.
Definition no_kwargs : Kwargs := {| kw_check := false; kw_errors := None |}.

(** The text codec of the process (the locale's encoding): [decode h raw] is
    [None] when the handler [h] gives up on [raw]. *)
Record Codec := { decode : ErrHandler -> list byte -> option string }.

(** What the executable does when it is spawned with a command line:
    either the spawn fails with an [OSError], or the child runs, writes [out]
    and [err], and exits with [returncode] after [exit_after] seconds
    ([None]: it never exits by itself). *)
Inductive Behaviour :=
| SpawnFails (e : exn)
| Runs (exit_after : option Z) (returncode : Z) (out err : list byte).

(** How a child that was started ended. *)
Inductive ChildState :=
| Exited (returncode : Z)
| Killed.

(** The exceptions raised by the library itself. *)
Inductive LibError :=
| TimedOut (cmd : list string) (timeout : Z)
| NonZeroExit (cmd : list string) (returncode : Z)
| Undecodable (raw : list byte).

(** What [print] writes.  A diagnostic is kept with the data it is rendered
    from; [DStdoutText] and [DStderrText] stand for the header line and the
    first 10 (resp. 5) lines of the stream. *)
Inductive Diag :=
| DCommand (full_command : string) (timeout : Z)
| DReturncode (returncode : Z)
| DStdoutText (stdout : value)
| DStdoutBinary (stdout : value)
| DStderrText (stderr : value)
| DStderrBinary (stderr : value)
| DFailure (error_msg : string).

Record World := {
  platform : Platform;
  codec : Codec;
  spawn : list string -> Behaviour;
  lib_text : LibError -> string;
  console : list Diag;
  error_log : list string;
  children : list ChildState;
}.

Definition printed (d : Diag) (w : World) : World :=
  {| platform := platform w; codec := codec w; spawn := spawn w;
     lib_text := lib_text w; console := (console w ++ [d])%list;
     error_log := error_log w; children := children w |}.
Definition logged (msg : string) (w : World) : World :=
  {| platform := platform w; codec := codec w; spawn := spawn w;
     lib_text := lib_text w; console := console w;
     error_log := (error_log w ++ [msg])%list; children := children w |}.
Definition ended (c : ChildState) (w : World) : World :=
  {| platform := platform w; codec := codec w; spawn := spawn w;
     lib_text := lib_text w; console := console w;
     error_log := error_log w; children := (children w ++ [c])%list |}.

(** [print] and the logger write and return; they are taken not to raise. *)
Definition print (d : Diag) : M World unit := modify (printed d).

(** [self.logger.error(msg)]. *)
Definition logger_error (msg : string) : M World unit := modify (logged msg).

(** The child that was started has ended. *)
Definition child_ends (c : ChildState) : M World unit := modify (ended c).

Definition lib_raise {A} (c : ExnClass) (err : LibError) : M World A :=
  w ← get; raise (Exn c (lib_text w err)).

(** Universal newlines: a carriage return followed by a line feed, and a
    lone carriage return, become a line feed. *)
Definition CR : ascii := ascii_of_nat 13.
Definition LF : ascii := ascii_of_nat 10.
Fixpoint translate_newlines (s : string) : string :=
  match s with
  | EmptyString => EmptyString
  | String c rest =>
      if Ascii.eqb c CR then
        match rest with
        | String c' rest' =>
            if Ascii.eqb c' LF then String LF (translate_newlines rest')
            else String LF (translate_newlines rest)
        | EmptyString => String LF EmptyString
        end
      else String c (translate_newlines rest)
  end.

(** One captured stream as [communicate] hands it over.  In binary mode the
    bytes are returned untouched.  In text mode they are decoded; when the
    decoder gives up, the POSIX implementation raises the
    [UnicodeDecodeError] to the caller, while on Windows the stream is read
    by a helper thread, the error ends that thread, and the stream comes
    back as [None]. *)
Definition read_stream (text_mode : bool) (errors : ErrHandler)
    (raw : list byte) : M World (option value) :=
  if text_mode then
    w ← get;
    match decode (codec w) errors raw with
    | Some s => mret (Some (VStr (translate_newlines s)))
    | None =>
        match platform w with
        | Posix => lib_raise UnicodeDecodeError (Undecodable raw)
        | Windows => mret None
        end
    end
  else mret (Some (VBytes raw)).

Definition exits_within (exit_after : option Z) (timeout : Z) : bool :=
  match exit_after with
  | Some t => t <=? timeout
  | None => false
  end.

Record CompletedProcess := {
  cp_returncode : Z;
  cp_stdout : option value;
  cp_stderr : option value;
}.

(** [subprocess.run(cmd, capture_output=True, text=text, timeout=timeout,
    **kwargs)].  A child that is still running at the timeout is killed and
    reaped before [TimeoutExpired] is raised. *)
Definition subprocess_run (cmd : list string) (text : bool) (timeout : Z)
    (kwargs : Kwargs) : M World CompletedProcess :=
  w ← get;
  match spawn w cmd with
  | SpawnFails e => raise e
  | Runs exit_after returncode out err =>
      if exits_within exit_after timeout then
        child_ends (Exited returncode);;
        let text_mode := text || bool_decide (is_Some (kw_errors kwargs)) in
        let errors := default Strict (kw_errors kwargs) in
        stdout ← read_stream text_mode errors out;
        stderr ← read_stream text_mode errors err;
        if kw_check kwargs && negb (returncode =? 0)
        then lib_raise CalledProcessError (NonZeroExit cmd returncode)
        else mret {| cp_returncode := returncode;
                     cp_stdout := stdout; cp_stderr := stderr |}
      else
        child_ends Killed;;
        lib_raise TimeoutExpired (TimedOut cmd timeout)
  end.

(** *** The UTF-8 codec

    The decoder of CPython for UTF-8, the encoding of a POSIX locale and of
    Python's UTF-8 mode.  [utf8_step] classifies the bytes at the head of
    the input: a well-formed sequence of [n] bytes, or an ill-formed run of
    [n] bytes that [strict] rejects, ['ignore'] skips and ['replace'] turns
    into U+FFFD. *)

Definition byte_val (b : byte) : Z := Z.of_N (Byte.to_N b).
Definition is_continuation (b : byte) : bool :=
  (0x80 <=? byte_val b) && (byte_val b <? 0xC0).

Inductive Utf8Step := Well (n : nat) | Ill (n : nat).

Definition utf8_step (bs : list byte) : Utf8Step :=
  match bs with
  | [] => Well 0
  | b0 :: r =>
      let c := byte_val b0 in
      if c <? 0x80 then Well 1
      else if c <? 0xC2 then Ill 1
      else if c <? 0xE0 then
        match r with
        | b1 :: _ => if is_continuation b1 then Well 2 else Ill 1
        | [] => Ill 1
        end
      else if c <? 0xF0 then
        match r with
        | b1 :: r1 =>
            if is_continuation b1
               && (if c =? 0xE0 then 0xA0 <=? byte_val b1 else true)
               && (if c =? 0xED then byte_val b1 <? 0xA0 else true)
            then match r1 with
                 | b2 :: _ => if is_continuation b2 then Well 3 else Ill 2
                 | [] => Ill 2
                 end
            else Ill 1
        | [] => Ill 1
        end
      else if c <? 0xF5 then
        match r with
        | b1 :: r1 =>
            if is_continuation b1
               && (if c =? 0xF0 then 0x90 <=? byte_val b1 else true)
               && (if c =? 0xF4 then byte_val b1 <? 0x90 else true)
            then match r1 with
                 | b2 :: r2 =>
                     if is_continuation b2
                     then match r2 with
                          | b3 :: _ =>
                              if is_continuation b3 then Well 4 else Ill 3
                          | [] => Ill 3
                          end
                     else Ill 2
                 | [] => Ill 2
                 end
            else Ill 1
        | [] => Ill 1
        end
      else Ill 1
  end.

Definition replacement_character : list byte := [xef; xbf; xbd].

Fixpoint utf8_go (fuel : nat) (h : ErrHandler) (bs : list byte)
    : option (list byte) :=
  match fuel, bs with
  | O, _ | _, [] => Some []
  | S fuel', _ =>
      match utf8_step bs with
      | Well n => (fun r => (take n bs ++ r)%list) <$> utf8_go fuel' h (drop n bs)
      | Ill n =>
          match h with
          | Strict => None
          | Ignore => utf8_go fuel' h (drop n bs)
          | Replace =>
              (fun r => (replacement_character ++ r)%list)
                <$> utf8_go fuel' h (drop n bs)
          end
      end
  end.

Definition utf8 : Codec :=
  {| decode h bs := string_of_list_byte <$> utf8_go (length bs) h bs |}.

(** *** [ADBManager.run_adb_command] *)

Record ADBManager := {
  builtin_adb_path : option path;
  temp_dir : option path;
}.

(** [str(self.builtin_adb_path)]. *)
Definition str_path (p : option path) : string :=
  match p with
  | Some p => path_str p
  | None => "None"
  end.

(** [cmd = [str(self.builtin_adb_path)] + args]. *)
Definition command_of (self : ADBManager) (args : list string) : list string :=
  str_path (builtin_adb_path self) :: args.

(** [timeout] is a whole number of seconds, as at every call site. *)
Definition run_adb_command (self : ADBManager) (args : list string)
    (timeout : Z) (text : bool) (kwargs : Kwargs) : M World dict :=
  try_excepts
    (let cmd := command_of self args in
     let full_command := join " " cmd in
     print (DCommand full_command timeout);;
     result ← subprocess_run cmd text timeout kwargs;
     let stdout :=
       if text then or_default (cp_stdout result) (VStr "")
       else or_default (cp_stdout result) (VBytes []) in
     let stderr :=
       if text then or_default (cp_stderr result) (VStr "")
       else or_default (cp_stderr result) (VBytes []) in
     print (DReturncode (cp_returncode result));;
     (if text && truthy stdout then print (DStdoutText stdout)
      else if negb text && truthy stdout then print (DStdoutBinary stdout)
      else mret tt);;
     (if text && truthy stderr then print (DStderrText stderr)
      else if negb text && truthy stderr then print (DStderrBinary stderr)
      else mret tt);;
     mret ({[ "success" := VBool (cp_returncode result =? 0);
              "returncode" := VInt (cp_returncode result);
              "stdout" := stdout;
              "stderr" := stderr ]} : dict))
    [ (is_TimeoutExpired, fun e =>
         let error_msg := "ADB命令超时: " +:+ exn_text e in
         print (DFailure error_msg);;
         logger_error error_msg;;
         mret ({[ "success" := VBool false;
                  "error" := VStr ("命令超时: " +:+ str_int timeout +:+ "秒")
               ]} : dict));
      (is_Exception, fun e =>
         let error_msg := "ADB命令执行失败: " +:+ exn_text e in
         print (DFailure error_msg);;
         logger_error error_msg;;
         mret ({[ "success" := VBool false;
                  "error" := VStr (exn_text e) ]} : dict)) ].

(** [ADBManager.check_adb_availability]. *)
Definition check_adb_availability (self : ADBManager) : M World bool :=
  try_excepts
    (result ← run_adb_command self ["version"] 10 true no_kwargs;
     v ← getitem result "success";
     mret (truthy v))
    [ (is_Exception, fun e =>
         logger_error ("检查ADB可用性失败: " +:+ exn_text e);;
         mret false) ].

(** *** Names used in the statements *)

(** Two worlds that differ in what was printed, logged or reaped only. *)
Definition same_env (w1 w2 : World) : Prop :=
  platform w1 = platform w2 /\ codec w1 = codec w2
  /\ spawn w1 = spawn w2 /\ lib_text w1 = lib_text w2.

(** The world once the command line has been printed. *)
Definition announced (self : ADBManager) (args : list string) (timeout : Z)
    (w : World) : World :=
  printed (DCommand (join " " (command_of self args)) timeout) w.

(** The record returned by the two handlers. *)
Definition failure_record (timeout : Z) (e : exn) : dict :=
  if is_TimeoutExpired e
  then {[ "success" := VBool false;
          "error" := VStr ("命令超时: " +:+ str_int timeout +:+ "秒") ]}
  else {[ "success" := VBool false; "error" := VStr (exn_text e) ]}.

(** *** Sample worlds

    A staged executable and worlds in which every spawn of it behaves the
    same way, with the UTF-8 codec. *)

Definition manager : ADBManager :=
  {| builtin_adb_path := Some ["tmp"; "adb_tv_tool_k3"; "adb.exe"];
     temp_dir := Some ["tmp"; "adb_tv_tool_k3"] |}.

Definition plain_text (err : LibError) : string :=
  match err with
  | TimedOut _ timeout => "timed out after " +:+ str_int timeout +:+ " seconds"
  | NonZeroExit _ rc => "returned non-zero exit status " +:+ str_int rc
  | Undecodable _ => "codec can't decode bytes"
  end.

Definition fake_world (pf : Platform) (b : Behaviour) : World :=
  {| platform := pf; codec := utf8; spawn := fun _ => b;
     lib_text := plain_text; console := []; error_log := [];
     children := [] |}.

(** The child prints ["ok"] followed by the stray byte [0xff] and exits
    with code 0 after one second. *)
Definition stray_output : list byte := [x6f; x6b; xff].
Definition stray_child : Behaviour := Runs (Some 1) 0 stray_output [].

(** The child exits with code 1 after one second. *)
Definition failing_child : Behaviour := Runs (Some 1) 1 [] [].

(** The child never exits. *)
Definition hanging_child : Behaviour := Runs None 0 [] [].

Definition missing_binary : Behaviour :=
  SpawnFails (Exn FileNotFoundError "[Errno 2] No such file or directory").

Definition checked : Kwargs := {| kw_check := true; kw_errors := None |}.
Definition replacing : Kwargs :=
  {| kw_check := false; kw_errors := Some Replace |}.

End Executor.

(** ** The session registry *)

Module Registry.
Import Py.

(** [@dataclass DeviceInfo].  The class gives [name] and [model] the
    default [None] and [status] the default ["unknown"]; the one place that
    builds a [DeviceInfo], the module-level [set_current_device], passes
    all four fields. *)
Record DeviceInfo := {
  serial : string;
  name : option string;
  model : option string;
  status : string;
}.

Global Instance DeviceInfo_eq_dec : EqDecision DeviceInfo.
Proof. solve_decision. Defined.

(** The status set of the specification's data model:
    [status: enumerated {unknown, connecting, connected, disconnected}]. *)
Definition enumerated_statuses : list string :=
  ["unknown"; "connecting"; "connected"; "disconnected"].

Inductive Level := DEBUG | INFO | ERROR.

(** A listener is a callable of the observers.  It is known to the registry
    by its identity [lid]; calling it acts on the observers' side of the
    world [W] and may raise.  Listeners do not call back into the
    registry. *)
Record Listener (W : Type) := {
  lid : nat;
  call : option DeviceInfo -> M W unit;
}.
Arguments lid {W} _.
Arguments call {W} _ _ _.

(** One call made to a listener: who was called, with what, and how the call
    ended.  The sequence of calls is kept in the state for the statements
    about notification; the code does not read it. *)
Record Call := {
  target : nat;
  argument : option DeviceInfo;
  result : Outcome unit;
}.

(** The one [DeviceManager] instance with its logger, and the observers.
    [__new__] hands out the same instance at every construction and the
    listener list is an attribute of the class, so that there is one slot
    and one list in the process: they are fields of the state. *)
Record State (W : Type) := {
  _current_device : option DeviceInfo;
  _device_listeners : list (Listener W);
  log : list (Level * string);
  calls : list Call;
  observers : W;
}.
Arguments _current_device {W} _.
Arguments _device_listeners {W} _.
Arguments log {W} _.
Arguments calls {W} _.
Arguments observers {W} _.

Module DeviceManager.
Section Methods.
Context {W : Type}.

Definition assigned (d : option DeviceInfo) (s : State W) : State W :=
  {| _current_device := d; _device_listeners := _device_listeners s;
     log := log s; calls := calls s; observers := observers s |}.
Definition logged (l : Level) (msg : string) (s : State W) : State W :=
  {| _current_device := _current_device s;
     _device_listeners := _device_listeners s;
     log := (log s ++ [(l, msg)])%list; calls := calls s;
     observers := observers s |}.
Definition registered (ls : list (Listener W)) (s : State W) : State W :=
  {| _current_device := _current_device s; _device_listeners := ls;
     log := log s; calls := calls s; observers := observers s |}.
Definition called (c : Call) (w : W) (s : State W) : State W :=
  {| _current_device := _current_device s;
     _device_listeners := _device_listeners s;
     log := log s; calls := (calls s ++ [c])%list; observers := w |}.

Definition logger (l : Level) (msg : string) : M (State W) unit :=
  modify (logged l msg).

(** [listener(device_info)]. *)
Definition invoke (listener : Listener W) (arg : option DeviceInfo)
    : M (State W) unit := fun s =>
  let '(o, w) := call listener arg (observers s) in
  (o, called {| target := lid listener; argument := arg; result := o |} w s).

(** The notification loop of [set_current_device] and
    [clear_current_device]:
<<
    for listener in self._device_listeners:
        try:
            listener(arg)
        except Exception as e:
            self.logger.error(f"通知监听器失败: {e}")
>>
    [guarded] is one turn of the loop. *)
Definition guarded (listener : Listener W) (arg : option DeviceInfo)
    : M (State W) unit :=
  try_excepts (invoke listener arg)
    [ (is_Exception, fun e =>
         logger ERROR ("通知监听器失败: " +:+ exn_text e)) ].

Fixpoint notify (listeners : list (Listener W)) (arg : option DeviceInfo)
    : M (State W) unit :=
  match listeners with
  | [] => mret tt
  | listener :: rest => guarded listener arg;; notify rest arg
  end.

Definition set_current_device (device_info : DeviceInfo)
    : M (State W) unit :=
  modify (assigned (Some device_info));;
  logger INFO ("设置当前设备: " +:+ serial device_info);;
  self ← get;
  notify (_device_listeners self) (Some device_info).

Definition get_current_device : M (State W) (option DeviceInfo) :=
  self ← get; mret (_current_device self).

Definition clear_current_device : M (State W) unit :=
  modify (assigned None);;
  logger INFO "清除当前设备";;
  self ← get;
  notify (_device_listeners self) None.

(** [listener in self._device_listeners]. *)
Definition registered_in (listener : Listener W)
    (listeners : list (Listener W)) : bool :=
  existsb (fun l => Nat.eqb (lid l) (lid listener)) listeners.

(** [list.remove(x)]: drops the first occurrence. *)
Fixpoint list_remove (listener : Listener W) (listeners : list (Listener W))
    : list (Listener W) :=
  match listeners with
  | [] => []
  | l :: rest =>
      if Nat.eqb (lid l) (lid listener) then rest
      else l :: list_remove listener rest
  end.

Definition add_listener (listener : Listener W) : M (State W) unit :=
  self ← get;
  if negb (registered_in listener (_device_listeners self)) then
    modify (registered (_device_listeners self ++ [listener])%list);;
    self ← get;
    logger DEBUG ("添加设备监听器: "
                  +:+ str_int (Z.of_nat (length (_device_listeners self)))
                  +:+ " 个")
  else mret tt.

Definition remove_listener (listener : Listener W) : M (State W) unit :=
  self ← get;
  if registered_in listener (_device_listeners self) then
    modify (registered (list_remove listener (_device_listeners self)));;
    self ← get;
    logger DEBUG ("移除设备监听器: "
                  +:+ str_int (Z.of_nat (length (_device_listeners self)))
                  +:+ " 个")
  else mret tt.

End Methods.
End DeviceManager.

(** The module-level convenience functions act on the global instance
    [device_manager].  An argument left out by the caller is [None]; for
    [status] the default of the signature is then taken. *)
Section Functions.
Context {W : Type}.

Definition set_current_device (serial : string) (name model : option string)
    (status : option string) : M (State W) unit :=
  let device_info :=
    {| serial := serial; name := name; model := model;
       status := default "device" status |} in
  DeviceManager.set_current_device device_info.

Definition get_current_device : M (State W) (option DeviceInfo) :=
  DeviceManager.get_current_device.

Definition clear_current_device : M (State W) unit :=
  DeviceManager.clear_current_device.

End Functions.

(** *** Calls from several threads

    [DeviceManager] holds no lock.  A call made on a thread is a sequence
    of steps between which another thread may run: the assignment of the
    slot with its log line, then one step for each turn of the [for] loop,
    which reads the listener at the current index of the list. *)
Section Threads.
Context {W : Type}.

Inductive Op :=
| OpSet (device_info : DeviceInfo)
| OpClear
| OpGet.

Inductive Thread :=
| Todo (op : Op)
| Notifying (arg : option DeviceInfo) (index : nat)
| Finished (returned : option (option DeviceInfo)).

Global Instance Op_eq_dec : EqDecision Op.
Proof. solve_decision. Defined.
Global Instance Thread_eq_dec : EqDecision Thread.
Proof. solve_decision. Defined.

Definition step (t : Thread) (s : State W) : Thread * State W :=
  match t with
  | Todo (OpSet d) =>
      (Notifying (Some d) 0,
       snd ((modify (DeviceManager.assigned (Some d));;
             DeviceManager.logger INFO ("设置当前设备: " +:+ serial d)) s))
  | Todo OpClear =>
      (Notifying None 0,
       snd ((modify (DeviceManager.assigned None);;
             DeviceManager.logger INFO "清除当前设备") s))
  | Todo OpGet => (Finished (Some (_current_device s)), s)
  | Notifying arg i =>
      match _device_listeners s !! i with
      | Some listener =>
          (Notifying arg (S i), snd (DeviceManager.guarded listener arg s))
      | None => (Finished None, s)
      end
  | Finished r => (Finished r, s)
  end.

(** A schedule names the thread that takes the next step. *)
Fixpoint run_schedule (schedule : list nat) (threads : list Thread)
    (s : State W) : list Thread * State W :=
  match schedule with
  | [] => (threads, s)
  | i :: rest =>
      match threads !! i with
      | Some t =>
          let '(t', s') := step t s in
          run_schedule rest (<[i := t']> threads) s'
      | None => run_schedule rest threads s
      end
  end.

Definition is_finished (t : Thread) : bool :=
  match t with Finished _ => true | _ => false end.

(** [n] steps of one thread that runs alone. *)
Fixpoint steps (n : nat) (t : Thread) (s : State W) : Thread * State W :=
  match n with
  | O => (t, s)
  | S n => let '(t', s') := step t s in steps n t' s'
  end.

(** The states of a thread that runs [set_current_device d]. *)
Definition runs_set (d : DeviceInfo) (t : Thread) : Prop :=
  t = Todo (OpSet d) \/ (exists i, t = Notifying (Some d) i)
  \/ t = Finished None.

(** What holds at every moment of two overlapping [set_current_device]
    calls: once one of them has started, the slot holds one of the two
    devices. *)
Definition set_set_inv (a b : DeviceInfo) (ths : list Thread)
    (s : State W) : Prop :=
  exists t0 t1,
    ths = [t0; t1] /\ runs_set a t0 /\ runs_set b t1
    /\ ((t0 = Todo (OpSet a) /\ t1 = Todo (OpSet b))
        \/ _current_device s = Some a \/ _current_device s = Some b).

(** What holds at every moment of a [get_current_device] that overlaps a
    [set_current_device]: the slot, and the value read, is the old device or
    the new one. *)
Definition set_get_inv (a : DeviceInfo) (old : option DeviceInfo)
    (ths : list Thread) (s : State W) : Prop :=
  exists t0 t1,
    ths = [t0; t1] /\ runs_set a t0
    /\ (t1 = Todo OpGet \/ t1 = Finished (Some old)
        \/ t1 = Finished (Some (Some a)))
    /\ (_current_device s = old \/ _current_device s = Some a).

End Threads.

(** *** Reading the sequence of calls *)

(** Who was called with what. *)
Definition addressed (c : Call) : nat * option DeviceInfo :=
  (target c, argument c).

(** The error line that the loop logs for a call that raised. *)
Definition failure_log (c : Call) : option (Level * string) :=
  match result c with
  | Raise e => Some (ERROR, "通知监听器失败: " +:+ exn_text e)
  | Ok _ => None
  end.

(** What the listener [n] was notified of, in order. *)
Definition history (n : nat) (cs : list Call) : list (option DeviceInfo) :=
  argument <$> filter (fun c => target c = n) cs.

(** *** Sample observers

    Two listeners that return normally and one that always raises, over an
    empty observers' world. *)
Definition quiet (n : nat) : Listener unit :=
  {| lid := n; call := fun _ => mret tt |}.
Definition faulty (n : nat) : Listener unit :=
  {| lid := n; call := fun _ => raise (Exn RuntimeError "widget deleted") |}.

Definition registry_with (ls : list (Listener unit)) : State unit :=
  {| _current_device := None; _device_listeners := ls; log := [];
     calls := []; observers := tt |}.

Definition tv_a : DeviceInfo :=
  {| serial := "192.168.1.20:5555"; name := Some "TV A";
     model := None; status := "connected" |}.
Definition tv_b : DeviceInfo :=
  {| serial := "192.168.1.21:5555"; name := Some "TV B";
     model := None; status := "connected" |}.

End Registry.

(** ** The binary resolver *)

Module Resolver.
Import Py.

(** *** The environment: the file system and the process *)

(** A file system is a finite map from paths to nodes; the entries of a
    directory are the paths one component longer than it. *)
Inductive Node :=
| File (content : list byte)
| Dir.

(** [p / name], [p.parent] and [p.name]. *)
Definition child (p : path) (n : string) : path := (p ++ [n])%list.
Infix "//" := child (at level 40, left associativity).
Definition parent (p : path) : path := removelast p.
Definition name (p : path) : string := default "" (last p).

(** What the interpreter and the operating system tell the resolver:
    [sys.frozen], [sys._MEIPASS] (when the attribute is there),
    [sys.executable], [Path.cwd()], what [shutil.which("adb")] finds on the
    search path, the directory [tempfile.mkdtemp] creates, and
    [os.pathsep]. *)
Record Sys := {
  frozen : bool;
  _MEIPASS : option path;
  executable : path;
  cwd : path;
  which_adb : option path;
  mkdtemp_result : path;
  pathsep : string;
}.

Inductive Level := DEBUG | INFO | WARNING | ERROR.

(** The file system, [os.environ['PATH']], the log, and the two attributes
    of the [ADBManager] instance. *)
Record State := {
  fs : gmap path Node;
  environ_PATH : option string;
  log : list (Level * string);
  builtin_adb_path : option path;
  temp_dir : option path;
}.

Definition with_fs (f : gmap path Node) (s : State) : State :=
  {| fs := f; environ_PATH := environ_PATH s; log := log s;
     builtin_adb_path := builtin_adb_path s; temp_dir := temp_dir s |}.
Definition with_PATH (v : string) (s : State) : State :=
  {| fs := fs s; environ_PATH := Some v; log := log s;
     builtin_adb_path := builtin_adb_path s; temp_dir := temp_dir s |}.
Definition with_log (l : Level) (msg : string) (s : State) : State :=
  {| fs := fs s; environ_PATH := environ_PATH s;
     log := (log s ++ [(l, msg)])%list;
     builtin_adb_path := builtin_adb_path s; temp_dir := temp_dir s |}.
Definition with_builtin_adb_path (p : path) (s : State) : State :=
  {| fs := fs s; environ_PATH := environ_PATH s; log := log s;
     builtin_adb_path := Some p; temp_dir := temp_dir s |}.
Definition with_temp_dir (p : path) (s : State) : State :=
  {| fs := fs s; environ_PATH := environ_PATH s; log := log s;
     builtin_adb_path := builtin_adb_path s; temp_dir := Some p |}.

Definition logger (l : Level) (msg : string) : M State unit :=
  modify (with_log l msg).

(** [p.exists()], [p.is_file()]. *)
Definition path_exists (f : gmap path Node) (p : path) : bool :=
  bool_decide (is_Some (f !! p)).
Definition is_file (f : gmap path Node) (p : path) : bool :=
  match f !! p with
  | Some (File _) => true
  | _ => false
  end.

(** [d.glob("*")]: the entries of the directory [d]. *)
Definition glob (f : gmap path Node) (d : path) : list path :=
  filter (fun p => p = d // name p) (map_to_list f).*1.

(** [shutil.copy2(src, dst)]: [src] must be a file; when [dst] is a
    directory the copy goes into it under the name of [src]; the directory
    that receives the copy must exist. *)
Definition copy2 (src dst : path) : M State unit :=
  s ← get;
  match fs s !! src with
  | Some (File content) =>
      let dst := match fs s !! dst with
                 | Some Dir => dst // name src
                 | _ => dst
                 end in
      if bool_decide (dst = src)
      then raise (Exn OSError "are the same file")
      else
        match fs s !! dst, fs s !! parent dst with
        | Some Dir, _ => raise (Exn OSError "Is a directory")
        | _, Some Dir => modify (with_fs (<[dst := File content]> (fs s)))
        | _, _ => raise (Exn FileNotFoundError "No such file or directory")
        end
  | Some Dir => raise (Exn OSError "Is a directory")
  | None => raise (Exn FileNotFoundError "No such file or directory")
  end.

(** [tempfile.mkdtemp(prefix="adb_tv_tool_")]. *)
Definition mkdtemp (sys : Sys) : M State path :=
  s ← get;
  modify (with_fs (<[mkdtemp_result sys := Dir]> (fs s)));;
  mret (mkdtemp_result sys).

(** [Path(self.temp_dir)]. *)
Definition Path_temp_dir : M State path :=
  self ← get;
  match temp_dir self with
  | Some p => mret p
  | None => raise (Exn TypeError "expected str, bytes or os.PathLike object")
  end.

(** *** [ADBManager] *)

(** The loop that the three copying places share:
<<
    for file_path in source.glob("*"):
        if file_path.is_file():
            dest_path = Path(self.temp_dir) / file_path.name
            shutil.copy2(file_path, dest_path)
            self.logger.debug(f"...: {file_path.name}")
>> *)
Fixpoint copy_files (label : string) (files : list path) : M State unit :=
  match files with
  | [] => mret tt
  | file_path :: rest =>
      s ← get;
      (if is_file (fs s) file_path then
         temp ← Path_temp_dir;
         let dest_path := temp // name file_path in
         copy2 file_path dest_path;;
         logger DEBUG (label +:+ name file_path)
       else mret tt);;
      copy_files label rest
  end.

Definition E_ADB : path := ["E:"; "ADB"].

Definition _verify_adb_exists : M State bool :=
  self ← get;
  match builtin_adb_path self with
  | Some p =>
      if path_exists (fs self) p then
        logger INFO ("ADB工具已找到: " +:+ path_str p);; mret true
      else
        logger ERROR ("ADB工具不存在: " +:+ path_str p);; mret false
  | None => logger ERROR "ADB工具不存在: None";; mret false
  end.

Definition _copy_adb_from_e_drive : M State unit :=
  try_excepts
    (let source_dir := E_ADB in
     s ← get;
     (if negb (path_exists (fs s) source_dir)
      then raise (Exn FileNotFoundError "E盘ADB目录不存在")
      else mret tt);;
     copy_files "复制文件: " (glob (fs s) source_dir);;
     temp ← Path_temp_dir;
     modify (with_builtin_adb_path (temp // "adb.exe"));;
     logger INFO ("从E盘复制ADB工具完成: " +:+ path_str (temp // "adb.exe")))
    [ (is_Exception, fun e =>
         logger ERROR ("从E盘复制ADB失败: " +:+ exn_text e);;
         raise e) ].

(** One candidate of [_try_find_adb_alternative]: copy [src] to
    [temp_dir/adb.exe] and keep it if it is there afterwards. *)
Definition stage (src : path) (found : string) : M State bool :=
  temp ← Path_temp_dir;
  let temp_adb_path := temp // "adb.exe" in
  copy2 src temp_adb_path;;
  s ← get;
  if path_exists (fs s) temp_adb_path then
    modify (with_builtin_adb_path temp_adb_path);;
    logger INFO (found +:+ path_str temp_adb_path);;
    mret true
  else mret false.

Definition _try_find_adb_alternative (sys : Sys) : M State bool :=
  try_excepts
    (let current_dir_adb := cwd sys // "adb" in
     s ← get;
     staged ← (if path_exists (fs s) current_dir_adb
               then stage (current_dir_adb // "adb.exe")
                      "从当前目录找到ADB工具: "
               else mret false : M State bool);
     if (staged : bool) then mret true else
     let exe_dir_adb := parent (executable sys) // "adb" in
     s ← get;
     staged ← (if path_exists (fs s) exe_dir_adb
               then stage (exe_dir_adb // "adb.exe") "从EXE目录找到ADB工具: "
               else mret false : M State bool);
     if (staged : bool) then mret true else
     staged ← (match which_adb sys with
               | Some system_adb => stage system_adb "从系统PATH复制ADB工具: "
               | None => mret false
               end : M State bool);
     if (staged : bool) then mret true else
     raise (Exn FileNotFoundError "无法找到可用的ADB工具"))
    [ (is_Exception, fun e =>
         logger ERROR ("备用ADB查找方法失败: " +:+ exn_text e);;
         mret false) ].

Definition _extract_adb_from_resources (sys : Sys) : M State bool :=
  try_excepts
    (logger INFO "在EXE环境中，尝试提取内置ADB工具";;
     (match _MEIPASS sys with
      | Some meipass_path =>
          let adb_resources_path := meipass_path // "adb" in
          s ← get;
          if path_exists (fs s) adb_resources_path
          then copy_files "从资源复制文件: " (glob (fs s) adb_resources_path)
          else mret tt
      | None => mret tt
      end);;
     temp ← Path_temp_dir;
     let adb_in_temp := temp // "adb" in
     s ← get;
     (if path_exists (fs s) adb_in_temp
      then copy_files "从临时子目录复制文件: " (glob (fs s) adb_in_temp)
      else mret tt);;
     temp ← Path_temp_dir;
     let temp_adb_path := temp // "adb.exe" in
     s ← get;
     if path_exists (fs s) temp_adb_path then
       modify (with_builtin_adb_path temp_adb_path);;
       logger INFO ("成功使用内置ADB工具: " +:+ path_str temp_adb_path);;
       mret true
     else _try_find_adb_alternative sys)
    [ (is_Exception, fun e =>
         logger ERROR ("提取内置ADB工具失败: " +:+ exn_text e);;
         _try_find_adb_alternative sys) ].

Definition setup_builtin_adb (sys : Sys) : M State unit :=
  try_excepts
    (temp ← mkdtemp sys;
     modify (with_temp_dir temp);;
     logger INFO ("创建临时ADB目录: " +:+ path_str temp);;
     (if frozen sys then
        success ← _extract_adb_from_resources sys;
        if negb success then
          logger WARNING "内置ADB提取失败，尝试备用方案";;
          _copy_adb_from_e_drive
        else mret tt
      else _copy_adb_from_e_drive);;
     self ← get;
     (if match builtin_adb_path self with
         | Some p => negb (path_exists (fs self) p)
         | None => true
         end
      then
        logger WARNING "主方法失败，尝试备用方法";;
        found ← _try_find_adb_alternative sys;
        if negb found
        then raise (Exn FileNotFoundError "所有ADB查找方法都失败")
        else mret tt
      else mret tt);;
     verified ← _verify_adb_exists;
     (if negb verified
      then raise (Exn FileNotFoundError "ADB工具未找到或不可用")
      else mret tt);;
     self ← get;
     match environ_PATH self with
     | Some old =>
         modify (with_PATH (path_str temp +:+ pathsep sys +:+ old));;
         logger INFO ("ADB管理器初始化完成，ADB路径: "
                      +:+ Executor.str_path (builtin_adb_path self))
     | None => raise (Exn KeyError "'PATH'")
     end)
    [ (is_Exception, fun e =>
         logger ERROR ("ADB管理器初始化失败: " +:+ exn_text e);;
         raise e) ].

(** *** The outcome of a resolution *)

Definition file_content (f : gmap path Node) (p : path)
    : option (list byte) :=
  match f !! p with
  | Some (File content) => Some content
  | _ => None
  end.

(** The content of the first candidate that is a file. *)
Fixpoint first_file (f : gmap path Node) (candidates : list path)
    : option (list byte) :=
  match candidates with
  | [] => None
  | p :: rest =>
      match file_content f p with
      | Some content => Some content
      | None => first_file f rest
      end
  end.

(** What [setup_builtin_adb] stages: the content of [builtin_adb_path] when
    it returns, nothing when it raises. *)
Definition resolve (sys : Sys) (s : State) : option (list byte) :=
  match setup_builtin_adb sys s with
  | (Ok _, s') =>
      match builtin_adb_path s' with
      | Some p => file_content (fs s') p
      | None => None
      end
  | (Raise _, _) => None
  end.




(** *** The stages of [setup_builtin_adb] and the machines considered *)

(** The three stages of the body of [setup_builtin_adb] after the
    temporary directory has been made, named for the proofs: the method
    chosen by [sys.frozen], the alternative chain when that method left no
    executable, and the verification with the update of [PATH]. *)
Definition primary (sys : Sys) : M State unit :=
  if frozen sys then
    success ← _extract_adb_from_resources sys;
    if negb success then
      logger WARNING "内置ADB提取失败，尝试备用方案";;
      _copy_adb_from_e_drive
    else mret tt
  else _copy_adb_from_e_drive.

Definition fallback (sys : Sys) : M State unit :=
  self ← get;
  if match builtin_adb_path self with
     | Some p => negb (path_exists (fs self) p)
     | None => true
     end
  then
    logger WARNING "主方法失败，尝试备用方法";;
    found ← _try_find_adb_alternative sys;
    if negb found
    then raise (Exn FileNotFoundError "所有ADB查找方法都失败")
    else mret tt
  else mret tt.

Definition finish (sys : Sys) (temp : path) : M State unit :=
  verified ← _verify_adb_exists;
  (if negb verified
   then raise (Exn FileNotFoundError "ADB工具未找到或不可用")
   else mret tt);;
  self ← get;
  match environ_PATH self with
  | Some old =>
      modify (with_PATH (path_str temp +:+ pathsep sys +:+ old));;
      logger INFO ("ADB管理器初始化完成，ADB路径: "
                   +:+ Executor.str_path (builtin_adb_path self))
  | None => raise (Exn KeyError "'PATH'")
  end.

(** The assumptions on the machine under which the resolution order is
    stated. *)
Record tidy (sys : Sys) (s0 : State) : Prop := {
  (* the temporary directory is new: nothing is at or below it *)
  tidy_new :
    forall q : path, mkdtemp_result sys `prefix_of` q -> fs s0 !! q = None;
  (* it is named by mkdtemp(prefix="adb_tv_tool_") *)
  tidy_name : String.prefix "adb_tv_tool_" (name (mkdtemp_result sys)) = true;
  (* whatever exists lies in a directory *)
  tidy_tree :
    forall (p : path) n, is_Some (fs s0 !! (p // n)) -> fs s0 !! p = Some Dir;
  (* the working directory and the directory of the executable exist *)
  tidy_cwd : is_Some (fs s0 !! cwd sys);
  tidy_exe : is_Some (fs s0 !! parent (executable sys));
  (* an adb directory that exists holds adb.exe *)
  tidy_cwd_adb :
    path_exists (fs s0) (cwd sys // "adb") = true ->
    is_file (fs s0) (cwd sys // "adb" // "adb.exe") = true;
  tidy_exe_adb :
    path_exists (fs s0) (parent (executable sys) // "adb") = true ->
    is_file (fs s0) (parent (executable sys) // "adb" // "adb.exe") = true;
  (* shutil.which returns a file *)
  tidy_which :
    forall p : path, which_adb sys = Some p -> is_file (fs s0) p = true;
  (* PATH is set *)
  tidy_PATH : is_Some (environ_PATH s0);
}.

Definition is_dir (f : gmap path Node) (p : path) : bool :=
  match f !! p with
  | Some Dir => true
  | _ => false
  end.

(** [tidy], as a test that can be run. *)
Definition tidy_check (sys : Sys) (s0 : State) : bool :=
  bool_decide (map_Forall (fun (q : path) (_ : Node) =>
                 ~ mkdtemp_result sys `prefix_of` q) (fs s0))
  && String.prefix "adb_tv_tool_" (name (mkdtemp_result sys))
  && bool_decide (map_Forall (fun (q : path) (_ : Node) =>
                    q = [] \/ is_dir (fs s0) (parent q) = true) (fs s0))
  && path_exists (fs s0) (cwd sys)
  && path_exists (fs s0) (parent (executable sys))
  && implb (path_exists (fs s0) (cwd sys // "adb"))
       (is_file (fs s0) (cwd sys // "adb" // "adb.exe"))
  && implb (path_exists (fs s0) (parent (executable sys) // "adb"))
       (is_file (fs s0) (parent (executable sys) // "adb" // "adb.exe"))
  && match which_adb sys with
     | Some p => is_file (fs s0) p
     | None => true
     end
  && bool_decide (is_Some (environ_PATH s0)).

(** What holds of the state between the creation of the temporary
    directory and the end of the resolution, on a machine whose file system
    was [f0] and whose [PATH] was [P]: files are only ever added directly
    under the temporary directory. *)
Definition inv (sys : Sys) (f0 : gmap path Node) (P : option string)
    (s : State) : Prop :=
  temp_dir s = Some (mkdtemp_result sys)
  /\ environ_PATH s = P
  /\ (forall q : path,
        (forall n, q <> mkdtemp_result sys // n) ->
        fs s !! q = <[mkdtemp_result sys := Dir]> f0 !! q)
  /\ (forall n, fs s !! (mkdtemp_result sys // n) <> Some Dir).

(** *** Sample machines *)

Definition drive : gmap path Node :=
  list_to_map
    [ ([], Dir); (["C:"], Dir); (["C:"; "Temp"], Dir);
      (["C:"; "app"], Dir); (["C:"; "app"; "tool.exe"], File [x4d; x5a]);
      (["C:"; "app"; "adb"], Dir);
      (["C:"; "app"; "adb"; "adb.exe"], File [x0e]);
      (["C:"; "work"], Dir); (["C:"; "work"; "adb"], Dir);
      (["C:"; "work"; "adb"; "adb.exe"], File [x0c]) ].

Definition machine (f : gmap path Node) : State :=
  {| fs := f; environ_PATH := Some "C:/Windows/system32"; log := [];
     builtin_adb_path := None; temp_dir := None |}.

Definition packaged : Sys :=
  {| frozen := true; _MEIPASS := None;
     executable := ["C:"; "app"; "tool.exe"]; cwd := ["C:"; "work"];
     which_adb := None;
     mkdtemp_result := ["C:"; "Temp"; "adb_tv_tool_k3"]; pathsep := ";" |}.

Definition from_source : Sys :=
  {| frozen := false; _MEIPASS := None;
     executable := ["C:"; "app"; "tool.exe"]; cwd := ["C:"; "work"];
     which_adb := None;
     mkdtemp_result := ["C:"; "Temp"; "adb_tv_tool_k3"]; pathsep := ";" |}.

(** A packaged process whose bundle holds [adb.exe] and a library. *)
Definition bundle : gmap path Node :=
  list_to_map
    [ ([], Dir); (["C:"], Dir); (["C:"; "Temp"], Dir);
      (["C:"; "Temp"; "_MEI42"], Dir);
      (["C:"; "Temp"; "_MEI42"; "adb"], Dir);
      (["C:"; "Temp"; "_MEI42"; "adb"; "adb.exe"], File [xad; xb0]);
      (["C:"; "Temp"; "_MEI42"; "adb"; "AdbWinApi.dll"], File [xa1]);
      (["C:"; "app"], Dir); (["C:"; "app"; "tool.exe"], File [x4d; x5a]);
      (["C:"; "work"], Dir); (["C:"; "work"; "adb"], Dir);
      (["C:"; "work"; "adb"; "adb.exe"], File [x0c]) ].

Definition onefile : Sys :=
  {| frozen := true; _MEIPASS := Some ["C:"; "Temp"; "_MEI42"];
     executable := ["C:"; "app"; "tool.exe"]; cwd := ["C:"; "work"];
     which_adb := None;
     mkdtemp_result := ["C:"; "Temp"; "adb_tv_tool_k3"]; pathsep := ";" |}.


End Resolver.

(** ** A session of the registry

    What a client of [device_manager] does over time: a sequence of calls
    of its four mutating methods. *)
Module Session.
Import Py Registry.

Section Requests.
Context {W : Type}.

Inductive Request :=
| SetDevice (device_info : DeviceInfo)
| ClearDevice
| AddListener (listener : Listener W)
| RemoveListener (listener : Listener W).

Definition perform (r : Request) : M (State W) unit :=
  match r with
  | SetDevice d => DeviceManager.set_current_device d
  | ClearDevice => DeviceManager.clear_current_device
  | AddListener l => DeviceManager.add_listener l
  | RemoveListener l => DeviceManager.remove_listener l
  end.

Fixpoint perform_all (rs : list Request) : M (State W) unit :=
  match rs with
  | [] => mret tt
  | r :: rest => perform r;; perform_all rest
  end.

(** The value a request assigns to the slot, if it assigns one. *)
Definition assignment (r : Request) : option (option DeviceInfo) :=
  match r with
  | SetDevice d => Some (Some d)
  | ClearDevice => Some None
  | AddListener _ | RemoveListener _ => None
  end.


End Requests.

Arguments Request : clear implicits.

End Session.

(** ** What a call of the executor leaves behind *)
Module Outcomes.
Import Py Executor.

(** The record [run_adb_command] builds when [subprocess.run] returned. *)
Definition completed_record (text : bool) (cp : CompletedProcess) : dict :=
  {[ "success" := VBool (cp_returncode cp =? 0);
     "returncode" := VInt (cp_returncode cp);
     "stdout" := or_default (cp_stdout cp) (if text then VStr "" else VBytes []);
     "stderr" := or_default (cp_stderr cp) (if text then VStr "" else VBytes [])
  ]}.

Definition record_of (text : bool) (timeout : Z)
    (o : Outcome CompletedProcess) : dict :=
  match o with
  | Ok cp => completed_record text cp
  | Raise e => failure_record timeout e
  end.


Definition is_ascii (b : byte) : bool := byte_val b <? 0x80.

(** A child that writes the eight bytes of the PNG signature, with its
    carriage return and line feeds, and one that answers [adb devices] with
    the line ends of Windows. *)
Definition png_signature : list byte :=
  [x89; x50; x4e; x47; x0d; x0a; x1a; x0a].
Definition screencap_child : Behaviour := Runs (Some 2) 0 png_signature [].
Definition devices_child : Behaviour :=
  Runs (Some 1) 0
    (list_byte_of_string "List of devices attached"
     ++ [x0d; x0a] ++ list_byte_of_string "emulator-5554" ++ [x09]
     ++ list_byte_of_string "device" ++ [x0d; x0a])%list [].

End Outcomes.

(** ** The life of the manager: construction, clean-up, the global
    instance *)
Module Lifecycle.
Import Py Resolver.

(** [hoare P m Q E]: run from a state in which [P] holds, [m] either
    returns a value [a] in a state in which [Q a] holds, or raises in a
    state in which [E] holds. *)
Definition hoare {S A} (P : S -> Prop) (m : M S A) (Q : A -> S -> Prop)
    (E : S -> Prop) : Prop :=
  forall s, P s ->
    match m s with
    | (Ok a, s') => Q a s'
    | (Raise _, s') => E s'
    end.

(** [tempfile.mkdtemp] makes a directory that was not there. *)
Definition fresh (sys : Sys) (s0 : State) : Prop :=
  forall q : path, mkdtemp_result sys `prefix_of` q -> fs s0 !! q = None.

Definition fresh_check (sys : Sys) (s0 : State) : bool :=
  bool_decide (map_Forall (fun (q : path) (_ : Node) =>
                 ~ mkdtemp_result sys `prefix_of` q) (fs s0)).

(** [shutil.rmtree(p)] on a file system without permissions and locks: a
    directory goes with everything below it; anything else is an error. *)
Definition rmtree (p : path) : M State unit :=
  s ← get;
  match fs s !! p with
  | Some Dir =>
      modify (with_fs (filter (fun kv : path * Node => ~ p `prefix_of` kv.1)
                         (fs s)))
  | Some (File _) => raise (Exn OSError "Not a directory")
  | None => raise (Exn FileNotFoundError "No such file or directory")
  end.

(** [ADBManager.cleanup]. *)
Definition cleanup : M State unit :=
  self ← get;
  match temp_dir self with
  | Some temp =>
      if truthy (VStr (path_str temp)) && path_exists (fs self) temp then
        try_excepts
          (rmtree temp;;
           logger INFO ("清理临时ADB目录: " +:+ path_str temp))
          [ (is_Exception, fun e =>
               logger WARNING ("清理临时目录失败: " +:+ exn_text e)) ]
      else mret tt
  | None => mret tt
  end.

(** [ADBManager()]: [__init__] sets the two attributes to [None] and runs
    the resolution; the instance is handed out when [__init__] returns. *)
Definition new_instance (s : State) : State :=
  {| fs := fs s; environ_PATH := environ_PATH s; log := log s;
     builtin_adb_path := None; temp_dir := None |}.

Definition instance_of (s : State) : Executor.ADBManager :=
  {| Executor.builtin_adb_path := builtin_adb_path s;
     Executor.temp_dir := temp_dir s |}.

Definition of_instance (self : Executor.ADBManager) (s : State) : State :=
  {| fs := fs s; environ_PATH := environ_PATH s; log := log s;
     builtin_adb_path := Executor.builtin_adb_path self;
     temp_dir := Executor.temp_dir self |}.

Definition __init__ (sys : Sys) : M State unit :=
  modify new_instance;;
  setup_builtin_adb sys.

Definition ADBManager (sys : Sys) : M State Executor.ADBManager :=
  __init__ sys;;
  self ← get;
  mret (instance_of self).

(** The process: the world it runs in and the module global [_adb_manager]. *)
Record Process := {
  world : State;
  _adb_manager : option Executor.ADBManager;
}.

Definition on_machine {A} (m : M State A) : M Process A := fun p =>
  let '(o, s') := m (world p) in
  (o, {| world := s'; _adb_manager := _adb_manager p |}).

Definition assign_adb_manager (v : option Executor.ADBManager) (p : Process)
    : Process :=
  {| world := world p; _adb_manager := v |}.

(** [get_adb_manager()]; [sys] is what the interpreter and the operating
    system answer at the time of the call. *)
Definition get_adb_manager (sys : Sys) : M Process Executor.ADBManager :=
  p ← get;
  match _adb_manager p with
  | None =>
      self ← on_machine (ADBManager sys);
      modify (assign_adb_manager (Some self));;
      mret self
  | Some self => mret self
  end.

(** [cleanup_adb_manager()]. *)
Definition cleanup_adb_manager : M Process unit :=
  p ← get;
  match _adb_manager p with
  | Some self =>
      on_machine (modify (of_instance self);; cleanup);;
      modify (assign_adb_manager None)
  | None => mret tt
  end.

(** What [stage] does to a state: it raises and leaves it alone, or it
    returns [True] with the executable in place. *)
Definition unchanged (s s' : State) : Prop :=
  fs s' = fs s /\ builtin_adb_path s' = builtin_adb_path s
  /\ temp_dir s' = temp_dir s /\ environ_PATH s' = environ_PATH s.

Definition in_place (s s' : State) : Prop :=
  temp_dir s' = temp_dir s /\ environ_PATH s' = environ_PATH s
  /\ exists temp : path,
       temp_dir s = Some temp
       /\ builtin_adb_path s' = Some (temp // "adb.exe")
       /\ path_exists (fs s') (temp // "adb.exe") = true.

Definition process (s : State) : Process :=
  {| world := s; _adb_manager := None |}.

(** A working directory whose [adb] directory is empty, next to an
    executable whose [adb] directory holds [adb.exe]. *)
Definition drive_with_empty_adb : gmap path Node :=
  list_to_map
    [ ([], Dir); (["C:"], Dir); (["C:"; "Temp"], Dir);
      (["C:"; "Temp"; "adb_tv_tool_k3"], Dir);
      (["C:"; "app"], Dir); (["C:"; "app"; "tool.exe"], File [x4d; x5a]);
      (["C:"; "app"; "adb"], Dir);
      (["C:"; "app"; "adb"; "adb.exe"], File [x0e]);
      (["C:"; "work"], Dir); (["C:"; "work"; "adb"], Dir) ].

(** A development machine whose [E:/ADB] holds the executable, a library
    and a directory. *)
Definition drive_with_libraries : gmap path Node :=
  list_to_map
    [ ([], Dir); (["C:"], Dir); (["C:"; "Temp"], Dir);
      (["C:"; "app"], Dir); (["C:"; "app"; "tool.exe"], File [x4d; x5a]);
      (["C:"; "work"], Dir);
      (["E:"], Dir); (["E:"; "ADB"], Dir);
      (["E:"; "ADB"; "adb.exe"], File [xed]);
      (["E:"; "ADB"; "AdbWinApi.dll"], File [xa1; xa2]);
      (["E:"; "ADB"; "docs"], Dir);
      (["E:"; "ADB"; "docs"; "README"], File [x52]) ].

Definition resolving (f : gmap path Node) : State :=
  {| fs := f; environ_PATH := Some "C:/Windows/system32"; log := [];
     builtin_adb_path := None;
     temp_dir := Some ["C:"; "Temp"; "adb_tv_tool_k3"] |}.

End Lifecycle.

(** ** Python's [str] methods used by the pages *)
Module Text.
Import Py.

Definition code (c : ascii) : N := N_of_ascii c.

Definition TAB : ascii := ascii_of_nat 9.
Definition STAR : ascii := ascii_of_nat 42.

(** [str.isspace] on a code point below 128: U+0009 to U+000D, U+001C to
    U+001F and the space. *)
Definition ascii_space (a : ascii) : bool :=
  (((9 <=? code a) && (code a <=? 13)) || ((28 <=? code a) && (code a <=? 32)))%N.

(** The white-space code points from 128 on, in UTF-8: U+0085 and U+00A0
    (two bytes, C2 85 and C2 A0); U+1680 (E1 9A 80), U+2000 to U+200A
    (E2 80 80 to E2 80 8A), U+2028, U+2029 and U+202F (E2 80 A8, A9, AF),
    U+205F (E2 81 9F) and U+3000 (E3 80 80). *)
Definition space2 (a b : ascii) : bool :=
  ((code a =? 0xC2) && ((code b =? 0x85) || (code b =? 0xA0)))%N.
Definition space3 (a b c : ascii) : bool :=
  (((code a =? 0xE1) && (code b =? 0x9A) && (code c =? 0x80))
   || ((code a =? 0xE2) && (code b =? 0x80)
       && (((0x80 <=? code c) && (code c <=? 0x8A))
           || (code c =? 0xA8) || (code c =? 0xA9) || (code c =? 0xAF)))
   || ((code a =? 0xE2) && (code b =? 0x81) && (code c =? 0x9F))
   || ((code a =? 0xE3) && (code b =? 0x80) && (code c =? 0x80)))%N.

(** [s.lstrip()]. *)
Fixpoint lstrip (s : string) : string :=
  match s with
  | String a r =>
      if ascii_space a then lstrip r
      else
        match r with
        | String b r' =>
            if space2 a b then lstrip r'
            else
              match r' with
              | String c r'' => if space3 a b c then lstrip r'' else s
              | EmptyString => s
              end
        | EmptyString => s
        end
  | EmptyString => EmptyString
  end.

(** [s.rstrip()]: the string is cut where what follows is white space
    only. *)
Fixpoint rstrip (s : string) : string :=
  match s with
  | String a r =>
      if String.eqb (lstrip s) "" then "" else String a (rstrip r)
  | EmptyString => EmptyString
  end.

(** [s.strip()]. *)
Definition strip (s : string) : string := rstrip (lstrip s).

(** [s.split(sep)] for a separator of one character. *)
Fixpoint split (sep : ascii) (s : string) : list string :=
  match s with
  | EmptyString => [""]
  | String a r =>
      if Ascii.eqb a sep then "" :: split sep r
      else
        match split sep r with
        | h :: t => String a h :: t
        | [] => [String a ""]
        end
  end.

(** [s.startswith(p)] and [needle in hay]. *)
Definition startswith (s p : string) : bool := String.prefix p s.

(** The printable characters other than the space. *)
Definition graphic (a : ascii) : bool :=
  ((33 <=? code a) && (code a <=? 126))%N.

Fixpoint no_char (c : ascii) (s : string) : bool :=
  match s with
  | EmptyString => true
  | String a r => negb (Ascii.eqb a c) && no_char c r
  end.

Definition starts_graphic (s : string) : bool :=
  match s with
  | String a _ => graphic a
  | EmptyString => false
  end.

Fixpoint ends_graphic (s : string) : bool :=
  match s with
  | EmptyString => false
  | String a EmptyString => graphic a
  | String _ r => ends_graphic r
  end.

Fixpoint all_graphic (s : string) : bool :=
  match s with
  | EmptyString => true
  | String a r => graphic a && all_graphic r
  end.

(** A word: one printable character or more, none of them a space. *)
Definition graphic_word (s : string) : bool :=
  negb (String.eqb s "") && all_graphic s.

(** [k] line feeds. *)
Fixpoint newlines (k : nat) : string :=
  match k with
  | O => EmptyString
  | S k => String Executor.LF (newlines k)
  end.

End Text.

(** ** The callers: the worker threads of the pages and the main window *)
Module Pages.
Import Py Text.

(** *** The state of the application

    The main window as far as its methods below read and write it: the
    text of the address field, its own idea of the current device, the
    status label, whether the two buttons are enabled, and the lines of
    the command log.  A line that renders a value of a result record is
    kept with that value. *)
Inductive Entry :=
| Line (text : string)
| ConnectFailed (stderr : value)
| DisconnectFailed (stderr : value).

Record Window := {
  ip_input : string;
  current_device : option Registry.DeviceInfo;
  device_status : string;
  connect_button : bool;
  disconnect_button : bool;
  command_log : list Entry;
}.

(** The process of the manager, the world of the executor, the registry
    with the window as its observer, and what the worker threads have
    emitted on their [log_message] signal. *)
Record App := {
  proc : Lifecycle.Process;
  exec : Executor.World;
  registry : Registry.State Window;
  signals : list string;
}.

Definition on_proc {A} (m : M Lifecycle.Process A) : M App A := fun app =>
  let '(o, p) := m (proc app) in
  (o, {| proc := p; exec := exec app; registry := registry app;
         signals := signals app |}).

Definition on_exec {A} (m : M Executor.World A) : M App A := fun app =>
  let '(o, w) := m (exec app) in
  (o, {| proc := proc app; exec := w; registry := registry app;
         signals := signals app |}).


(** The application after the executor has run. *)
Definition ran (w : Executor.World) (app : App) : App :=
  {| proc := proc app; exec := w; registry := registry app;
     signals := signals app |}.

(** [self.log_message.emit(text)]. *)
Definition emit (text : string) : M App unit :=
  modify (fun app =>
    {| proc := proc app; exec := exec app; registry := registry app;
       signals := (signals app ++ [text])%list |}).

(** *** Methods of [str] and [bytes] applied to a value of a record

    [AttributeError] is not among the classes of [ExnClass]; an attribute
    that a value does not have is reported under [RuntimeError], which the
    handlers of the methods below, all of them [except Exception], treat
    alike. *)

Definition bytes_space (b : byte) : bool :=
  let n := Byte.to_N b in
  (((9 <=? n) && (n <=? 13)) || (n =? 32))%N.

Fixpoint bytes_lstrip (bs : list byte) : list byte :=
  match bs with
  | b :: r => if bytes_space b then bytes_lstrip r else bs
  | [] => []
  end.

Definition bytes_strip (bs : list byte) : list byte :=
  rev (bytes_lstrip (rev (bytes_lstrip bs))).

Definition no_attribute {S A} (v : value) (attribute : string) : M S A :=
  raise (Exn RuntimeError
           ("'" +:+ match v with
                    | VBool _ => "bool"
                    | VInt _ => "int"
                    | VStr _ => "str"
                    | VBytes _ => "bytes"
                    end +:+ "' object has no attribute '" +:+ attribute
            +:+ "'")).

(** [v.strip()]. *)
Definition value_strip {S} (v : value) : M S value :=
  match v with
  | VStr s => mret (VStr (strip s))
  | VBytes bs => mret (VBytes (bytes_strip bs))
  | _ => no_attribute v "strip"
  end.

(** [v.split(sep)] for a separator that is a [str] of one character. *)
Definition value_split {S} (v : value) (sep : ascii) : M S (list string) :=
  match v with
  | VStr s => mret (split sep s)
  | VBytes _ =>
      raise (Exn TypeError "a bytes-like object is required, not 'str'")
  | _ => no_attribute v "split"
  end.


(** *** [ADBEnvironmentChecker.get_connected_devices]
    (ui/content_pages/environment_check.py)

    The loop over the lines:
<<
    for line in lines:
        if line.strip() and not line.startswith('*'):
            parts = line.split('\t')
            if len(parts) >= 2:
                devices.append({"serial": parts[0], "status": parts[1]})
>> *)
Fixpoint connected_entries (lines : list string) : list dict :=
  match lines with
  | [] => []
  | line :: rest =>
      if truthy (VStr (strip line)) && negb (startswith line "*") then
        match split TAB line with
        | serial :: status :: _ =>
            ({[ "serial" := VStr serial; "status" := VStr status ]} : dict)
            :: connected_entries rest
        | _ => connected_entries rest
        end
      else connected_entries rest
  end.

Definition get_connected_devices (sys : Resolver.Sys) : M App (list dict) :=
  try_excepts
    (adb_manager ← on_proc (Lifecycle.get_adb_manager sys);
     result ← on_exec (Executor.run_adb_command adb_manager ["devices"] 10
                         true Executor.no_kwargs);
     success ← getitem result "success";
     if truthy success then
       stdout ← getitem result "stdout";
       stripped ← value_strip stdout;
       lines ← value_split stripped Executor.LF;
       mret (connected_entries (tail lines))
     else mret [])
    [ (is_Exception, fun e =>
         emit ("设备检测异常: " +:+ exn_text e);;
         mret []) ].

(** *** [DeviceScanner] (ui/content_pages/device_connect.py) *)

Definition get_device_name (sys : Resolver.Sys) (serial : string)
    : M App value :=
  try_excepts
    (adb_manager ← on_proc (Lifecycle.get_adb_manager sys);
     result ← on_exec (Executor.run_adb_command adb_manager
                         ["-s"; serial; "shell"; "getprop";
                          "ro.product.model"] 5 true Executor.no_kwargs);
     success ← getitem result "success";
     if truthy success then
       stdout ← getitem result "stdout";
       value_strip stdout
     else mret (VStr "未知设备"))
    [ (is_Exception, fun _ => mret (VStr "未知设备")) ].

(** The loop of [scan_usb_devices]; the name of a device is asked for when
    its line is met. *)
Fixpoint usb_entries (sys : Resolver.Sys) (lines : list string)
    : M App (list dict) :=
  match lines with
  | [] => mret []
  | line :: rest =>
      if truthy (VStr (strip line)) && negb (startswith line "*") then
        match split TAB line with
        | serial :: status :: _ =>
            if String.eqb status "device" then
              name ← get_device_name sys serial;
              devices ← usb_entries sys rest;
              mret (({[ "serial" := VStr serial; "type" := VStr "USB";
                        "status" := VStr "已连接"; "name" := name ]} : dict)
                    :: devices)
            else usb_entries sys rest
        | _ => usb_entries sys rest
        end
      else usb_entries sys rest
  end.

Definition scan_usb_devices (sys : Resolver.Sys) : M App (list dict) :=
  try_excepts
    (adb_manager ← on_proc (Lifecycle.get_adb_manager sys);
     result ← on_exec (Executor.run_adb_command adb_manager ["devices"] 10
                         true Executor.no_kwargs);
     success ← getitem result "success";
     if truthy success then
       stdout ← getitem result "stdout";
       stripped ← value_strip stdout;
       lines ← value_split stripped Executor.LF;
       usb_entries sys (tail lines)
     else mret [])
    [ (is_Exception, fun e =>
         emit ("USB设备扫描失败: " +:+ exn_text e);;
         mret []) ].

(** *** [SimplifiedMainWindow] (ui/simplified_main_window.py) *)

(** [f"{x}"] of an optional string. *)
Definition str_option (o : option string) : string := default "None" o.

Definition shows (d : option Registry.DeviceInfo) (status : string)
    (line : string) (w : Window) : Window :=
  {| ip_input := ip_input w; current_device := d; device_status := status;
     connect_button := negb (bool_decide (is_Some d));
     disconnect_button := bool_decide (is_Some d);
     command_log := (command_log w ++ [Line line])%list |}.

(** [on_device_changed], the listener the window registers; [me] is the
    identity of the bound method. *)
Definition on_device_changed (me : nat) : Registry.Listener Window :=
  {| Registry.lid := me;
     Registry.call := fun device_info =>
       match device_info with
       | Some d =>
           modify (shows (Some d)
                     ("设备状态: 已连接 ("
                      +:+ str_option (Registry.name d) +:+ ")")
                     ("📱 设备已连接: " +:+ str_option (Registry.name d)
                      +:+ " (" +:+ Registry.serial d +:+ ")"))
       | None => modify (shows None "设备状态: 未连接" "📱 设备已断开")
       end |}.

Definition logs (e : Entry) (w : Window) : Window :=
  {| ip_input := ip_input w; current_device := current_device w;
     device_status := device_status w; connect_button := connect_button w;
     disconnect_button := disconnect_button w;
     command_log := (command_log w ++ [e])%list |}.







(** *** The answer of [adb devices]

    A first line, then one line for each device, [serial], a tab and
    [status], among lines that are not device lines, and line feeds at the
    end. *)
Inductive Item :=
| Device (serial status : string)
| Other (line : string).

Definition render (i : Item) : string :=
  match i with
  | Device serial status => serial +:+ String TAB status
  | Other line => line
  end.

Definition listing (first : string) (items : list Item) (k : nat) : string :=
  join (String Executor.LF "") (first :: (render <$> items)) +:+ newlines k.

Definition item_ok (i : Item) : bool :=
  match i with
  | Device serial status =>
      graphic_word serial && graphic_word status
      && negb (startswith serial "*")
  | Other line =>
      no_char Executor.LF line
      && (startswith line "*" || no_char TAB line)
  end.

Definition well_formed (first : string) (items : list Item) : bool :=
  starts_graphic first && no_char Executor.LF first
  && forallb item_ok items
  && ends_graphic (List.last (render <$> items) first).

Definition connected_entry (d : string * string) : dict :=
  {[ "serial" := VStr d.1; "status" := VStr d.2 ]}.

Definition devices_of (items : list Item) : list (string * string) :=
  omap (fun i => match i with
                 | Device serial status => Some (serial, status)
                 | Other _ => None
                 end) items.

Definition usb_serials (items : list Item) : list string :=
  fst <$> filter (fun p : string * string => p.2 = "device")
            (devices_of items).

(** The manager has been built, and the executable answers the command
    [args] with the text [text] and exit code 0 within [timeout]
    seconds. *)
Definition answers (app : App) (self : Executor.ADBManager)
    (args : list string) (timeout : Z) (text : string) : Prop :=
  Lifecycle._adb_manager (proc app) = Some self
  /\ exists t out err so se,
       Executor.spawn (exec app) (Executor.command_of self args)
       = Executor.Runs (Some t) 0 out err
       /\ t <= timeout
       /\ Executor.decode (Executor.codec (exec app)) Executor.Strict out
          = Some so
       /\ Executor.decode (Executor.codec (exec app)) Executor.Strict err
          = Some se
       /\ Executor.translate_newlines so = text.

(** *** Names used in the statements *)





(** What the window shows is what the registry holds: its own copy of
    the device, and the one of the two buttons that is enabled. *)
Definition agrees (arg : option Registry.DeviceInfo) (w : Window) : Prop :=
  current_device w = arg
  /\ connect_button w = negb (bool_decide (is_Some arg))
  /\ disconnect_button w = bool_decide (is_Some arg).

(** A listener that leaves alone what the window shows of the device. *)
Definition leaves_view (l : Registry.Listener Window) : Prop :=
  forall arg w,
    current_device (snd (Registry.call l arg w)) = current_device w
    /\ connect_button (snd (Registry.call l arg w)) = connect_button w
    /\ disconnect_button (snd (Registry.call l arg w)) = disconnect_button w.

(** *** A sample application *)

Definition sample_window : Window :=
  {| ip_input := " 192.168.1.20:5555 "; current_device := None;
     device_status := "设备状态: 未连接"; connect_button := true;
     disconnect_button := false; command_log := [] |}.

(** The listener of another page: it writes a line and leaves the rest of
    the window alone. *)
Definition other_page (n : nat) : Registry.Listener Window :=
  {| Registry.lid := n;
     Registry.call := fun _ => modify (logs (Line "page notified")) |}.

Definition sample_registry : Registry.State Window :=
  {| Registry._current_device := None;
     Registry._device_listeners := [other_page 7; on_device_changed 1];
     Registry.log := []; Registry.calls := [];
     Registry.observers := sample_window |}.

Definition sample_app (b : Executor.Behaviour) : App :=
  {| proc := {| Lifecycle.world := Resolver.machine Resolver.drive;
                Lifecycle._adb_manager := Some Executor.manager |};
     exec := Executor.fake_world Executor.Windows b;
     registry := sample_registry;
     signals := [] |}.

Definition crlf (lines : list string) : list byte :=
  concat ((fun l => list_byte_of_string l ++ [x0d; x0a])%list <$> lines).

(** [adb devices] on Windows, with a notice of the daemon in front. *)
Definition listing_child : Executor.Behaviour :=
  Executor.Runs (Some 1) 0
    (crlf ["* daemon started successfully"; "List of devices attached";
           "emulator-5554" +:+ String TAB "device";
           "192.168.1.20:5555" +:+ String TAB "offline"; ""]) [].




End Pages.

(** * Properties of the command executor *)

Module ExecutorFacts.
Import Py Executor.

Ltac run_monad :=
  unfold mbind, M_bind, mret, M_ret, get, raise, modify, lib_raise,
    child_ends, print, logger_error; cbn.

Lemma read_stream_unfold tm h raw w :
  read_stream tm h raw w =
  (if tm then
     match decode (codec w) h raw with
     | Some s => Ok (Some (VStr (translate_newlines s)))
     | None =>
         match platform w with
         | Posix =>
             Raise (Exn UnicodeDecodeError (lib_text w (Undecodable raw)))
         | Windows => Ok None
         end
     end
   else Ok (Some (VBytes raw)), w).
Proof.
  unfold read_stream. run_monad. destruct tm; [|reflexivity].
  destruct (decode (codec w) h raw); [reflexivity|]. by destruct (platform w).
Qed.

Lemma subprocess_run_unfold cmd text timeout kw w :
  subprocess_run cmd text timeout kw w =
  match spawn w cmd with
  | SpawnFails e => (Raise e, w)
  | Runs exit_after rc out err =>
      if exits_within exit_after timeout then
        let w' := ended (Exited rc) w in
        let tm := text || bool_decide (is_Some (kw_errors kw)) in
        let h := default Strict (kw_errors kw) in
        match fst (read_stream tm h out w'), fst (read_stream tm h err w') with
        | Raise e, _ => (Raise e, w')
        | Ok _, Raise e => (Raise e, w')
        | Ok so, Ok se =>
            if kw_check kw && negb (rc =? 0)
            then (Raise (Exn CalledProcessError
                           (lib_text w (NonZeroExit cmd rc))), w')
            else (Ok {| cp_returncode := rc;
                        cp_stdout := so; cp_stderr := se |}, w')
        end
      else (Raise (Exn TimeoutExpired (lib_text w (TimedOut cmd timeout))),
            ended Killed w)
  end.
Proof.
  unfold subprocess_run. unfold mbind at 1, M_bind at 1, get at 1.
  destruct (spawn w cmd) as [e|ea rc out err]; [reflexivity|].
  destruct (exits_within ea timeout); [|reflexivity].
  unfold mbind at 1, M_bind at 1, child_ends at 1, modify at 1.
  unfold mbind at 1, M_bind at 1. cbv zeta.
  rewrite (read_stream_unfold _ _ out). cbn [fst snd].
  match goal with
  | |- context [if ?tm then ?a else ?b] =>
      destruct (if tm then a else b) as [so|e]
  end; [|reflexivity].
  unfold mbind at 1, M_bind at 1.
  rewrite (read_stream_unfold _ _ err). cbn [fst snd].
  match goal with
  | |- context [if ?tm then ?a else ?b] =>
      destruct (if tm then a else b) as [se|e]
  end; [|reflexivity].
  destruct (kw_check kw && _); reflexivity.
Qed.

(** What [subprocess.run] gives does not depend on the console. *)
Lemma subprocess_run_env cmd text timeout kw w1 w2 :
  same_env w1 w2 ->
  fst (subprocess_run cmd text timeout kw w1)
  = fst (subprocess_run cmd text timeout kw w2).
Proof.
  intros (Hp & Hc & Hs & Ht). rewrite !subprocess_run_unfold, Hs.
  destruct (spawn w2 cmd) as [e|ea rc out err]; [reflexivity|].
  destruct (exits_within ea timeout); [|cbn; by rewrite Ht].
  cbv zeta. rewrite !read_stream_unfold.
  cbn [fst ended platform codec lib_text].
  rewrite Hp, Hc, Ht.
  repeat match goal with
         | |- context [match ?x with _ => _ end] =>
             destruct x; try reflexivity
         end.
Qed.

Lemma subprocess_run_announced self args timeout text kw w :
  fst (subprocess_run (command_of self args) text timeout kw
         (announced self args timeout w))
  = fst (subprocess_run (command_of self args) text timeout kw w).
Proof. by apply subprocess_run_env. Qed.

Lemma failure_record_fields timeout e :
  failure_record timeout e !! "success" = Some (VBool false)
  /\ is_Some (failure_record timeout e !! "error")
  /\ failure_record timeout e !! "returncode" = None
  /\ failure_record timeout e !! "stdout" = None
  /\ failure_record timeout e !! "stderr" = None
  /\ dom (failure_record timeout e) = {[ "success"; "error" ]}.
Proof.
  unfold failure_record. destruct (is_TimeoutExpired e); cbn.
  all: repeat split; try by simplify_map_eq.
  all: rewrite !dom_insert_L, dom_empty_L; set_solver.
Qed.

Lemma run_adb_command_completed self args timeout text kw w cp :
  fst (subprocess_run (command_of self args) text timeout kw w) = Ok cp ->
  exists r w',
    run_adb_command self args timeout text kw w = (Ok r, w')
    /\ r !! "success" = Some (VBool (cp_returncode cp =? 0))
    /\ r !! "returncode" = Some (VInt (cp_returncode cp))
    /\ r !! "stdout"
       = Some (or_default (cp_stdout cp) (if text then VStr "" else VBytes []))
    /\ r !! "stderr"
       = Some (or_default (cp_stderr cp) (if text then VStr "" else VBytes []))
    /\ r !! "error" = None.
Proof.
  rewrite <- (subprocess_run_announced self args timeout). intros Hrun.
  unfold run_adb_command, try_excepts.
  unfold mbind at 1, M_bind at 1. unfold print at 1, modify at 1.
  fold (announced self args timeout w).
  unfold mbind at 1, M_bind at 1.
  destruct (subprocess_run _ _ _ _ _) as [o w1]. cbn in Hrun. subst o.
  unfold mbind, M_bind, mret, M_ret, print, modify.
  destruct text; cbn [andb negb];
    destruct (truthy (or_default (cp_stdout cp) _));
    destruct (truthy (or_default (cp_stderr cp) _));
    (eexists _, _; split; [reflexivity|]); by simplify_map_eq.
Qed.

Lemma run_adb_command_raised self args timeout text kw w e :
  fst (subprocess_run (command_of self args) text timeout kw w) = Raise e ->
  exists w',
    run_adb_command self args timeout text kw w
    = (Ok (failure_record timeout e), w')
    /\ children w'
       = children (snd (subprocess_run (command_of self args) text timeout kw w)).
Proof.
  intros Hrun.
  assert (Hch : children (snd (subprocess_run (command_of self args) text
                                 timeout kw (announced self args timeout w)))
                = children (snd (subprocess_run (command_of self args) text
                                   timeout kw w))).
  { rewrite !subprocess_run_unfold. cbn [announced printed spawn].
    destruct (spawn w _) as [?|ea rc out err]; [reflexivity|].
    destruct (exits_within ea timeout); [|reflexivity]. cbv zeta.
    repeat match goal with
           | |- context [match ?x with _ => _ end] =>
               destruct x; try reflexivity
           end. }
  rewrite <- (subprocess_run_announced self args timeout) in Hrun.
  rewrite <- Hch. clear Hch.
  unfold run_adb_command, try_excepts.
  unfold mbind at 1, M_bind at 1. unfold print at 1, modify at 1.
  fold (announced self args timeout w).
  unfold mbind at 1, M_bind at 1.
  destruct (subprocess_run _ _ _ _ _) as [o w1]. cbn in Hrun. subst o.
  unfold failure_record. cbn [dispatch].
  destruct (is_TimeoutExpired e); cbn; eexists; split; reflexivity.
Qed.

(** Only a child that ran to its end within the timeout makes
    [subprocess.run] return, and the code it returns is the child's. *)
Lemma subprocess_run_returns cmd text timeout kw w cp :
  fst (subprocess_run cmd text timeout kw w) = Ok cp ->
  exists t out err,
    spawn w cmd = Runs (Some t) (cp_returncode cp) out err /\ t <= timeout.
Proof.
  rewrite subprocess_run_unfold.
  destruct (spawn w cmd) as [e|ea rc out err]; [discriminate|].
  destruct ea as [t|]; cbn [exits_within]; [|discriminate].
  destruct (t <=? timeout) eqn:Ht; [|discriminate].
  cbv zeta. intros H. exists t, out, err. split; [|lia].
  destruct (fst (read_stream _ _ out _)); [|discriminate].
  destruct (fst (read_stream _ _ err _)); [|discriminate].
  destruct (kw_check kw && _); [discriminate|].
  cbn in H. by simplify_eq.
Qed.

(** C1 (amended): whenever [subprocess.run] returns, which only a child
    that started and exited within the timeout makes it do, [success] is
    true iff the exit code is zero and [returncode] is that exit code;
    [returncode] is absent exactly when [subprocess.run] raised, and then
    [success] is false. *)
Theorem exit_code_reported self args timeout text kwargs w :
  exists r w',
    run_adb_command self args timeout text kwargs w = (Ok r, w')
    /\ match fst (subprocess_run (command_of self args) text timeout kwargs w)
       with
       | Ok cp =>
           (exists t out err,
              spawn w (command_of self args)
              = Runs (Some t) (cp_returncode cp) out err /\ t <= timeout)
           /\ (exists b, r !! "success" = Some (VBool b)
                         /\ (b = true <-> cp_returncode cp = 0))
           /\ r !! "returncode" = Some (VInt (cp_returncode cp))
       | Raise _ =>
           r !! "returncode" = None /\ r !! "success" = Some (VBool false)
       end.
Proof.
  destruct (fst (subprocess_run _ text timeout kwargs w)) as [cp|e] eqn:Hrun.
  - destruct (run_adb_command_completed _ _ _ _ _ _ _ Hrun)
      as (r & w' & Heq & Hs & Hrc & _).
    exists r, w'. split; [done|]. split; [by eapply subprocess_run_returns|].
    split; [|done]. exists (cp_returncode cp =? 0). split; [done|]. lia.
  - destruct (run_adb_command_raised _ _ _ _ _ _ _ Hrun) as (w' & Heq & _).
    exists (failure_record timeout e), w'. split; [done|].
    by destruct (failure_record_fields timeout e) as (? & _ & ? & _).
Qed.

(** C1, as stated, fails.  With [check=True] forwarded through [kwargs], a
    child that exits with code 1 within the timeout leaves no [returncode]
    field; on POSIX, in text mode, a child that prints a stray byte and
    exits with code 0 within the timeout is reported with [success] false
    and no [returncode] field. *)
Lemma exit_code_counterexample :
  (spawn (fake_world Windows failing_child) (command_of manager ["version"])
   = Runs (Some 1) 1 [] []
   /\ 1 <= 30
   /\ exists w',
        run_adb_command manager ["version"] 30 true checked
          (fake_world Windows failing_child)
        = (Ok {[ "success" := VBool false;
                 "error" := VStr "returned non-zero exit status 1" ]}, w'))
  /\ (spawn (fake_world Posix stray_child) (command_of manager ["version"])
      = Runs (Some 1) 0 stray_output []
      /\ 1 <= 30
      /\ exists w',
           run_adb_command manager ["version"] 30 true no_kwargs
             (fake_world Posix stray_child)
           = (Ok {[ "success" := VBool false;
                    "error" := VStr "codec can't decode bytes" ]}, w')).
Proof.
  split; (split; [reflexivity|]); (split; [lia|]);
    eexists; vm_compute; reflexivity.
Qed.

(** C2: a child that does not exit within the timeout is killed, and the
    result has [success] false, an [error] text that contains the timeout,
    and no [returncode]. *)
Theorem timeout_reported self args timeout text kwargs w
    exit_after rc out err :
  spawn w (command_of self args) = Runs exit_after rc out err ->
  (forall t, exit_after = Some t -> timeout < t) ->
  exists r w' msg,
    run_adb_command self args timeout text kwargs w = (Ok r, w')
    /\ children w' = (children w ++ [Killed])%list
    /\ r !! "success" = Some (VBool false)
    /\ r !! "error" = Some (VStr msg)
    /\ contains msg (str_int timeout)
    /\ r !! "returncode" = None.
Proof.
  intros Hspawn Hlate.
  assert (Hw : exits_within exit_after timeout = false).
  { destruct exit_after as [t|]; [|done]. cbn. specialize (Hlate t eq_refl). lia. }
  pose proof (subprocess_run_unfold (command_of self args) text timeout
                kwargs w) as Hrun.
  rewrite Hspawn, Hw in Hrun.
  destruct (run_adb_command_raised self args timeout text kwargs w
              (Exn TimeoutExpired
                 (lib_text w (TimedOut (command_of self args) timeout))))
    as (w' & Heq & Hch); [by rewrite Hrun|].
  rewrite Hrun in Hch. cbn in Hch.
  eexists _, w', _. split; [exact Heq|]. split; [exact Hch|].
  unfold failure_record. cbn.
  repeat split; try by simplify_map_eq.
  by exists "命令超时: ", "秒".
Qed.

Lemma timeout_reported_witness :
  spawn (fake_world Windows hanging_child) (command_of manager ["devices"])
  = Runs None 0 [] []
  /\ exists r w' msg,
    run_adb_command manager ["devices"] 10 true no_kwargs
      (fake_world Windows hanging_child) = (Ok r, w')
    /\ children w' = (children (fake_world Windows hanging_child) ++ [Killed])%list
    /\ r !! "success" = Some (VBool false)
    /\ r !! "error" = Some (VStr msg)
    /\ contains msg (str_int 10)
    /\ r !! "returncode" = None.
Proof.
  split; [reflexivity|].
  apply (timeout_reported manager ["devices"] 10 true no_kwargs
           (fake_world Windows hanging_child) None 0 [] []).
  - reflexivity.
  - intros t Ht. discriminate Ht.
Defined.

(** C3: with a non-empty argument list and a positive timeout, the call
    returns a result record whatever the child does: a spawn failure, a
    timeout and a non-zero exit are each reported with [success] false and
    either an [error] field or a non-zero [returncode]. *)
Theorem run_adb_command_never_raises self args timeout text kwargs w :
  args <> [] -> 0 < timeout ->
  exists r w',
    run_adb_command self args timeout text kwargs w = (Ok r, w')
    /\ match spawn w (command_of self args) with
       | SpawnFails e =>
           r !! "success" = Some (VBool false)
           /\ is_Some (r !! "error")
           /\ r !! "returncode" = None
           /\ (exn_class e <> TimeoutExpired ->
               r !! "error" = Some (VStr (exn_text e)))
       | Runs exit_after rc out err =>
           if exits_within exit_after timeout
           then rc <> 0 ->
                r !! "success" = Some (VBool false)
                /\ (is_Some (r !! "error")
                    \/ exists rc', r !! "returncode" = Some (VInt rc')
                                   /\ rc' <> 0)
           else r !! "success" = Some (VBool false)
                /\ is_Some (r !! "error")
                /\ r !! "returncode" = None
       end.
Proof.
  intros _ _.
  destruct (fst (subprocess_run (command_of self args) text timeout kwargs w))
    as [cp|e] eqn:Hrun.
  - destruct (run_adb_command_completed _ _ _ _ _ _ _ Hrun)
      as (r & w' & Heq & Hs & Hrc & _).
    exists r, w'. split; [done|].
    destruct (subprocess_run_returns _ _ _ _ _ _ Hrun)
      as (t & out & err & Hspawn & Ht).
    rewrite Hspawn. cbn [exits_within].
    destruct (t <=? timeout) eqn:Hle; [|lia].
    intros Hnz. split.
    + rewrite Hs. do 2 f_equal. lia.
    + right. by exists (cp_returncode cp).
  - destruct (run_adb_command_raised _ _ _ _ _ _ _ Hrun) as (w' & Heq & _).
    exists (failure_record timeout e), w'. split; [done|].
    pose proof (failure_record_fields timeout e) as (Hs & He & Hrc & _).
    rewrite subprocess_run_unfold in Hrun.
    destruct (spawn w (command_of self args)) as [e0|ea rc out err].
    + cbn in Hrun. simplify_eq. repeat split; try done.
      intros Hcls. unfold failure_record, is_TimeoutExpired.
      rewrite bool_decide_eq_false_2 by done. by simplify_map_eq.
    + destruct (exits_within ea timeout); [|done].
      intros _. split; [done|]. by left.
Qed.

Lemma run_adb_command_never_raises_witness :
  ["connect"; "192.168.1.20:5555"] <> [] /\ 0 < 10
  /\ exists r w',
    run_adb_command manager ["connect"; "192.168.1.20:5555"] 10 true no_kwargs
      (fake_world Windows missing_binary) = (Ok r, w')
    /\ r !! "success" = Some (VBool false)
    /\ is_Some (r !! "error")
    /\ r !! "returncode" = None
    /\ (FileNotFoundError <> TimeoutExpired ->
        r !! "error"
        = Some (VStr "[Errno 2] No such file or directory")).
Proof.
  split; [discriminate|]. split; [lia|].
  apply (run_adb_command_never_raises manager
           ["connect"; "192.168.1.20:5555"] 10 true no_kwargs
           (fake_world Windows missing_binary)).
  - discriminate.
  - lia.
Defined.

(** C4 (amended): in text mode, when the caller passes no [errors] handler,
    the output is decoded strictly.  Output that the codec rejects never
    makes the call raise, and it does not come back decoded: where
    [subprocess.run] raises the decoding error, the call returns the failure
    record; where the library drops the stream, [stdout] is the empty
    string and [success] follows the exit code. *)
Theorem text_mode_decodes_strictly self args timeout kwargs w t rc out err :
  kw_errors kwargs = None ->
  spawn w (command_of self args) = Runs (Some t) rc out err ->
  t <= timeout ->
  decode (codec w) Strict out = None ->
  exists r w',
    run_adb_command self args timeout true kwargs w = (Ok r, w')
    /\ match platform w with
       | Posix =>
           r = {[ "success" := VBool false;
                  "error" := VStr (lib_text w (Undecodable out)) ]}
       | Windows =>
           if kw_check kwargs && negb (rc =? 0)
           then r = {[ "success" := VBool false;
                       "error" := VStr (lib_text w
                                    (NonZeroExit (command_of self args) rc)) ]}
           else r !! "success" = Some (VBool (rc =? 0))
                /\ r !! "stdout" = Some (VStr "")
       end.
Proof.
  intros Hkw Hspawn Ht Hdec.
  pose proof (subprocess_run_unfold (command_of self args) true timeout
                kwargs w) as Hrun.
  rewrite Hspawn in Hrun. cbn [exits_within] in Hrun.
  destruct (t <=? timeout) eqn:Hle; [|lia].
  cbv zeta in Hrun. rewrite !read_stream_unfold in Hrun.
  rewrite Hkw in Hrun. cbn [orb default fst ended codec platform lib_text] in Hrun.
  rewrite Hdec in Hrun.
  destruct (platform w).
  - destruct (run_adb_command_raised self args timeout true kwargs w
                (Exn UnicodeDecodeError (lib_text w (Undecodable out))))
      as (w' & Heq & _); [by rewrite Hrun|].
    by exists (failure_record timeout
                 (Exn UnicodeDecodeError (lib_text w (Undecodable out)))), w'.
  - destruct (decode (codec w) Strict err) as [s|];
      destruct (kw_check kwargs && negb (rc =? 0)).
    all: match type of Hrun with
         | _ = (Raise ?e, _) =>
             destruct (run_adb_command_raised self args timeout true kwargs w e)
               as (w' & Heq & _); [by rewrite Hrun|];
             by exists (failure_record timeout e), w'
         | _ = (Ok ?cp, _) =>
             destruct (run_adb_command_completed self args timeout true kwargs
                         w cp)
               as (r & w' & Heq & Hs & _ & Ho & _); [by rewrite Hrun|];
             by exists r, w'
         end.
Qed.

Lemma text_mode_decodes_strictly_witness :
  kw_errors no_kwargs = None
  /\ spawn (fake_world Posix stray_child) (command_of manager ["devices"])
     = Runs (Some 1) 0 stray_output []
  /\ 1 <= 5
  /\ decode (codec (fake_world Posix stray_child)) Strict stray_output = None
  /\ exists r w',
       run_adb_command manager ["devices"] 5 true no_kwargs
         (fake_world Posix stray_child) = (Ok r, w')
       /\ r = {[ "success" := VBool false;
                 "error" := VStr "codec can't decode bytes" ]}.
Proof.
  split; [reflexivity|]. split; [reflexivity|]. split; [lia|].
  split; [reflexivity|].
  apply (text_mode_decodes_strictly manager ["devices"] 5 no_kwargs
           (fake_world Posix stray_child) 1 0 stray_output []).
  - reflexivity.
  - reflexivity.
  - lia.
  - reflexivity.
Defined.

(** C4, as stated, fails.  The child prints ["ok"] and a stray byte and
    exits with code 0.  A tolerant decoding gives ["ok"] (['ignore']) or
    ["ok"] followed by U+FFFD (['replace']); the call returns the failure
    record on POSIX and an empty [stdout] on Windows. *)
Lemma tolerant_decoding_counterexample :
  decode utf8 Ignore stray_output = Some "ok"
  /\ decode utf8 Replace stray_output
     = Some ("ok" +:+ string_of_list_byte replacement_character)
  /\ (exists w',
        run_adb_command manager ["devices"] 5 true no_kwargs
          (fake_world Posix stray_child)
        = (Ok {[ "success" := VBool false;
                 "error" := VStr "codec can't decode bytes" ]}, w'))
  /\ (exists w',
        run_adb_command manager ["devices"] 5 true no_kwargs
          (fake_world Windows stray_child)
        = (Ok {[ "success" := VBool true; "returncode" := VInt 0;
                 "stdout" := VStr ""; "stderr" := VStr "" ]}, w')).
Proof.
  split; [reflexivity|]. split; [reflexivity|].
  split; eexists; vm_compute; reflexivity.
Qed.

(** C9: when the call ends in the timeout handler or in the handler of any
    other exception, the record holds the keys [success] and [error] and no
    other: [stdout], [stderr] and [returncode] are missing, so that
    subscripting them raises [KeyError] and [get] with a default gives the
    default. *)
Theorem failure_record_has_two_keys self args timeout text kwargs w e :
  fst (subprocess_run (command_of self args) text timeout kwargs w)
  = Raise e ->
  exists r w',
    run_adb_command self args timeout text kwargs w = (Ok r, w')
    /\ dom r = {[ "success"; "error" ]}
    /\ forall key, key ∈ ["stdout"; "stderr"; "returncode"] ->
         r !! key = None
         /\ (forall (s : World), exists e',
               getitem r key s = (Raise e', s) /\ exn_class e' = KeyError)
         /\ (forall dflt, get_default r key dflt = dflt).
Proof.
  intros Hrun.
  destruct (run_adb_command_raised _ _ _ _ _ _ _ Hrun) as (w' & Heq & _).
  exists (failure_record timeout e), w'. split; [done|].
  destruct (failure_record_fields timeout e)
    as (_ & _ & Hrc & Hout & Herr & Hdom).
  split; [done|]. intros key Hkey.
  assert (Hnone : failure_record timeout e !! key = None).
  { rewrite !elem_of_cons, elem_of_nil in Hkey.
    by destruct Hkey as [->|[->|[->|[]]]]. }
  split; [done|]. split.
  - intros s. unfold getitem. rewrite Hnone. by eexists.
  - intros dflt. unfold get_default. by rewrite Hnone.
Qed.

Lemma failure_record_has_two_keys_witness :
  fst (subprocess_run (command_of manager ["devices"]) true 5 no_kwargs
         (fake_world Windows missing_binary))
  = Raise (Exn FileNotFoundError "[Errno 2] No such file or directory")
  /\ exists r w',
       run_adb_command manager ["devices"] 5 true no_kwargs
         (fake_world Windows missing_binary) = (Ok r, w')
       /\ dom r = {[ "success"; "error" ]}
       /\ forall key, key ∈ ["stdout"; "stderr"; "returncode"] ->
            r !! key = None
            /\ (forall (s : World), exists e',
                  getitem r key s = (Raise e', s) /\ exn_class e' = KeyError)
            /\ (forall dflt, get_default r key dflt = dflt).
Proof.
  split; [reflexivity|].
  apply (failure_record_has_two_keys manager ["devices"] 5 true no_kwargs
           (fake_world Windows missing_binary)
           (Exn FileNotFoundError "[Errno 2] No such file or directory")).
  reflexivity.
Defined.

(** In binary mode the bytes that the child wrote come back untouched. *)
Lemma binary_mode_untouched self args timeout w t rc out err :
  spawn w (command_of self args) = Runs (Some t) rc out err ->
  t <= timeout ->
  exists r w',
    run_adb_command self args timeout false no_kwargs w = (Ok r, w')
    /\ r !! "stdout" = Some (VBytes out)
    /\ r !! "stderr" = Some (VBytes err)
    /\ r !! "returncode" = Some (VInt rc).
Proof.
  intros Hspawn Ht.
  pose proof (subprocess_run_unfold (command_of self args) false timeout
                no_kwargs w) as Hrun.
  rewrite Hspawn in Hrun. cbn [exits_within] in Hrun.
  destruct (t <=? timeout) eqn:Hle; [|lia].
  cbv zeta in Hrun. rewrite !read_stream_unfold in Hrun. cbn in Hrun.
  destruct (run_adb_command_completed self args timeout false no_kwargs w
              {| cp_returncode := rc; cp_stdout := Some (VBytes out);
                 cp_stderr := Some (VBytes err) |})
    as (r & w' & Heq & _ & Hrc & Hout & Herr & _); [by rewrite Hrun|].
  exists r, w'. split; [done|]. cbn in Hout, Herr, Hrc.
  split; [|split; [|done]].
  - rewrite Hout. f_equal. by destruct out.
  - rewrite Herr. f_equal. by destruct err.
Qed.

(** Text output is decoded and its line ends are translated. *)
Example text_mode_decodes :
  exists w',
    run_adb_command manager ["devices"] 5 true no_kwargs
      (fake_world Windows (Runs (Some 1) 0 [x6f; x6b; x0d; x0a] []))
    = (Ok {[ "success" := VBool true; "returncode" := VInt 0;
             "stdout" := VStr (String "o" (String "k" (String LF "")));
             "stderr" := VStr "" ]}, w').
Proof. eexists. vm_compute. reflexivity. Qed.

(** A caller that forwards [errors='replace'] gets the tolerant decoding. *)
Example caller_supplied_handler :
  exists w',
    run_adb_command manager ["devices"] 5 true replacing
      (fake_world Posix stray_child)
    = (Ok {[ "success" := VBool true; "returncode" := VInt 0;
             "stdout" := VStr ("ok" +:+ string_of_list_byte
                                          replacement_character);
             "stderr" := VStr "" ]}, w').
Proof. eexists. vm_compute. reflexivity. Qed.

End ExecutorFacts.

(** * Properties of the session registry *)

Module RegistryFacts.
Import Py Registry.
Import DeviceManager.

Section Facts.
Context {W : Type}.
Implicit Types (s : State W) (ls : list (Listener W)).

Lemma notify_round ls arg s :
  exists round s',
    notify ls arg s = (Ok tt, s')
    /\ calls s' = (calls s ++ round)%list
    /\ map addressed round = map (fun l => (lid l, arg)) ls
    /\ log s' = (log s ++ omap failure_log round)%list
    /\ _current_device s' = _current_device s
    /\ _device_listeners s' = _device_listeners s.
Proof.
  revert s. induction ls as [|l ls IH]; intros s.
  - exists [], s. cbn. rewrite !app_nil_r. done.
  - cbn [notify]. unfold mbind, M_bind, guarded, try_excepts, invoke.
    destruct (call l arg (observers s)) as [[[]|e] w] eqn:Hcall.
    + match goal with
      | |- context [notify ls arg ?s1] =>
          destruct (IH s1) as (round & s' & Heq & Hc & Hm & Hl & Hd & Hls)
      end.
      eexists (_ :: round), s'. rewrite Heq. cbn in *.
      rewrite Hc, Hl, Hm, <- app_assoc. done.
    + cbn [dispatch is_Exception]. unfold logger, modify.
      match goal with
      | |- context [notify ls arg ?s1] =>
          destruct (IH s1) as (round & s' & Heq & Hc & Hm & Hl & Hd & Hls)
      end.
      eexists (_ :: round), s'. rewrite Heq. cbn in *.
      rewrite Hc, Hl, Hm, <- !app_assoc. done.
Qed.

Lemma set_current_device_round d s :
  exists round s',
    DeviceManager.set_current_device d s = (Ok tt, s')
    /\ calls s' = (calls s ++ round)%list
    /\ map addressed round
       = map (fun l => (lid l, Some d)) (_device_listeners s)
    /\ log s' = (log s ++ (INFO, "设置当前设备: " +:+ serial d)
                       :: omap failure_log round)%list
    /\ _current_device s' = Some d
    /\ _device_listeners s' = _device_listeners s.
Proof.
  unfold DeviceManager.set_current_device, logger, mbind, M_bind, modify, get.
  cbn.
  match goal with
  | |- context [notify ?ls ?arg ?s1] =>
      destruct (notify_round ls arg s1)
        as (round & s' & Heq & Hc & Hm & Hl & Hd & Hls)
  end.
  exists round, s'. cbn in *. rewrite Hl, <- app_assoc. done.
Qed.

Lemma clear_current_device_round s :
  exists round s',
    DeviceManager.clear_current_device s = (Ok tt, s')
    /\ calls s' = (calls s ++ round)%list
    /\ map addressed round = map (fun l => (lid l, None)) (_device_listeners s)
    /\ log s' = (log s ++ (INFO, "清除当前设备")
                       :: omap failure_log round)%list
    /\ _current_device s' = None
    /\ _device_listeners s' = _device_listeners s.
Proof.
  unfold DeviceManager.clear_current_device, logger, mbind, M_bind, modify, get.
  cbn.
  match goal with
  | |- context [notify ?ls ?arg ?s1] =>
      destruct (notify_round ls arg s1)
        as (round & s' & Heq & Hc & Hm & Hl & Hd & Hls)
  end.
  exists round, s'. cbn in *. rewrite Hl, <- app_assoc. done.
Qed.


(** [add_listener] puts a new listener at the end of the list and leaves the
    list alone when the listener is already there, so that the order of the
    list is the order of registration and no listener is in it twice. *)
Lemma add_listener_appends l s :
  exists s',
    add_listener l s = (Ok tt, s')
    /\ _device_listeners s'
       = (if registered_in l (_device_listeners s)
          then _device_listeners s
          else _device_listeners s ++ [l])%list
    /\ _current_device s' = _current_device s
    /\ calls s' = calls s.
Proof.
  unfold add_listener, mbind, M_bind, get, modify, logger, mret, M_ret.
  destruct (registered_in l (_device_listeners s)); cbn; by eexists.
Qed.

Lemma registered_in_spec l ls :
  registered_in l ls = true <-> lid l ∈ (lid <$> ls).
Proof.
  unfold registered_in. rewrite existsb_exists, list_elem_of_fmap.
  split.
  - intros (x & Hin & Heq). apply Nat.eqb_eq in Heq.
    exists x. split; [done|]. by apply list_elem_of_In.
  - intros (x & Heq & Hin). exists x. split; [by apply list_elem_of_In|].
    apply Nat.eqb_eq. done.
Qed.

Lemma add_listener_keeps_distinct l s :
  NoDup (lid <$> _device_listeners s) ->
  NoDup (lid <$> _device_listeners (snd (add_listener l s))).
Proof.
  intros Hnd. destruct (add_listener_appends l s) as (s' & Heq & Hls & _).
  rewrite Heq. cbn [snd]. rewrite Hls.
  destruct (registered_in l (_device_listeners s)) eqn:Hreg; [done|].
  rewrite fmap_app. apply NoDup_app. split; [done|]. split.
  - intros x Hx Hx'. cbn in Hx'. apply list_elem_of_singleton in Hx'.
    subst x. apply registered_in_spec in Hx. congruence.
  - cbn. apply NoDup_singleton.
Qed.

Lemma list_remove_sublist (l : Listener W) ls :
  list_remove l ls `sublist_of` ls.
Proof.
  induction ls as [|x ls IH]; cbn; [done|].
  destruct (Nat.eqb (lid x) (lid l)).
  - by apply sublist_cons.
  - by apply sublist_skip.
Qed.

Lemma remove_listener_keeps_distinct l s :
  NoDup (lid <$> _device_listeners s) ->
  NoDup (lid <$> _device_listeners (snd (remove_listener l s))).
Proof.
  intros Hnd. unfold remove_listener, mbind, M_bind, get, modify, logger.
  destruct (registered_in l (_device_listeners s)); cbn; [|done].
  pose proof (fmap_sublist lid _ _
                (list_remove_sublist l (_device_listeners s))) as Hsub.
  by eapply sublist_NoDup.
Qed.







Lemma guarded_ok l arg s :
  exists s', guarded l arg s = (Ok tt, s')
    /\ _device_listeners s' = _device_listeners s
    /\ _current_device s' = _current_device s.
Proof.
  unfold guarded, try_excepts, invoke.
  destruct (call l arg (observers s)) as [[[]|e] w]; cbn; by eexists.
Qed.

Lemma step_current t s :
  _current_device (snd (step t s)) = _current_device s
  \/ (exists d, t = Todo (OpSet d)
                 /\ _current_device (snd (step t s)) = Some d)
  \/ t = Todo OpClear.
Proof.
  destruct t as [[d| |]|arg i|r]; cbn.
  - right. left. by exists d.
  - by right; right.
  - by left.
  - destruct (_device_listeners s !! i) as [l|]; cbn; [|by left].
    destruct (guarded_ok l arg s) as (s' & Heq & _ & Hc).
    rewrite Heq. by left.
  - by left.
Qed.

Lemma steps_notifying arg pre suf s :
  _device_listeners s = (pre ++ suf)%list ->
  steps (length suf) (Notifying arg (length pre)) s
  = (Notifying arg (length (pre ++ suf)), snd (notify suf arg s)).
Proof.
  revert pre s. induction suf as [|l suf IH]; intros pre s Hls.
  - by rewrite app_nil_r.
  - cbn [length steps step]. rewrite Hls.
    rewrite lookup_app_r by lia. rewrite Nat.sub_diag. cbn [lookup list_lookup].
    destruct (guarded_ok l arg s) as (s' & Heq & Hls' & _).
    rewrite Heq. cbn [snd].
    cbn [notify]. unfold mbind at 1, M_bind at 1. rewrite Heq.
    specialize (IH (pre ++ [l])%list s').
    rewrite length_app in IH. cbn [length] in IH.
    replace (length pre + 1)%nat with (S (length pre)) in IH by lia.
    rewrite IH; [by rewrite <- app_assoc|].
    by rewrite Hls', Hls, <- app_assoc.
Qed.

Lemma steps_app n m t s :
  steps (n + m) t s = let '(t', s') := steps n t s in steps m t' s'.
Proof.
  revert t s. induction n as [|n IH]; intros t s; [by cbn|].
  cbn. destruct (step t s). apply IH.
Qed.

Lemma steps_finished n r s : steps n (Finished r) s = (Finished r, s).
Proof. induction n; [done|]. cbn. done. Qed.

(** A call that runs alone is the method. *)
Lemma steps_set d s :
  steps (length (_device_listeners s) + 2) (Todo (OpSet d)) s
  = (Finished None, snd (DeviceManager.set_current_device d s)).
Proof.
  replace (length (_device_listeners s) + 2)%nat
    with (S (length (_device_listeners s) + 1)) by lia.
  cbn [steps step].
  unfold DeviceManager.set_current_device.
  unfold mbind, M_bind, logger, get. unfold modify. cbn [snd].
  set (s0 := logged INFO ("设置当前设备: " +:+ serial d)
               (assigned (Some d) s)).
  assert (Hls : _device_listeners s0 = ([] ++ _device_listeners s)%list) by done.
  rewrite steps_app.
  pose proof (steps_notifying (Some d) [] (_device_listeners s) s0 Hls) as H.
  cbn [length app] in H. rewrite H. cbn [steps step].
  destruct (notify_round (_device_listeners s) (Some d) s0)
    as (round & s' & Heq & _ & _ & _ & _ & Hls').
  rewrite Heq. cbn [snd].
  rewrite Hls'. change (_device_listeners s0) with (_device_listeners s).
  rewrite (lookup_ge_None_2 (_device_listeners s)) by lia.
  by rewrite Heq.
Qed.

Lemma run_schedule_app (xs ys : list nat) (ths : list Thread) s :
  run_schedule (xs ++ ys) ths s
  = let '(ths', s') := run_schedule xs ths s in run_schedule ys ths' s'.
Proof.
  revert ths s. induction xs as [|i xs IH]; intros ths s; [done|].
  cbn. destruct (ths !! i) as [t|]; [|apply IH].
  destruct (step t s). apply IH.
Qed.

Lemma run_schedule_first n t (rest : list Thread) s :
  run_schedule (replicate n 0%nat) (t :: rest) s
  = let '(t', s') := steps n t s in (t' :: rest, s').
Proof.
  revert t s. induction n as [|n IH]; intros t s; [done|].
  cbn. destruct (step t s) as [t' s']. apply IH.
Qed.

Lemma run_schedule_second n t0 t (rest : list Thread) s :
  run_schedule (replicate n 1%nat) (t0 :: t :: rest) s
  = let '(t', s') := steps n t s in (t0 :: t' :: rest, s').
Proof.
  revert t s. induction n as [|n IH]; intros t s; [done|].
  cbn. destruct (step t s) as [t' s']. apply IH.
Qed.

Lemma step_runs_set d t s :
  runs_set d t ->
  runs_set d (fst (step t s))
  /\ fst (step t s) <> Todo (OpSet d)
  /\ (t = Todo (OpSet d) -> _current_device (snd (step t s)) = Some d)
  /\ (t <> Todo (OpSet d) ->
      _current_device (snd (step t s)) = _current_device s).
Proof.
  intros [->|[[i ->]| ->]]; cbn.
  - repeat split; try done. right; left; by exists 0%nat.
  - destruct (_device_listeners s !! i) as [l|]; cbn.
    + destruct (guarded_ok l (Some d) s) as (s' & Heq & _ & Hc).
      rewrite Heq. repeat split; try done.
      right; left; by exists (S i).
    + repeat split; try done. by right; right.
  - repeat split; try done. by right; right.
Qed.

Lemma run_schedule_set_set a b schedule ths s :
  set_set_inv a b ths s ->
  set_set_inv a b (fst (run_schedule schedule ths s))
    (snd (run_schedule schedule ths s)).
Proof.
  revert ths s. induction schedule as [|i schedule IH]; intros ths s Hinv;
    [done|].
  destruct Hinv as (t0 & t1 & -> & H0 & H1 & Hcur).
  destruct i as [|[|i]]; cbn [run_schedule lookup list_lookup].
  - destruct (step_runs_set a t0 s H0) as (H0' & Hne & Hset & Hkeep).
    destruct (step t0 s) as [t0' s']. cbn [fst snd] in *. apply IH.
    exists t0', t1. split; [done|]. split; [done|]. split; [done|]. right.
    destruct (decide (t0 = Todo (OpSet a))) as [Heq|Hneq].
    + left. by apply Hset.
    + rewrite (Hkeep Hneq). destruct Hcur as [[? _]|Hcur]; [done|exact Hcur].
  - destruct (step_runs_set b t1 s H1) as (H1' & Hne & Hset & Hkeep).
    destruct (step t1 s) as [t1' s']. cbn [fst snd] in *. apply IH.
    exists t0, t1'. split; [done|]. split; [done|]. split; [done|]. right.
    destruct (decide (t1 = Todo (OpSet b))) as [Heq|Hneq].
    + right. by apply Hset.
    + rewrite (Hkeep Hneq). destruct Hcur as [[_ ?]|Hcur]; [done|exact Hcur].
  - apply IH. by exists t0, t1.
Qed.

Lemma run_schedule_set_get a old schedule ths s :
  set_get_inv a old ths s ->
  set_get_inv a old (fst (run_schedule schedule ths s))
    (snd (run_schedule schedule ths s)).
Proof.
  revert ths s. induction schedule as [|i schedule IH]; intros ths s Hinv;
    [done|].
  destruct Hinv as (t0 & t1 & -> & H0 & H1 & Hcur).
  destruct i as [|[|i]]; cbn [run_schedule lookup list_lookup].
  - destruct (step_runs_set a t0 s H0) as (H0' & Hne & Hset & Hkeep).
    destruct (step t0 s) as [t0' s']. cbn [fst snd] in *. apply IH.
    exists t0', t1. split; [done|]. split; [done|]. split; [done|].
    destruct (decide (t0 = Todo (OpSet a))) as [Heq|Hneq].
    + right. by apply Hset.
    + by rewrite (Hkeep Hneq).
  - destruct H1 as [->|[->| ->]]; cbn; apply IH; exists t0; eexists;
      (split; [done|]); (split; [done|]); (split; [|done]).
    + destruct Hcur as [->| ->]; [by right; left|by right; right].
    + by right; left.
    + by right; right.
  - apply IH. by exists t0, t1.
Qed.

(** C8 (amended): [DeviceManager] takes no lock.  Two
    [set_current_device] calls that run one after the other give the state
    of the two method calls in sequence, with the two rounds one after the
    other.  When the two calls overlap, whatever the schedule, the slot
    holds one of the two devices once both have finished, and a
    [get_current_device] that overlaps a [set_current_device] returns the
    old value or the new one.  Nothing is promised on the order of the
    notifications of overlapping calls. *)
Theorem unsynchronized_calls s (a b : DeviceInfo) :
  run_schedule
    (replicate (length (_device_listeners s) + 2) 0%nat
     ++ replicate (length (_device_listeners s) + 2) 1%nat)
    [Todo (OpSet a); Todo (OpSet b)] s
  = ([Finished None; Finished None],
     snd (DeviceManager.set_current_device b
            (snd (DeviceManager.set_current_device a s))))
  /\ (forall schedule,
        forallb is_finished
          (fst (run_schedule schedule [Todo (OpSet a); Todo (OpSet b)] s))
        = true ->
        let s' := snd (run_schedule schedule
                         [Todo (OpSet a); Todo (OpSet b)] s) in
        _current_device s' = Some a \/ _current_device s' = Some b)
  /\ (forall schedule t0 v,
        fst (run_schedule schedule [Todo (OpSet a); Todo OpGet] s)
        = [t0; Finished (Some v)] ->
        v = _current_device s \/ v = Some a).
Proof.
  split; [|split].
  - rewrite run_schedule_app, run_schedule_first, steps_set.
    rewrite run_schedule_second.
    destruct (set_current_device_round a s)
      as (round & s1 & Heq & _ & _ & _ & _ & Hls).
    rewrite Heq. cbn [snd]. rewrite <- Hls. by rewrite steps_set.
  - intros schedule Hfin s'.
    destruct (run_schedule_set_set a b schedule
                [Todo (OpSet a); Todo (OpSet b)] s)
      as (t0 & t1 & Hths & H0 & H1 & Hcur).
    { exists (Todo (OpSet a)), (Todo (OpSet b)).
      repeat split; by left. }
    destruct Hcur as [[-> _]|Hcur]; [|exact Hcur].
    rewrite Hths in Hfin. discriminate Hfin.
  - intros schedule t0 v Hths.
    destruct (run_schedule_set_get a (_current_device s) schedule
                [Todo (OpSet a); Todo OpGet] s)
      as (t0' & t1 & Hths' & H0 & H1 & Hcur).
    { exists (Todo (OpSet a)), (Todo OpGet).
      repeat split; try by left. }
    rewrite Hths in Hths'. simplify_eq.
    destruct H1 as [?|[?|?]]; simplify_eq; [by left|by right].
Qed.

(** C10: the module-level [set_current_device] called without [status]
    stores a [DeviceInfo] whose status is ["device"], which is none of
    [unknown], [connecting], [connected], [disconnected]. *)
Theorem default_status_is_device (serial : string)
    (name model : option string) s :
  exists s',
    Registry.set_current_device serial name model None s = (Ok tt, s')
    /\ Registry.get_current_device s'
       = (Ok (Some {| Registry.serial := serial; Registry.name := name;
                      Registry.model := model; status := "device" |}), s')
    /\ "device" ∉ enumerated_statuses.
Proof.
  unfold Registry.set_current_device.
  destruct (set_current_device_round
              {| Registry.serial := serial; Registry.name := name;
                 Registry.model := model;
                 status := default "device" None |} s)
    as (round & s' & Heq & _ & _ & _ & Hcur & _).
  exists s'. split; [exact Heq|]. split.
  - unfold Registry.get_current_device, DeviceManager.get_current_device.
    unfold mbind, M_bind, get, mret, M_ret. by rewrite Hcur.
  - unfold enumerated_statuses. rewrite !not_elem_of_cons, elem_of_nil.
    repeat split; (discriminate || tauto).
Qed.

End Facts.


(** The listener in the middle raises; the one after it is still called,
    and one error line is logged. *)
Example faulty_listener_skipped :
  exists s',
    DeviceManager.set_current_device tv_a
      (registry_with [quiet 1; faulty 2; quiet 3]) = (Ok tt, s')
    /\ calls s'
       = [ {| target := 1; argument := Some tv_a; result := Ok tt |};
           {| target := 2; argument := Some tv_a;
              result := Raise (Exn RuntimeError "widget deleted") |};
           {| target := 3; argument := Some tv_a; result := Ok tt |} ]
    /\ log s'
       = [ (INFO, "设置当前设备: 192.168.1.20:5555");
           (ERROR, "通知监听器失败: widget deleted") ]
    /\ _current_device s' = Some tv_a.
Proof. eexists. vm_compute. repeat split. Qed.

Lemma unsynchronized_calls_witness :
  forallb is_finished
    (fst (run_schedule [0; 0; 1; 1; 1; 1; 0; 0]%nat
            [Todo (OpSet tv_a); Todo (OpSet tv_b)]
            (registry_with [quiet 1; quiet 2]))) = true
  /\ (_current_device
        (snd (run_schedule [0; 0; 1; 1; 1; 1; 0; 0]%nat
                [Todo (OpSet tv_a); Todo (OpSet tv_b)]
                (registry_with [quiet 1; quiet 2]))) = Some tv_a
      \/ _current_device
           (snd (run_schedule [0; 0; 1; 1; 1; 1; 0; 0]%nat
                   [Todo (OpSet tv_a); Todo (OpSet tv_b)]
                   (registry_with [quiet 1; quiet 2]))) = Some tv_b).
Proof.
  split; [reflexivity|].
  apply (proj1 (proj2 (unsynchronized_calls
                         (registry_with [quiet 1; quiet 2]) tv_a tv_b))
           [0; 0; 1; 1; 1; 1; 0; 0]%nat).
  reflexivity.
Defined.


(** C8, as stated, fails.  With two listeners, the thread that sets
    [tv_a] is preempted after it has notified the first listener; the
    thread that sets [tv_b] then runs to its end.  The two rounds
    interleave, the second listener sees [tv_b] and then [tv_a], and the
    slot ends with [tv_b]. *)
Lemma interleaved_rounds_counterexample :
  exists s',
    run_schedule [0; 0; 1; 1; 1; 1; 0; 0]%nat
      [Todo (OpSet tv_a); Todo (OpSet tv_b)]
      (registry_with [quiet 1; quiet 2])
    = ([Finished None; Finished None], s')
    /\ map addressed (calls s')
       = [(1%nat, Some tv_a); (1%nat, Some tv_b);
          (2%nat, Some tv_b); (2%nat, Some tv_a)]
    /\ history 1 (calls s') = [Some tv_a; Some tv_b]
    /\ history 2 (calls s') = [Some tv_b; Some tv_a]
    /\ _current_device s' = Some tv_b.
Proof. eexists. vm_compute. repeat split. Qed.

End RegistryFacts.

(** * Properties of the binary resolver *)

Module ResolverFacts.
Import Py Resolver.

Lemma bind_ok {S A B} (m : M S A) (f : A -> M S B) s a s1 :
  m s = (Ok a, s1) -> (m ≫= f) s = f a s1.
Proof. intros H. unfold mbind, M_bind. by rewrite H. Qed.

Lemma bind_raise {S A B} (m : M S A) (f : A -> M S B) s e s1 :
  m s = (Raise e, s1) -> (m ≫= f) s = (Raise e, s1).
Proof. intros H. unfold mbind, M_bind. by rewrite H. Qed.

Lemma child_inj p q n m : p // n = q // m -> p = q /\ n = m.
Proof. unfold child. intros H. by apply app_inj_tail in H. Qed.

Lemma name_child p n : name (p // n) = n.
Proof. unfold name, child. by rewrite last_snoc. Qed.

Lemma parent_child p n : parent (p // n) = p.
Proof. unfold parent, child. apply removelast_last. Qed.

Lemma glob_elem f d p :
  p ∈ glob f d <-> is_Some (f !! p) /\ exists n, p = d // n.
Proof.
  unfold glob. rewrite list_elem_of_filter, list_elem_of_fmap.
  split.
  - intros [Hp ([q v] & -> & Hin)]. apply elem_of_map_to_list in Hin.
    cbn in *. split; [by eexists|]. by exists (name q).
  - intros [[v Hv] [n ->]]. split; [by rewrite name_child|].
    exists (d // n, v). split; [done|]. by apply elem_of_map_to_list.
Qed.


Lemma child_ne_self p n : p // n <> p.
Proof.
  unfold child. intros H. apply (f_equal length) in H.
  rewrite length_app in H. cbn in H. lia.
Qed.

Lemma try_excepts_ok {S A} (body : M S A) clauses s a s' :
  body s = (Ok a, s') -> try_excepts body clauses s = (Ok a, s').
Proof. intros H. unfold try_excepts. by rewrite H. Qed.

Lemma try_excepts_raise {S A} (body : M S A) clauses s e s' :
  body s = (Raise e, s') -> try_excepts body clauses s = dispatch clauses e s'.
Proof. intros H. unfold try_excepts. by rewrite H. Qed.

Lemma setup_builtin_adb_stages sys :
  setup_builtin_adb sys
  = try_excepts
      (temp ← mkdtemp sys;
       modify (with_temp_dir temp);;
       logger INFO ("创建临时ADB目录: " +:+ path_str temp);;
       primary sys;; fallback sys;; finish sys temp)
      [ (is_Exception, fun e =>
           logger ERROR ("ADB管理器初始化失败: " +:+ exn_text e);;
           raise e) ].
Proof. reflexivity. Qed.

Lemma tidy_check_sound sys s0 : tidy_check sys s0 = true -> tidy sys s0.
Proof.
  unfold tidy_check. rewrite !andb_true_iff.
  intros ((((((((Hnew & Hname) & Htree) & Hcwd) & Hexe) & Hca) & Hea) & Hw) & HP).
  apply bool_decide_eq_true in Hnew, Htree, HP.
  split; try done.
  - intros q Hq. destruct (fs s0 !! q) as [v|] eqn:Hv; [|done].
    by destruct (Hnew q v Hv).
  - intros p n [v Hv]. destruct (Htree (p // n) v Hv) as [Hnil|Hdir].
    + unfold child in Hnil. by destruct p.
    + rewrite parent_child in Hdir. unfold is_dir in Hdir.
      by destruct (fs s0 !! p) as [[]|].
  - by apply bool_decide_eq_true in Hcwd.
  - by apply bool_decide_eq_true in Hexe.
  - intros H. by rewrite H in Hca.
  - intros H. by rewrite H in Hea.
  - intros p Hp. by rewrite Hp in Hw.
Qed.

Section WithEnv.
Variables (sys : Sys) (f0 : gmap path Node) (P : option string).
Local Abbreviation T := (mkdtemp_result sys).
Local Abbreviation inv := (Resolver.inv sys f0 P).

Lemma inv_temp_is_dir s : inv s -> fs s !! T = Some Dir.
Proof.
  intros (_ & _ & Hout & _). rewrite Hout, lookup_insert_eq; [done|].
  intros n Hn. by apply (child_ne_self T n).
Qed.

Lemma inv_with_log s l msg : inv s -> inv (with_log l msg s).
Proof. done. Qed.

Lemma inv_with_builtin s p : inv s -> inv (with_builtin_adb_path p s).
Proof. done. Qed.

Lemma inv_write s n c :
  inv s -> inv (with_fs (<[T // n := File c]> (fs s)) s).
Proof.
  intros (Ht & Hp & Hout & Hin). repeat split; try done.
  - intros q Hq. cbn. rewrite lookup_insert_ne by (intros Heq; by apply (Hq n)).
    by apply Hout.
  - intros m. cbn. destruct (decide (n = m)) as [->|Hne].
    + by rewrite lookup_insert_eq.
    + rewrite lookup_insert_ne; [apply Hin|].
      intros Heq. apply child_inj in Heq. by destruct Heq.
Qed.

Lemma Path_temp_dir_inv s : inv s -> Path_temp_dir s = (Ok T, s).
Proof.
  intros (Ht & _). unfold Path_temp_dir, mbind, M_bind, get. by rewrite Ht.
Qed.

Lemma copy2_into_temp s src n c :
  inv s ->
  fs s !! src = Some (File c) ->
  (forall m, src <> T // m) ->
  copy2 src (T // n) s
  = (Ok tt, with_fs (<[T // n := File c]> (fs s)) s).
Proof.
  intros Hinv Hsrc Hout. pose proof Hinv as (Ht & Hp & _ & Hin).
  unfold copy2, mbind, M_bind, get. rewrite Hsrc.
  assert (Hdst : match fs s !! (T // n) with
                 | Some Dir => T // n // name src
                 | _ => T // n
                 end = T // n).
  { specialize (Hin n). by destruct (fs s !! (T // n)) as [[]|]. }
  rewrite Hdst. rewrite bool_decide_eq_false_2 by (intros Heq; by apply (Hout n)).
  rewrite parent_child, (inv_temp_is_dir s Hinv).
  specialize (Hin n). by destruct (fs s !! (T // n)) as [[]|].
Qed.

Lemma copy2_missing s src dst :
  file_content (fs s) src = None ->
  exists e, copy2 src dst s = (Raise e, s).
Proof.
  unfold file_content, copy2, mbind, M_bind, get, raise.
  destruct (fs s !! src) as [[]|]; [done|by eexists..].
Qed.

Lemma is_file_content f p :
  is_file f p = match file_content f p with Some _ => true | None => false end.
Proof. unfold is_file, file_content. by destruct (f !! p) as [[]|]. Qed.

Lemma file_content_Some f p c :
  file_content f p = Some c <-> f !! p = Some (File c).
Proof.
  unfold file_content. destruct (f !! p) as [[]|]; split; intros; by simplify_eq.
Qed.

Lemma copy_files_inv label files D s :
  inv s -> D <> T ->
  (forall p, p ∈ files -> exists n, p = D // n) ->
  exists s',
    copy_files label files s = (Ok tt, s')
    /\ inv s'
    /\ builtin_adb_path s' = builtin_adb_path s
    /\ forall n,
         fs s' !! (T // n)
         = match (if decide (D // n ∈ files)
                  then file_content (fs s) (D // n) else None) with
           | Some c => Some (File c)
           | None => fs s !! (T // n)
           end.
Proof.
  intros Hinv HD. revert s Hinv.
  induction files as [|file_path rest IH]; intros s Hinv Hfiles.
  - exists s. split; [done|]. split; [done|]. split; [done|]. intros n.
    by rewrite decide_False by apply not_elem_of_nil.
  - destruct (Hfiles file_path) as [m ->]; [by left|].
    assert (Hrest : forall p, p ∈ rest -> exists n, p = D // n).
    { intros p Hp. apply Hfiles. by right. }
    assert (Hsrc_out : forall n k, D // n <> T // k).
    { intros n k Heq. apply child_inj in Heq. by destruct Heq. }
    cbn [copy_files]. unfold mbind at 1, M_bind at 1, get at 1.
    rewrite is_file_content.
    destruct (file_content (fs s) (D // m)) as [c|] eqn:Hc.
    + apply file_content_Some in Hc.
      erewrite bind_ok; cycle 1.
      { erewrite bind_ok by (by apply Path_temp_dir_inv).
        rewrite name_child.
        erewrite bind_ok by (by apply copy2_into_temp).
        reflexivity. }
      set (s2 := with_log _ _ _).
      assert (Hinv2 : inv s2) by (by apply inv_with_log, inv_write).
      destruct (IH s2 Hinv2 Hrest) as (s' & Heq & Hinv' & Hb & Hfs).
      exists s'. split; [done|]. split; [done|]. split; [done|].
      intros n. rewrite Hfs. cbn [s2 fs with_log with_fs].
      assert (Hfc : file_content (<[T // m := File c]> (fs s)) (D // n)
                    = file_content (fs s) (D // n)).
      { unfold file_content. by rewrite lookup_insert_ne. }
      rewrite Hfc.
      destruct (decide (n = m)) as [->|Hne].
      * rewrite lookup_insert_eq. rewrite (decide_True (P := D // m ∈ D // m :: rest)) by (by left).
        apply file_content_Some in Hc. rewrite Hc. by destruct (decide _).
      * rewrite lookup_insert_ne
          by (intros Heq'; apply child_inj in Heq'; by destruct Heq').
        assert (Hiff : D // n ∈ D // m :: rest <-> D // n ∈ rest).
        { rewrite elem_of_cons. split; [|by right].
          intros [Heq'|]; [|done]. apply child_inj in Heq'. by destruct Heq'. }
        destruct (decide (D // n ∈ rest)) as [Hin|Hnin].
        -- by rewrite decide_True by (by apply Hiff).
        -- by rewrite decide_False by (by rewrite Hiff).
    + erewrite bind_ok by reflexivity.
      destruct (IH s Hinv Hrest) as (s' & Heq & Hinv' & Hb & Hfs).
      exists s'. split; [done|]. split; [done|]. split; [done|].
      intros n. rewrite Hfs.
      destruct (decide (n = m)) as [->|Hne].
      * rewrite (decide_True (P := D // m ∈ D // m :: rest)) by (by left).
        rewrite Hc. by destruct (decide _).
      * assert (Hiff : D // n ∈ D // m :: rest <-> D // n ∈ rest).
        { rewrite elem_of_cons. split; [|by right].
          intros [Heq'|]; [|done]. apply child_inj in Heq'. by destruct Heq'. }
        destruct (decide (D // n ∈ rest)) as [Hin|Hnin].
        -- by rewrite decide_True by (by apply Hiff).
        -- by rewrite decide_False by (by rewrite Hiff).
Qed.


Lemma stage_missing s src msg :
  inv s ->
  file_content (fs s) src = None ->
  exists e, stage src msg s = (Raise e, s).
Proof.
  intros Hinv Hsrc. unfold stage.
  erewrite bind_ok by (by apply Path_temp_dir_inv).
  destruct (copy2_missing s src (T // "adb.exe") Hsrc) as [e He].
  exists e. by erewrite bind_raise.
Qed.

End WithEnv.

Section WithTidy.
Variables (sys : Sys) (s0 : State).
Hypothesis Htidy : tidy sys s0.
Local Abbreviation T := (mkdtemp_result sys).
Local Abbreviation inv0 := (inv sys (fs s0) (environ_PATH s0)).




Lemma inv_lookup s q :
  inv0 s -> q <> T -> (forall n, q <> T // n) -> fs s !! q = fs s0 !! q.
Proof.
  intros (_ & _ & Hout & _) Hne Hch. rewrite Hout by done.
  by rewrite lookup_insert_ne.
Qed.


Lemma tree_file_content d n :
  path_exists (fs s0) d = false -> file_content (fs s0) (d // n) = None.
Proof.
  intros Hd. unfold file_content.
  destruct (fs s0 !! (d // n)) as [[c|]|] eqn:Hn; [|done..].
  assert (Hs : is_Some (fs s0 !! (d // n))) by (by eexists).
  apply (tidy_tree _ _ Htidy) in Hs. unfold path_exists in Hd.
  apply bool_decide_eq_false in Hd. destruct Hd. by eexists.
Qed.




Lemma inv_file_content s D n :
  inv0 s -> D <> T ->
  file_content (fs s) (D // n) = file_content (fs s0) (D // n).
Proof.
  intros Hinv HD. pose proof Hinv as (_ & _ & Hout & _).
  unfold file_content. rewrite Hout.
  - destruct (decide (D // n = T)) as [Heq|Hne].
    + rewrite Heq, lookup_insert_eq, (tidy_new _ _ Htidy T); done.
    + by rewrite lookup_insert_ne.
  - intros m Heq. apply child_inj in Heq. by destruct Heq.
Qed.

(** Copying the files of a directory into the temporary directory. *)
Lemma copy_dir_inv label D s :
  inv0 s -> D <> T ->
  exists s',
    copy_files label (glob (fs s) D) s = (Ok tt, s')
    /\ inv0 s'
    /\ builtin_adb_path s' = builtin_adb_path s
    /\ forall n,
         fs s' !! (T // n)
         = match file_content (fs s0) (D // n) with
           | Some c => Some (File c)
           | None => fs s !! (T // n)
           end.
Proof.
  intros Hinv HD.
  destruct (copy_files_inv sys (fs s0) (environ_PATH s0) label
              (glob (fs s) D) D s Hinv HD)
    as (s' & Heq & Hinv' & Hb & Hfs).
  { intros p Hp. by apply glob_elem in Hp as [_ ?]. }
  exists s'. split; [done|]. split; [done|]. split; [done|].
  intros n. rewrite Hfs, <- (inv_file_content s D n) by done.
  destruct (decide (D // n ∈ glob (fs s) D)) as [Hin|Hnin]; [done|].
  destruct (file_content (fs s) (D // n)) as [c|] eqn:Hc; [|done].
  destruct Hnin. apply glob_elem. apply file_content_Some in Hc.
  split; [by eexists|by exists n].
Qed.

Lemma E_ADB_apart : E_ADB <> T /\ forall n, E_ADB <> T // n.
Proof.
  pose proof (tidy_name _ _ Htidy) as Hname. fold T in Hname.
  split.
  - intros Heq. rewrite <- Heq in Hname. discriminate Hname.
  - intros n Heq. change E_ADB with (["E:"] // "ADB") in Heq.
    apply child_inj in Heq as [Heq _]. rewrite <- Heq in Hname.
    discriminate Hname.
Qed.





Lemma verify_ok s p c :
  builtin_adb_path s = Some p ->
  fs s !! p = Some (File c) ->
  _verify_adb_exists s
  = (Ok true, with_log INFO ("ADB工具已找到: " +:+ path_str p) s).
Proof.
  intros Hb Hf. unfold _verify_adb_exists.
  unfold mbind at 1, M_bind at 1, get at 1. rewrite Hb.
  unfold path_exists. rewrite Hf, bool_decide_eq_true_2 by done.
  reflexivity.
Qed.

Lemma finish_ok s c :
  inv0 s ->
  builtin_adb_path s = Some (T // "adb.exe") ->
  fs s !! (T // "adb.exe") = Some (File c) ->
  exists s',
    finish sys T s = (Ok tt, s')
    /\ builtin_adb_path s' = Some (T // "adb.exe")
    /\ fs s' = fs s.
Proof.
  intros (_ & HP & _) Hb Hf. unfold finish.
  destruct (tidy_PATH _ _ Htidy) as [old Hold].
  erewrite bind_ok by (by eapply verify_ok).
  erewrite bind_ok by reflexivity.
  unfold mbind at 1, M_bind at 1, get at 1. cbn [with_log environ_PATH].
  rewrite HP, Hold. eexists. split; [reflexivity|]. done.
Qed.

Lemma fallback_present s c :
  builtin_adb_path s = Some (T // "adb.exe") ->
  fs s !! (T // "adb.exe") = Some (File c) ->
  fallback sys s = (Ok tt, s).
Proof.
  intros Hb Hf. unfold fallback, mbind, M_bind, get. rewrite Hb.
  unfold path_exists. by rewrite Hf, bool_decide_eq_true_2.
Qed.



Lemma first_file_missing_dir d n rest :
  path_exists (fs s0) d = false ->
  first_file (fs s0) (d // n :: rest) = first_file (fs s0) rest.
Proof. intros Hd. cbn. by rewrite tree_file_content. Qed.

End WithTidy.



(** A bundle is unpacked into the temporary directory and its [adb.exe]
    wins over the one of the working directory. *)
Example bundled_resources_first :
  tidy_check onefile (machine bundle) = true
  /\ resolve onefile (machine bundle) = Some [xad; xb0]
  /\ file_content (fs (snd (setup_builtin_adb onefile (machine bundle))))
       ["C:"; "Temp"; "adb_tv_tool_k3"; "AdbWinApi.dll"] = Some [xa1]
  /\ environ_PATH (snd (setup_builtin_adb onefile (machine bundle)))
     = Some "C:/Temp/adb_tv_tool_k3;C:/Windows/system32".
Proof. vm_compute. repeat split. Qed.


End ResolverFacts.

(** * More on the session registry *)

Module RegistryExtras.
Import Py Registry.
Import DeviceManager.
Import Session.
Import RegistryFacts.

Section Facts.
Context {W : Type}.
Implicit Types (s : State W) (ls : list (Listener W)) (l : Listener W).

Lemma remove_listener_removes l s :
  exists s',
    remove_listener l s = (Ok tt, s')
    /\ _device_listeners s'
       = (if registered_in l (_device_listeners s)
          then list_remove l (_device_listeners s)
          else _device_listeners s)
    /\ _current_device s' = _current_device s
    /\ calls s' = calls s
    /\ (registered_in l (_device_listeners s) = false -> s' = s).
Proof.
  unfold remove_listener, mbind, M_bind, get, modify, logger, mret, M_ret.
  destruct (registered_in l (_device_listeners s)); cbn; by eexists.
Qed.

Lemma filter_all {A} (P : A -> Prop) `{!forall x, Decision (P x)}
    (xs : list A) :
  (forall x, x ∈ xs -> P x) -> filter P xs = xs.
Proof.
  induction xs as [|x xs IH]; [done|]. intros Hall. rewrite filter_cons.
  rewrite decide_True by (apply Hall; by left). f_equal. apply IH.
  intros y Hy. apply Hall. by right.
Qed.

Lemma list_remove_filter l ls :
  NoDup (lid <$> ls) ->
  list_remove l ls = filter (fun x => lid x <> lid l) ls.
Proof.
  induction ls as [|x ls IH]; [done|].
  rewrite fmap_cons, NoDup_cons. intros [Hx Hnd]. cbn [list_remove].
  rewrite filter_cons. destruct (Nat.eqb_spec (lid x) (lid l)) as [Heq|Hne].
  - rewrite decide_False by (intros H; by apply H).
    symmetry. apply filter_all.
    intros y Hy Hyl. apply Hx. rewrite Heq, <- Hyl.
    apply list_elem_of_fmap. by exists y.
  - rewrite decide_True by done. f_equal. by apply IH.
Qed.

Lemma registered_in_filter l l' ls :
  registered_in l (filter (fun x => lid x <> lid l') ls)
  = registered_in l ls && negb (Nat.eqb (lid l) (lid l')).
Proof.
  unfold registered_in.
  induction ls as [|x ls IH]; [done|]. rewrite filter_cons.
  destruct (decide (lid x <> lid l')) as [Hne|Heq]; cbn [existsb];
    rewrite IH.
  - destruct (Nat.eqb_spec (lid x) (lid l)) as [Hxl|]; cbn; [|done].
    destruct (Nat.eqb_spec (lid l) (lid l')); [congruence|done].
  - apply dec_stable in Heq.
    destruct (Nat.eqb_spec (lid x) (lid l)) as [Hxl|Hxl]; cbn; [|done].
    rewrite <- Hxl, Heq, Nat.eqb_refl. cbn. by rewrite andb_false_r.
Qed.

Lemma registered_in_app l ls ls' :
  registered_in l (ls ++ ls') = registered_in l ls || registered_in l ls'.
Proof. unfold registered_in. apply existsb_app. Qed.

Lemma perform_returns (r : Request W) s :
  exists s', perform r s = (Ok tt, s').
Proof.
  destruct r as [d| |l|l]; cbn [perform].
  - destruct (set_current_device_round d s) as (? & s' & ? & _). by exists s'.
  - destruct (clear_current_device_round s) as (? & s' & ? & _). by exists s'.
  - destruct (add_listener_appends l s) as (s' & ? & _). by exists s'.
  - destruct (remove_listener_removes l s) as (s' & ? & _). by exists s'.
Qed.

Lemma perform_all_cons (r : Request W) rs s s1 :
  perform r s = (Ok tt, s1) ->
  perform_all (r :: rs) s = perform_all rs s1.
Proof. intros H. cbn [perform_all]. unfold mbind, M_bind. by rewrite H. Qed.

Lemma perform_keeps_distinct (r : Request W) s :
  NoDup (lid <$> _device_listeners s) ->
  NoDup (lid <$> _device_listeners (snd (perform r s))).
Proof.
  intros Hnd. destruct r as [d| |l|l]; cbn [perform].
  - destruct (set_current_device_round d s)
      as (? & s' & Heq & _ & _ & _ & _ & Hls).
    rewrite Heq. cbn [snd]. by rewrite Hls.
  - destruct (clear_current_device_round s)
      as (? & s' & Heq & _ & _ & _ & _ & Hls).
    rewrite Heq. cbn [snd]. by rewrite Hls.
  - by apply add_listener_keeps_distinct.
  - by apply remove_listener_keeps_distinct.
Qed.

(** X1: [add_listener] registers the listener at the end of the list,
    notifies nobody and leaves the slot alone; a second [add_listener] of
    the same listener changes nothing at all. *)
Theorem add_listener_idempotent l s :
  exists s1,
    add_listener l s = (Ok tt, s1)
    /\ registered_in l (_device_listeners s1) = true
    /\ (registered_in l (_device_listeners s) = false ->
        _device_listeners s1 = (_device_listeners s ++ [l])%list)
    /\ calls s1 = calls s
    /\ _current_device s1 = _current_device s
    /\ add_listener l s1 = (Ok tt, s1).
Proof.
  destruct (add_listener_appends l s) as (s1 & Heq & Hls & Hd & Hc).
  exists s1. split; [done|].
  assert (Hreg : registered_in l (_device_listeners s1) = true).
  { rewrite Hls. destruct (registered_in l (_device_listeners s)) eqn:E;
      [done|].
    rewrite registered_in_app. cbn. by rewrite Nat.eqb_refl, orb_true_r. }
  split; [done|]. split; [intros E; by rewrite Hls, E|].
  split; [done|]. split; [done|].
  unfold add_listener, mbind, M_bind, get. by rewrite Hreg.
Qed.

Lemma remove_listener_filter l s :
  NoDup (lid <$> _device_listeners s) ->
  exists s',
    remove_listener l s = (Ok tt, s')
    /\ _device_listeners s'
       = filter (fun x => lid x <> lid l) (_device_listeners s)
    /\ calls s' = calls s
    /\ _current_device s' = _current_device s
    /\ (registered_in l (_device_listeners s) = false -> s' = s).
Proof.
  intros Hnd.
  destruct (remove_listener_removes l s) as (s' & Heq & Hls & Hd & Hc & Hno).
  exists s'. split; [done|]. split; [|done].
  rewrite Hls. destruct (registered_in l (_device_listeners s)) eqn:E.
  - by apply list_remove_filter.
  - symmetry. apply filter_all. intros y Hy Hyl.
    assert (registered_in l (_device_listeners s) = true); [|congruence].
    apply registered_in_spec. rewrite <- Hyl.
    apply list_elem_of_fmap. by exists y.
Qed.

(** X2: on a list without duplicates, [remove_listener] returns normally,
    drops the listener and nothing else, keeps the order of the others,
    and notifies nobody; for a listener that is not registered it is a
    no-operation, where [list.remove] alone would raise. *)
Theorem remove_listener_drops_only_it l s :
  NoDup (lid <$> _device_listeners s) ->
  exists s',
    remove_listener l s = (Ok tt, s')
    /\ _device_listeners s'
       = filter (fun x => lid x <> lid l) (_device_listeners s)
    /\ registered_in l (_device_listeners s') = false
    /\ (forall l', lid l' <> lid l ->
          registered_in l' (_device_listeners s')
          = registered_in l' (_device_listeners s))
    /\ calls s' = calls s
    /\ _current_device s' = _current_device s
    /\ (registered_in l (_device_listeners s) = false -> s' = s).
Proof.
  intros Hnd.
  destruct (remove_listener_filter l s Hnd) as (s' & Heq & Hf & Hc & Hd & Hno).
  exists s'. split; [done|]. split; [done|]. rewrite Hf. split.
  { by rewrite registered_in_filter, Nat.eqb_refl, andb_false_r. }
  split; [|done].
  intros l' Hne. rewrite registered_in_filter.
  destruct (Nat.eqb_spec (lid l') (lid l)); [done|]. apply andb_true_r.
Qed.

(** X3: registering a listener that was not registered and removing it
    again gives back the list of listeners as it was. *)
Theorem add_then_remove_restores l s :
  registered_in l (_device_listeners s) = false ->
  exists s1 s2,
    add_listener l s = (Ok tt, s1)
    /\ remove_listener l s1 = (Ok tt, s2)
    /\ _device_listeners s2 = _device_listeners s
    /\ _current_device s2 = _current_device s
    /\ calls s2 = calls s.
Proof.
  intros Hreg.
  destruct (add_listener_appends l s) as (s1 & Heq1 & Hls1 & Hd1 & Hc1).
  destruct (remove_listener_removes l s1) as (s2 & Heq2 & Hls2 & Hd2 & Hc2 & _).
  exists s1, s2. split; [done|]. split; [done|].
  split; [|split; congruence].
  rewrite Hls2, Hls1, Hreg, registered_in_app. cbn.
  rewrite Nat.eqb_refl, orb_true_r.
  clear -Hreg. induction (_device_listeners s) as [|x ls IH]; cbn.
  - by rewrite Nat.eqb_refl.
  - cbn in Hreg. apply orb_false_iff in Hreg as [Hx Hls]. rewrite Hx.
    f_equal. by apply IH.
Qed.

(** X4: whatever calls a client makes, and in whatever order, no listener
    is ever in the list twice. *)
Theorem listeners_stay_distinct (rs : list (Request W)) s :
  NoDup (lid <$> _device_listeners s) ->
  exists s',
    perform_all rs s = (Ok tt, s')
    /\ NoDup (lid <$> _device_listeners s').
Proof.
  revert s. induction rs as [|r rs IH]; intros s Hnd.
  - by exists s.
  - destruct (perform_returns r s) as [s1 H1].
    pose proof (perform_keeps_distinct r s Hnd) as Hnd1.
    rewrite H1 in Hnd1. cbn in Hnd1.
    rewrite (perform_all_cons r rs s s1 H1). by apply IH.
Qed.

(** X5: after any sequence of calls the slot holds what the last
    [set_current_device] or [clear_current_device] of the sequence
    assigned, or what it held before when there was none, and
    [get_current_device] returns it without changing anything. *)
Theorem slot_holds_last_assignment (rs : list (Request W)) s :
  exists s',
    perform_all rs s = (Ok tt, s')
    /\ _current_device s'
       = default (_current_device s) (last (omap assignment rs))
    /\ DeviceManager.get_current_device s' = (Ok (_current_device s'), s').
Proof.
  revert s. induction rs as [|r rs IH]; intros s.
  - by exists s.
  - destruct (perform_returns r s) as [s1 H1].
    rewrite (perform_all_cons r rs s s1 H1).
    destruct (IH s1) as (s' & Heq & Hd & Hget).
    exists s'. split; [done|]. split; [|done]. rewrite Hd.
    assert (Hs1 : _current_device s1
                  = default (_current_device s) (assignment r)).
    { destruct r as [d| |l|l]; cbn [perform assignment] in *.
      - destruct (set_current_device_round d s)
          as (? & s1' & Heq1 & _ & _ & _ & Hd1 & _). rewrite Heq1 in H1. simplify_eq. by cbn.
      - destruct (clear_current_device_round s)
          as (? & s1' & Heq1 & _ & _ & _ & Hd1 & _). rewrite Heq1 in H1. simplify_eq. by cbn.
      - destruct (add_listener_appends l s) as (s1' & Heq1 & _ & Hd1 & _).
        rewrite Heq1 in H1. simplify_eq. by cbn.
      - destruct (remove_listener_removes l s)
          as (s1' & Heq1 & _ & Hd1 & _). rewrite Heq1 in H1. simplify_eq. by cbn. }
    rewrite Hs1.
    assert (Ho : omap assignment (r :: rs)
                 = (option_list (assignment r) ++ omap assignment rs)%list).
    { cbn. by destruct (assignment r). }
    rewrite Ho.
    destruct (assignment r) as [v|]; [|done].
    cbn [option_list]. rewrite last_app.
    by destruct (last (omap assignment rs)).
Qed.




End Facts.

Ltac distinct_ids :=
  cbn; repeat constructor; rewrite ?elem_of_cons, ?elem_of_nil; lia.

Lemma remove_listener_drops_only_it_witness :
  NoDup (lid <$> _device_listeners
                   (registry_with [quiet 1; faulty 2; quiet 3]))
  /\ exists s',
       remove_listener (faulty 2)
         (registry_with [quiet 1; faulty 2; quiet 3]) = (Ok tt, s')
       /\ _device_listeners s' = [quiet 1; quiet 3].
Proof.
  assert (Hnd : NoDup (lid <$> _device_listeners
                                (registry_with [quiet 1; faulty 2; quiet 3])))
    by distinct_ids.
  split; [exact Hnd|].
  destruct (remove_listener_drops_only_it (faulty 2)
              (registry_with [quiet 1; faulty 2; quiet 3])
              Hnd) as (s' & Heq & Hf & _).
  exists s'. split; [exact Heq|]. rewrite Hf. reflexivity.
Defined.

Lemma add_then_remove_restores_witness :
  registered_in (quiet 4)
    (_device_listeners (registry_with [quiet 1; faulty 2; quiet 3])) = false
  /\ exists s1 s2,
       add_listener (quiet 4) (registry_with [quiet 1; faulty 2; quiet 3])
       = (Ok tt, s1)
       /\ remove_listener (quiet 4) s1 = (Ok tt, s2)
       /\ _device_listeners s2 = [quiet 1; faulty 2; quiet 3].
Proof.
  split; [reflexivity|].
  destruct (add_then_remove_restores (quiet 4)
              (registry_with [quiet 1; faulty 2; quiet 3]) eq_refl)
    as (s1 & s2 & H1 & H2 & H3 & _).
  exists s1, s2. split; [exact H1|]. split; [exact H2|exact H3].
Defined.

Lemma listeners_stay_distinct_witness :
  NoDup (lid <$> _device_listeners
                   (registry_with [quiet 1; faulty 2; quiet 3]))
  /\ exists s',
       perform_all [AddListener (quiet 1); SetDevice tv_a;
                    RemoveListener (faulty 2); AddListener (faulty 2)]
         (registry_with [quiet 1; faulty 2; quiet 3]) = (Ok tt, s')
       /\ NoDup (lid <$> _device_listeners s').
Proof.
  assert (Hnd : NoDup (lid <$> _device_listeners
                                (registry_with [quiet 1; faulty 2; quiet 3])))
    by distinct_ids.
  split; [exact Hnd|].
  apply (listeners_stay_distinct
           [AddListener (quiet 1); SetDevice tv_a;
            RemoveListener (faulty 2); AddListener (faulty 2)]
           (registry_with [quiet 1; faulty 2; quiet 3])
           Hnd).
Defined.



End RegistryExtras.

(** * More on the command executor *)

Module ExecutorExtras.
Import Py Executor Outcomes.
Import ExecutorFacts.

Lemma run_adb_command_result self args timeout text kw w :
  fst (run_adb_command self args timeout text kw w)
  = Ok (record_of text timeout
          (fst (subprocess_run (command_of self args) text timeout kw w))).
Proof.
  rewrite <- (subprocess_run_announced self args timeout).
  unfold run_adb_command, try_excepts.
  unfold mbind at 1, M_bind at 1. unfold print at 1, modify at 1.
  fold (announced self args timeout w).
  unfold mbind at 1, M_bind at 1.
  destruct (subprocess_run _ _ _ _ _) as [[cp|e] w1]; cbn [fst record_of].
  - unfold mbind, M_bind, mret, M_ret, print, modify, completed_record.
    destruct text; cbn [andb negb];
      destruct (truthy (or_default (cp_stdout cp) _));
      destruct (truthy (or_default (cp_stderr cp) _)); reflexivity.
  - unfold failure_record. cbn [dispatch].
    destruct (is_TimeoutExpired e); reflexivity.
Qed.



Lemma subprocess_run_decoded cmd timeout kw w t rc out err so se :
  spawn w cmd = Runs (Some t) rc out err ->
  t <= timeout ->
  kw_check kw = false ->
  decode (codec w) (default Strict (kw_errors kw)) out = Some so ->
  decode (codec w) (default Strict (kw_errors kw)) err = Some se ->
  fst (subprocess_run cmd true timeout kw w)
  = Ok {| cp_returncode := rc;
          cp_stdout := Some (VStr (translate_newlines so));
          cp_stderr := Some (VStr (translate_newlines se)) |}.
Proof.
  intros Hspawn Ht Hck Hso Hse. rewrite subprocess_run_unfold, Hspawn.
  cbn [exits_within]. destruct (t <=? timeout) eqn:Hle; [|lia].
  cbv zeta. rewrite !read_stream_unfold.
  cbn [orb fst ended codec platform lib_text]. by rewrite Hso, Hse, Hck.
Qed.

Lemma or_default_str s : or_default (Some (VStr s)) (VStr "") = VStr s.
Proof.
  unfold or_default. cbn [truthy]. destruct (String.eqb_spec s ""); by subst.
Qed.

Lemma utf8_go_ascii fuel h bs :
  (length bs <= fuel)%nat ->
  forallb is_ascii bs = true ->
  utf8_go fuel h bs = Some bs.
Proof.
  revert bs. induction fuel as [|fuel IH]; intros bs Hlen Hbs.
  - destruct bs; [done|cbn in Hlen; lia].
  - destruct bs as [|b bs]; [done|].
    cbn [forallb] in Hbs. apply andb_true_iff in Hbs as [Hb Hbs].
    cbn [utf8_go utf8_step]. unfold is_ascii in Hb. rewrite Hb.
    change (drop 1 (b :: bs)) with bs. change (take 1 (b :: bs)) with [b].
    rewrite IH; [done|cbn in Hlen; lia|done].
Qed.

(** X8: [check_adb_availability] never raises; it answers [True] exactly
    when [adb version], run in text mode with a timeout of 10 seconds,
    makes [subprocess.run] return with exit code 0, which only a child
    that exits with code 0 within 10 seconds does. *)
Theorem check_adb_availability_spec self w :
  exists b w',
    check_adb_availability self w = (Ok b, w')
    /\ (b = true <->
        exists cp,
          fst (subprocess_run (command_of self ["version"]) true 10
                 no_kwargs w) = Ok cp
          /\ cp_returncode cp = 0)
    /\ (b = true ->
        exists t out err,
          spawn w (command_of self ["version"]) = Runs (Some t) 0 out err
          /\ t <= 10).
Proof.
  pose proof (run_adb_command_result self ["version"] 10 true no_kwargs w)
    as Hres.
  unfold check_adb_availability, try_excepts.
  unfold mbind at 1, M_bind at 1.
  destruct (run_adb_command self ["version"] 10 true no_kwargs w)
    as [o w1]. cbn [fst] in Hres. subst o.
  destruct (fst (subprocess_run _ true 10 no_kwargs w)) as [cp|e] eqn:Hrun;
    cbn [record_of].
  - exists (cp_returncode cp =? 0), w1. split.
    { unfold completed_record, getitem, mbind, M_bind. by simplify_map_eq. }
    assert (Hiff : (cp_returncode cp =? 0) = true
                   <-> exists cp', Ok cp = Ok cp' /\ cp_returncode cp' = 0).
    { split.
      - intros H. exists cp. split; [done|lia].
      - intros (cp' & Heq & H0). simplify_eq. lia. }
    split; [done|]. intros Hb.
    destruct (subprocess_run_returns _ _ _ _ _ _ Hrun)
      as (t & out & err & Hs & Ht).
    exists t, out, err. split; [|done]. rewrite Hs. f_equal. lia.
  - exists false, w1. split.
    { unfold failure_record, getitem, mbind, M_bind.
      destruct (is_TimeoutExpired e); by simplify_map_eq. }
    split; [|done]. split; [done|]. by intros (cp & ? & _).
Qed.



(** X11: in binary mode, when no [errors] handler is forwarded and the
    child exits within the timeout, [stdout] and [stderr] are the bytes
    the child wrote, all of them and unchanged, and [success] follows the
    exit code. *)
Theorem binary_output_byte_identical self args timeout kwargs w t rc out err :
  spawn w (command_of self args) = Runs (Some t) rc out err ->
  t <= timeout ->
  kw_errors kwargs = None ->
  kw_check kwargs = false \/ rc = 0 ->
  exists r w',
    run_adb_command self args timeout false kwargs w = (Ok r, w')
    /\ r !! "stdout" = Some (VBytes out)
    /\ r !! "stderr" = Some (VBytes err)
    /\ r !! "returncode" = Some (VInt rc)
    /\ r !! "success" = Some (VBool (rc =? 0)).
Proof.
  intros Hspawn Ht Herr Hck.
  pose proof (run_adb_command_result self args timeout false kwargs w) as Hres.
  rewrite subprocess_run_unfold, Hspawn in Hres. cbn [exits_within] in Hres.
  destruct (t <=? timeout) eqn:Hle; [|lia].
  cbv zeta in Hres. rewrite !read_stream_unfold, Herr in Hres.
  cbn [orb is_Some fst] in Hres.
  rewrite bool_decide_eq_false_2 in Hres by (by intros [? ?]).
  cbn [fst] in Hres.
  assert (Hno : kw_check kwargs && negb (rc =? 0) = false).
  { destruct Hck as [->| ->]; [done|]. by rewrite andb_false_r. }
  rewrite Hno in Hres. cbn [fst record_of] in Hres.
  destruct (run_adb_command self args timeout false kwargs w) as [o w'].
  cbn [fst] in Hres. subst o. eexists _, w'. split; [reflexivity|].
  unfold completed_record. cbn [cp_returncode cp_stdout cp_stderr].
  assert (Hb : forall bs, or_default (Some (VBytes bs)) (VBytes []) = VBytes bs).
  { intros bs. unfold or_default. cbn [truthy].
    destruct (decide (bs = [])) as [->|Hne].
    - by rewrite bool_decide_eq_true_2.
    - by rewrite bool_decide_eq_false_2. }
  rewrite !Hb. by simplify_map_eq.
Qed.

(** X12: in text mode, output that the codec accepts, under the handler
    in force (the one the caller forwards, [strict] otherwise), comes back
    decoded with every carriage-return/line-feed pair and every lone
    carriage return turned into a line feed. *)
Theorem text_output_decoded self args timeout kwargs w t rc out err so se :
  spawn w (command_of self args) = Runs (Some t) rc out err ->
  t <= timeout ->
  kw_check kwargs = false ->
  decode (codec w) (default Strict (kw_errors kwargs)) out = Some so ->
  decode (codec w) (default Strict (kw_errors kwargs)) err = Some se ->
  exists r w',
    run_adb_command self args timeout true kwargs w = (Ok r, w')
    /\ r !! "stdout" = Some (VStr (translate_newlines so))
    /\ r !! "stderr" = Some (VStr (translate_newlines se))
    /\ r !! "returncode" = Some (VInt rc)
    /\ r !! "success" = Some (VBool (rc =? 0)).
Proof.
  intros Hspawn Ht Hck Hso Hse.
  pose proof (run_adb_command_result self args timeout true kwargs w) as Hres.
  rewrite (subprocess_run_decoded _ _ _ _ _ _ _ _ _ _
             Hspawn Ht Hck Hso Hse) in Hres.
  destruct (run_adb_command self args timeout true kwargs w) as [o w'].
  cbn [fst record_of] in Hres. subst o. eexists _, w'.
  split; [reflexivity|].
  unfold completed_record. cbn [cp_returncode cp_stdout cp_stderr].
  rewrite !or_default_str. by simplify_map_eq.
Qed.

(** X13: with the UTF-8 codec, output made of ASCII bytes only is always
    decoded, under every handler and on both platforms: it comes back as
    the same characters with the line ends translated. *)
Theorem ascii_output_always_decodes self args timeout kwargs w t rc out err :
  codec w = utf8 ->
  spawn w (command_of self args) = Runs (Some t) rc out err ->
  t <= timeout ->
  kw_check kwargs = false ->
  forallb is_ascii out = true ->
  forallb is_ascii err = true ->
  exists r w',
    run_adb_command self args timeout true kwargs w = (Ok r, w')
    /\ r !! "stdout"
       = Some (VStr (translate_newlines (string_of_list_byte out)))
    /\ r !! "stderr"
       = Some (VStr (translate_newlines (string_of_list_byte err)))
    /\ r !! "success" = Some (VBool (rc =? 0)).
Proof.
  intros Hcodec Hspawn Ht Hck Hout Herr.
  pose proof (run_adb_command_result self args timeout true kwargs w) as Hres.
  rewrite (subprocess_run_decoded _ _ _ _ _ _ _ _
             (string_of_list_byte out) (string_of_list_byte err)
             Hspawn Ht Hck) in Hres.
  2,3: rewrite Hcodec; cbn [decode utf8]; by rewrite utf8_go_ascii.
  destruct (run_adb_command self args timeout true kwargs w) as [o w'].
  cbn [fst record_of] in Hres. subst o. eexists _, w'.
  split; [reflexivity|].
  unfold completed_record. cbn [cp_returncode cp_stdout cp_stderr].
  rewrite !or_default_str. by simplify_map_eq.
Qed.


Lemma binary_output_byte_identical_witness :
  spawn (fake_world Windows screencap_child)
    (command_of manager ["exec-out"; "screencap"; "-p"])
  = Runs (Some 2) 0 png_signature []
  /\ 2 <= 15
  /\ kw_errors no_kwargs = None
  /\ (kw_check no_kwargs = false \/ 0 = 0)
  /\ exists r w',
       run_adb_command manager ["exec-out"; "screencap"; "-p"] 15 false
         no_kwargs (fake_world Windows screencap_child) = (Ok r, w')
       /\ r !! "stdout" = Some (VBytes png_signature)
       /\ r !! "stderr" = Some (VBytes [])
       /\ r !! "returncode" = Some (VInt 0)
       /\ r !! "success" = Some (VBool (0 =? 0)).
Proof.
  split; [reflexivity|]. split; [lia|]. split; [reflexivity|].
  split; [by left|].
  apply (binary_output_byte_identical manager
           ["exec-out"; "screencap"; "-p"] 15 no_kwargs
           (fake_world Windows screencap_child) 2 0 png_signature []).
  - reflexivity.
  - lia.
  - reflexivity.
  - by left.
Defined.

Lemma text_output_decoded_witness :
  exists r w',
    run_adb_command manager ["devices"] 10 true replacing
      (fake_world Posix stray_child) = (Ok r, w')
    /\ r !! "stdout"
       = Some (VStr (translate_newlines
                       ("ok" +:+ string_of_list_byte replacement_character)))
    /\ r !! "stderr" = Some (VStr (translate_newlines ""))
    /\ r !! "returncode" = Some (VInt 0)
    /\ r !! "success" = Some (VBool (0 =? 0)).
Proof.
  apply (text_output_decoded manager ["devices"] 10 replacing
           (fake_world Posix stray_child) 1 0 stray_output []).
  - reflexivity.
  - lia.
  - reflexivity.
  - vm_compute. reflexivity.
  - vm_compute. reflexivity.
Defined.

Lemma ascii_output_always_decodes_witness :
  exists r w',
    run_adb_command manager ["devices"] 10 true no_kwargs
      (fake_world Windows devices_child) = (Ok r, w')
    /\ r !! "stdout"
       = Some (VStr (translate_newlines
                       (string_of_list_byte
                          (list_byte_of_string "List of devices attached"
                           ++ [x0d; x0a]
                           ++ list_byte_of_string "emulator-5554" ++ [x09]
                           ++ list_byte_of_string "device" ++ [x0d; x0a]))))
    /\ r !! "stderr"
       = Some (VStr (translate_newlines (string_of_list_byte [])))
    /\ r !! "success" = Some (VBool (0 =? 0)).
Proof.
  apply (ascii_output_always_decodes manager ["devices"] 10 no_kwargs
           (fake_world Windows devices_child) 1 0).
  - reflexivity.
  - reflexivity.
  - lia.
  - reflexivity.
  - vm_compute. reflexivity.
  - reflexivity.
Defined.

End ExecutorExtras.

(** * The footprint of the resolver and the life of the manager *)

Module ResolverExtras.
Import Py Resolver Lifecycle.
Import ResolverFacts.

Section Rules.
Context {S : Type}.
Implicit Types (P E : S -> Prop).

Lemma hoare_ret {A} P (a : A) (Q : A -> S -> Prop) E :
  (forall s, P s -> Q a s) -> hoare P (mret a) Q E.
Proof. intros H s Hs. by apply H. Qed.

Lemma hoare_raise {A} P e (Q : A -> S -> Prop) E :
  (forall s, P s -> E s) -> hoare P (raise e) Q E.
Proof. intros H s Hs. by apply H. Qed.

Lemma hoare_bind {A B} P (m : M S A) (f : A -> M S B) Q R E :
  hoare P m Q E -> (forall a, hoare (Q a) (f a) R E) ->
  hoare P (m ≫= f) R E.
Proof.
  intros Hm Hf s Hs. specialize (Hm s Hs). unfold mbind, M_bind.
  destruct (m s) as [[a|e] s1]; [|done]. by apply Hf.
Qed.

Lemma hoare_get {B} P (f : S -> M S B) Q E :
  (forall s0, hoare (fun s => s = s0 /\ P s) (f s0) Q E) ->
  hoare P (get ≫= f) Q E.
Proof. intros Hf s Hs. unfold mbind, M_bind, get. by apply Hf. Qed.

Lemma hoare_modify P (g : S -> S) (Q : unit -> S -> Prop) E :
  (forall s, P s -> Q tt (g s)) -> hoare P (modify g) Q E.
Proof. intros H s Hs. by apply H. Qed.

Lemma hoare_try {A} P (body : M S A) clauses Q E E' :
  hoare P body Q E' ->
  (forall e, hoare E' (dispatch clauses e) Q E) ->
  hoare P (try_excepts body clauses) Q E.
Proof.
  intros Hb Hc s Hs. specialize (Hb s Hs). unfold try_excepts.
  destruct (body s) as [[a|e] s1]; [done|]. by apply Hc.
Qed.

Lemma hoare_weaken {A} P P' (m : M S A) (Q Q' : A -> S -> Prop) E E' :
  hoare P m Q E ->
  (forall s, P' s -> P s) ->
  (forall a s, Q a s -> Q' a s) ->
  (forall s, E s -> E' s) ->
  hoare P' m Q' E'.
Proof.
  intros H HP HQ HE s Hs. specialize (H s (HP s Hs)).
  destruct (m s) as [[a|e] s1]; [by apply HQ|by apply HE].
Qed.

Lemma hoare_pre {A} P P' (m : M S A) Q E :
  hoare P m Q E -> (forall s, P' s -> P s) -> hoare P' m Q E.
Proof. intros H HP. by eapply hoare_weaken. Qed.

Lemma hoare_post {A} P (m : M S A) (Q Q' : A -> S -> Prop) E :
  hoare P m Q E -> (forall a s, Q a s -> Q' a s) -> hoare P m Q' E.
Proof. intros H HQ. by eapply hoare_weaken. Qed.

Lemma hoare_pure {A} (phi : Prop) P (m : M S A) Q E :
  (phi -> hoare P m Q E) -> hoare (fun s => phi /\ P s) m Q E.
Proof. intros H s [Hphi Hs]. by apply H. Qed.

End Rules.

Section Footprint.
Variables (sys : Sys) (f0 : gmap path Node) (P : option string).
Local Abbreviation T := (mkdtemp_result sys).
Local Abbreviation I := (Resolver.inv sys f0 P).
Local Abbreviation staged :=
  (fun s : State => I s /\ builtin_adb_path s = Some (T // "adb.exe")).
Local Abbreviation found_post :=
  (fun (b : bool) (s : State) =>
     I s /\ (b = true -> I s /\ builtin_adb_path s = Some (T // "adb.exe"))).

Lemma logger_keeps l msg : hoare I (logger l msg) (fun _ => I) I.
Proof. apply hoare_modify. intros s. apply inv_with_log. Qed.

Lemma Path_temp_dir_keeps :
  hoare I Path_temp_dir (fun p s => p = T /\ I s) I.
Proof.
  intros s Hs. by rewrite (Path_temp_dir_inv sys f0 P s Hs).
Qed.

Lemma copy2_keeps src n : hoare I (copy2 src (T // n)) (fun _ => I) I.
Proof.
  intros s Hs. pose proof Hs as (_ & _ & _ & Hin).
  unfold copy2, mbind, M_bind, get, raise, modify.
  destruct (fs s !! src) as [[c|]|]; [|done..].
  assert (Hdst : match fs s !! (T // n) with
                 | Some Dir => T // n // name src
                 | _ => T // n
                 end = T // n).
  { specialize (Hin n). by destruct (fs s !! (T // n)) as [[]|]. }
  rewrite Hdst. destruct (bool_decide (T // n = src)); [done|].
  destruct (fs s !! (T // n)) as [[]|];
    destruct (fs s !! parent (T // n)) as [[]|]; try done.
  all: by apply inv_write.
Qed.

Lemma copy_files_keeps label files :
  hoare I (copy_files label files) (fun _ => I) I.
Proof.
  induction files as [|file_path rest IH]; cbn [copy_files].
  - by apply hoare_ret.
  - apply hoare_get. intros s1.
    eapply hoare_bind with (Q := fun _ => I); [|intros ?; exact IH].
    eapply hoare_pre with (P := I); [|by intros ? [_ ?]].
    destruct (is_file (fs s1) file_path); [|by apply hoare_ret].
    eapply hoare_bind; [apply Path_temp_dir_keeps|]. intros temp.
    apply hoare_pure. intros Htemp. subst temp.
    eapply hoare_bind; [apply copy2_keeps|]. intros ?. apply logger_keeps.
Qed.

Lemma stage_keeps src found : hoare I (stage src found) found_post I.
Proof.
  unfold stage.
  eapply hoare_bind; [apply Path_temp_dir_keeps|]. intros temp.
  apply hoare_pure. intros Htemp. subst temp.
  eapply hoare_bind; [apply copy2_keeps|]. intros ?.
  apply hoare_get. intros s1.
  eapply hoare_pre with (P := I); [|by intros ? [_ ?]].
  destruct (path_exists (fs s1) (T // "adb.exe")); [|by apply hoare_ret].
  eapply hoare_bind with (Q := fun _ => staged).
  { apply hoare_modify. intros s Hs. split; [|done].
    by apply inv_with_builtin. }
  intros ?. eapply hoare_bind with (Q := fun _ => staged).
  { apply hoare_modify. intros s [Hs Hb]. split; [|done].
    by apply inv_with_log. }
  intros ?. apply hoare_ret. by intros s [Hs Hb].
Qed.

Lemma found_or_next (m k : M State bool) :
  hoare I m found_post I ->
  hoare I k found_post I ->
  hoare I (staged ← m; if (staged : bool) then mret true else k)
    found_post I.
Proof.
  intros Hm Hk. eapply hoare_bind; [exact Hm|]. intros [].
  - apply hoare_ret. done.
  - eapply hoare_pre; [exact Hk|]. by intros s [Hs _].
Qed.

Lemma alternative_keeps :
  hoare I (_try_find_adb_alternative sys) found_post I.
Proof.
  unfold _try_find_adb_alternative.
  assert (Hret : hoare I (mret false : M State bool) found_post I).
  { apply hoare_ret. by intros s Hs. }
  eapply hoare_try with (E' := I).
  - apply hoare_get. intros s1.
    eapply hoare_pre with (P := I); [|by intros ? [_ ?]].
    apply found_or_next.
    { destruct (path_exists (fs s1) _); [apply stage_keeps|exact Hret]. }
    apply hoare_get. intros s2.
    eapply hoare_pre with (P := I); [|by intros ? [_ ?]].
    apply found_or_next.
    { destruct (path_exists (fs s2) _); [apply stage_keeps|exact Hret]. }
    apply found_or_next.
    { destruct (which_adb sys); [apply stage_keeps|exact Hret]. }
    by apply hoare_raise.
  - intros e. cbn [dispatch is_Exception].
    eapply hoare_bind; [apply logger_keeps|]. intros ?. exact Hret.
Qed.

Lemma e_drive_keeps :
  hoare I _copy_adb_from_e_drive (fun _ => staged) I.
Proof.
  unfold _copy_adb_from_e_drive. eapply hoare_try with (E' := I).
  - apply hoare_get. intros s1.
    eapply hoare_pre with (P := I); [|by intros ? [_ ?]].
    eapply hoare_bind with (Q := fun _ => I).
    { destruct (negb _); [by apply hoare_raise|by apply hoare_ret]. }
    intros ?. eapply hoare_bind; [apply copy_files_keeps|]. intros ?.
    eapply hoare_bind; [apply Path_temp_dir_keeps|]. intros temp.
    apply hoare_pure. intros Htemp. subst temp.
    eapply hoare_bind with (Q := fun _ => staged).
    { apply hoare_modify. intros s Hs. split; [|done].
      by apply inv_with_builtin. }
    intros ?. apply hoare_modify. intros s [Hs Hb]. split; [|done].
    by apply inv_with_log.
  - intros e. cbn [dispatch is_Exception].
    eapply hoare_bind; [apply logger_keeps|]. intros ?.
    by apply hoare_raise.
Qed.

Lemma extract_keeps :
  hoare I (_extract_adb_from_resources sys) found_post I.
Proof.
  unfold _extract_adb_from_resources. eapply hoare_try with (E' := I).
  - eapply hoare_bind; [apply logger_keeps|]. intros ?.
    eapply hoare_bind with (Q := fun _ => I).
    { destruct (_MEIPASS sys) as [meipass_path|]; [|by apply hoare_ret].
      apply hoare_get. intros s1.
      eapply hoare_pre with (P := I); [|by intros ? [_ ?]].
      destruct (path_exists (fs s1) _);
        [apply copy_files_keeps|by apply hoare_ret]. }
    intros ?. eapply hoare_bind; [apply Path_temp_dir_keeps|]. intros temp.
    apply hoare_pure. intros Htemp. subst temp.
    apply hoare_get. intros s2.
    eapply hoare_pre with (P := I); [|by intros ? [_ ?]].
    eapply hoare_bind with (Q := fun _ => I).
    { destruct (path_exists (fs s2) _);
        [apply copy_files_keeps|by apply hoare_ret]. }
    intros ?. eapply hoare_bind; [apply Path_temp_dir_keeps|]. intros temp.
    apply hoare_pure. intros Htemp. subst temp.
    apply hoare_get. intros s3.
    eapply hoare_pre with (P := I); [|by intros ? [_ ?]].
    destruct (path_exists (fs s3) _); [|apply alternative_keeps].
    eapply hoare_bind with (Q := fun _ => staged).
    { apply hoare_modify. intros s Hs. split; [|done].
      by apply inv_with_builtin. }
    intros ?. eapply hoare_bind with (Q := fun _ => staged).
    { apply hoare_modify. intros s [Hs Hb]. split; [|done].
      by apply inv_with_log. }
    intros ?. apply hoare_ret. by intros s [Hs Hb].
  - intros e. cbn [dispatch is_Exception].
    eapply hoare_bind; [apply logger_keeps|]. intros ?.
    apply alternative_keeps.
Qed.

Lemma primary_keeps : hoare I (primary sys) (fun _ => staged) I.
Proof.
  unfold primary. destruct (frozen sys); [|apply e_drive_keeps].
  eapply hoare_bind; [apply extract_keeps|]. intros [].
  - apply hoare_ret. intros s [Hs Hb]. split; [done|by apply Hb].
  - cbn [negb]. eapply hoare_pre with (P := I); [|by intros ? [? _]].
    eapply hoare_bind; [apply logger_keeps|]. intros ?. apply e_drive_keeps.
Qed.

Lemma fallback_keeps : hoare staged (fallback sys) (fun _ => staged) I.
Proof.
  unfold fallback. apply hoare_get. intros s1.
  eapply hoare_pre with (P := staged); [|by intros ? [_ ?]].
  match goal with
  | |- context [if ?c then _ else _] => destruct c
  end; [|by apply hoare_ret].
  eapply hoare_bind with (Q := fun _ => I).
  { apply hoare_modify. intros s [Hs _]. by apply inv_with_log. }
  intros ?. eapply hoare_bind; [apply alternative_keeps|]. intros [].
  - apply hoare_ret. intros s [Hs Hb]. by apply Hb.
  - apply hoare_raise. by intros s [Hs _].
Qed.

Lemma finish_keeps :
  hoare staged (finish sys T)
    (fun _ s =>
       exists old c,
         P = Some old
         /\ Resolver.inv sys f0
              (Some (path_str T +:+ pathsep sys +:+ old)) s
         /\ builtin_adb_path s = Some (T // "adb.exe")
         /\ fs s !! (T // "adb.exe") = Some (File c))
    I.
Proof.
  intros s [Hs Hb]. pose proof Hs as (Ht & HP & Hout & Hin).
  unfold finish, _verify_adb_exists, mbind, M_bind, get, logger, modify,
    raise, mret, M_ret.
  rewrite Hb. unfold path_exists.
  destruct (fs s !! (T // "adb.exe")) as [v|] eqn:Hv; cbn.
  - rewrite HP. destruct P as [old|]; cbn; [|done].
    destruct v as [c|]; [|by destruct (Hin "adb.exe")].
    exists old, c. by repeat split.
  - done.
Qed.

End Footprint.

Section Setup.
Variables (sys : Sys) (s0 : State).
Hypothesis Hfresh : fresh sys s0.
Local Abbreviation T := (mkdtemp_result sys).

Lemma fresh_child n : fs s0 !! (T // n) = None.
Proof. apply Hfresh. by apply prefix_app_r. Qed.

Lemma inv_after_mkdtemp l msg :
  Resolver.inv sys (fs s0) (environ_PATH s0)
    (with_log l msg
       (with_temp_dir T (with_fs (<[T := Dir]> (fs s0)) s0))).
Proof.
  repeat split; cbn.
  intros n. rewrite lookup_insert_ne by (symmetry; apply child_ne_self).
  by rewrite fresh_child.
Qed.

Lemma setup_outcome :
  match setup_builtin_adb sys s0 with
  | (Ok _, s') =>
      exists old c,
        environ_PATH s0 = Some old
        /\ Resolver.inv sys (fs s0)
             (Some (path_str T +:+ pathsep sys +:+ old)) s'
        /\ builtin_adb_path s' = Some (T // "adb.exe")
        /\ fs s' !! (T // "adb.exe") = Some (File c)
  | (Raise _, s') => Resolver.inv sys (fs s0) (environ_PATH s0) s'
  end.
Proof.
  rewrite setup_builtin_adb_stages. unfold try_excepts.
  set (s1 := with_log INFO ("创建临时ADB目录: " +:+ path_str T)
               (with_temp_dir T (with_fs (<[T := Dir]> (fs s0)) s0))).
  assert (Hstart : forall k : path -> M State unit,
    (temp ← mkdtemp sys;
     modify (with_temp_dir temp);;
     logger INFO ("创建临时ADB目录: " +:+ path_str temp);; k temp) s0
    = k T s1) by reflexivity.
  rewrite Hstart.
  assert (Hbody : hoare (Resolver.inv sys (fs s0) (environ_PATH s0))
            (primary sys;; fallback sys;; finish sys T)
            (fun _ s' =>
               exists old c,
                 environ_PATH s0 = Some old
                 /\ Resolver.inv sys (fs s0)
                      (Some (path_str T +:+ pathsep sys +:+ old)) s'
                 /\ builtin_adb_path s' = Some (T // "adb.exe")
                 /\ fs s' !! (T // "adb.exe") = Some (File c))
            (Resolver.inv sys (fs s0) (environ_PATH s0))).
  { eapply hoare_bind; [apply primary_keeps|]. intros ?.
    eapply hoare_bind; [apply fallback_keeps|]. intros ?.
    apply finish_keeps. }
  specialize (Hbody s1 (inv_after_mkdtemp _ _)).
  destruct ((primary sys;; fallback sys;; finish sys T) s1) as [[[]|e] s2];
    [done|].
  cbn [dispatch is_Exception]. by apply inv_with_log.
Qed.

Lemma inv_outside P s q :
  Resolver.inv sys (fs s0) P s -> ~ T `prefix_of` q -> fs s !! q = fs s0 !! q.
Proof.
  intros (_ & _ & Hout & _) Hq. rewrite Hout.
  - apply lookup_insert_ne. intros <-. by apply Hq.
  - intros n ->. apply Hq. by apply prefix_app_r.
Qed.

Lemma inv_inside P s q v :
  Resolver.inv sys (fs s0) P s -> T `prefix_of` q -> q <> T ->
  fs s !! q = Some v -> exists n c, q = T // n /\ v = File c.
Proof.
  intros (_ & _ & Hout & Hin) Hq Hne Hv.
  destruct (decide (q = T // name q)) as [Heq|Hno].
  - exists (name q). rewrite Heq in Hv.
    destruct v as [c|]; [by exists c|]. by destruct (Hin (name q)).
  - rewrite Hout in Hv.
    + rewrite lookup_insert_ne, Hfresh in Hv by done. done.
    + intros n ->. apply Hno. by rewrite name_child.
Qed.

End Setup.

Lemma lookup_without (f : gmap path Node) (p q : path) :
  filter (fun kv : path * Node => ~ p `prefix_of` kv.1) f !! q
  = if decide (p `prefix_of` q) then None else f !! q.
Proof.
  apply option_eq. intros v. rewrite map_lookup_filter_Some. cbn.
  destruct (decide (p `prefix_of` q)); split; try done.
  - by intros [_ ?].
  - by intros [? _].
Qed.

Lemma cleanup_removes s (temp : path) :
  temp_dir s = Some temp ->
  path_str temp <> "" ->
  fs s !! temp = Some Dir ->
  cleanup s
  = (Ok tt,
     with_log INFO ("清理临时ADB目录: " +:+ path_str temp)
       (with_fs (filter (fun kv : path * Node => ~ temp `prefix_of` kv.1)
                   (fs s)) s)).
Proof.
  intros Ht Hne Hdir. unfold cleanup, mbind, M_bind, get. rewrite Ht.
  cbn [truthy]. destruct (String.eqb_spec (path_str temp) ""); [done|].
  unfold path_exists. rewrite Hdir, bool_decide_eq_true_2 by done.
  cbn [negb andb]. unfold try_excepts, rmtree, mbind, M_bind, get.
  by rewrite Hdir.
Qed.


Lemma restored sys s0 P s :
  fresh sys s0 ->
  Resolver.inv sys (fs s0) P s ->
  filter (fun kv : path * Node => ~ mkdtemp_result sys `prefix_of` kv.1)
    (fs s) = fs s0.
Proof.
  intros Hfresh Hinv. apply map_eq. intros q. rewrite lookup_without.
  destruct (decide (mkdtemp_result sys `prefix_of` q)) as [Hq|Hq].
  - symmetry. by apply Hfresh.
  - by eapply inv_outside.
Qed.

Lemma setup_keeps_inv sys s0 :
  fresh sys s0 ->
  exists P, Resolver.inv sys (fs s0) P (snd (setup_builtin_adb sys s0)).
Proof.
  intros Hfresh. pose proof (setup_outcome sys s0 Hfresh) as H.
  destruct (setup_builtin_adb sys s0) as [[[]|e] s']; cbn [snd].
  - destruct H as (old & c & _ & Hinv & _). by eexists.
  - by eexists.
Qed.

Lemma stage_missing_source src found s :
  file_content (fs s) src = None ->
  exists e, stage src found s = (Raise e, s).
Proof.
  intros Hsrc. unfold stage, Path_temp_dir.
  unfold mbind at 1, M_bind at 1. unfold mbind at 1, M_bind at 1, get at 1.
  destruct (temp_dir s) as [temp|]; [|by eexists].
  cbn [mret M_ret].
  destruct (copy2_missing s src (temp // "adb.exe") Hsrc) as [e He].
  exists e. by erewrite bind_raise.
Qed.

Lemma Path_temp_dir_cases s :
  hoare (fun s1 => s1 = s) Path_temp_dir
    (fun p s1 => temp_dir s = Some p /\ s1 = s) (fun s1 => s1 = s).
Proof.
  intros s1 ->. unfold Path_temp_dir, mbind, M_bind, get.
  by destruct (temp_dir s).
Qed.

Lemma copy2_cases s src dst :
  hoare (fun s1 => s1 = s) (copy2 src dst)
    (fun _ s' =>
       exists (d : path) c,
         s' = with_fs (<[d := File c]> (fs s)) s
         /\ (d = dst \/ fs s !! dst = Some Dir /\ d = dst // name src))
    (fun s1 => s1 = s).
Proof.
  intros s1 ->. unfold copy2, mbind, M_bind, get.
  destruct (fs s !! src) as [[c|]|]; [|done..].
  set (d := match fs s !! dst with
            | Some Dir => dst // name src
            | _ => dst
            end).
  assert (Hd : d = dst \/ fs s !! dst = Some Dir /\ d = dst // name src).
  { subst d. destruct (fs s !! dst) as [[]|]; auto. }
  destruct (bool_decide (d = src)); [done|].
  destruct (fs s !! d) as [[]|]; destruct (fs s !! parent d) as [[]|];
    try done.
  all: by exists d, c.
Qed.

Lemma stage_cases s src found :
  hoare (fun s1 => s1 = s) (stage src found)
    (fun b s' => b = true /\ in_place s s') (fun s1 => s1 = s).
Proof.
  unfold stage.
  eapply hoare_bind; [apply Path_temp_dir_cases|]. intros temp.
  apply hoare_pure. intros Htemp.
  eapply hoare_bind; [apply copy2_cases|]. intros ?.
  apply hoare_get. intros s2 s3 [-> (d & c & -> & Hd)].
  assert (Hex : path_exists (<[d := File c]> (fs s)) (temp // "adb.exe")
                = true).
  { unfold path_exists. apply bool_decide_eq_true_2.
    destruct Hd as [->|[Hdir ->]].
    - by rewrite lookup_insert_eq.
    - rewrite lookup_insert_ne by apply child_ne_self.
      by rewrite Hdir. }
  cbn [fs with_fs]. rewrite Hex.
  unfold mbind, M_bind, modify, logger, mret, M_ret. cbn.
  split; [done|]. split; [done|]. split; [done|]. by exists temp.
Qed.

Lemma alternative_cases sys s :
  hoare (fun s1 => s1 = s) (_try_find_adb_alternative sys)
    (fun b s' => if b then in_place s s' else unchanged s s')
    (fun _ => False).
Proof.
  unfold _try_find_adb_alternative.
  assert (Hret : hoare (fun s1 => s1 = s) (mret false : M State bool)
                   (fun b s' => if b then in_place s s' else s' = s)
                   (fun s1 => s1 = s)).
  { by apply hoare_ret. }
  assert (Hst : forall src found,
    hoare (fun s1 => s1 = s) (stage src found)
      (fun b s' => if b then in_place s s' else s' = s)
      (fun s1 => s1 = s)).
  { intros src found. eapply hoare_post; [apply stage_cases|].
    by intros b s' [-> ?]. }
  assert (Hnext : forall m k : M State bool,
    hoare (fun s1 => s1 = s) m
      (fun b s' => if b then in_place s s' else s' = s)
      (fun s1 => s1 = s) ->
    hoare (fun s1 => s1 = s) k
      (fun b s' => if b then in_place s s' else unchanged s s')
      (fun s1 => s1 = s) ->
    hoare (fun s1 => s1 = s)
      (staged ← m; if (staged : bool) then mret true else k)
      (fun b s' => if b then in_place s s' else unchanged s s')
      (fun s1 => s1 = s)).
  { intros m k Hm Hk. eapply hoare_bind; [exact Hm|]. intros [].
    - by apply hoare_ret.
    - exact Hk. }
  eapply hoare_try with (E' := fun s1 => s1 = s).
  - apply hoare_get. intros s1.
    eapply hoare_pre with (P := fun s1 => s1 = s); [|by intros ? [_ ?]].
    apply Hnext.
    { destruct (path_exists (fs s1) _); [apply Hst|exact Hret]. }
    apply hoare_get. intros s2.
    eapply hoare_pre with (P := fun s1 => s1 = s); [|by intros ? [_ ?]].
    apply Hnext.
    { destruct (path_exists (fs s2) _); [apply Hst|exact Hret]. }
    apply Hnext.
    { destruct (which_adb sys); [apply Hst|exact Hret]. }
    by apply hoare_raise.
  - intros e. cbn [dispatch is_Exception].
    eapply hoare_bind with (Q := fun _ => unchanged s).
    { apply hoare_modify. by intros s1 ->. }
    intros ?. by apply hoare_ret.
Qed.

(** X14: whether it returns or raises, [setup_builtin_adb] leaves every
    path outside the temporary directory it has just made as it was:
    nothing is changed, created or removed there.  In the temporary
    directory it only ever puts plain files, directly below it; and when it
    raises, [PATH] is what it was. *)
Theorem setup_touches_only_temp_dir sys s0 :
  fresh sys s0 ->
  let s' := snd (setup_builtin_adb sys s0) in
  (forall q : path, ~ mkdtemp_result sys `prefix_of` q ->
     fs s' !! q = fs s0 !! q)
  /\ fs s' !! mkdtemp_result sys = Some Dir
  /\ (forall (q : path) v,
        mkdtemp_result sys `prefix_of` q -> q <> mkdtemp_result sys ->
        fs s' !! q = Some v ->
        exists n c, q = mkdtemp_result sys // n /\ v = File c)
  /\ (forall e, fst (setup_builtin_adb sys s0) = Raise e ->
        environ_PATH s' = environ_PATH s0).
Proof.
  intros Hfresh. pose proof (setup_outcome sys s0 Hfresh) as H.
  destruct (setup_builtin_adb sys s0) as [[[]|e] s']; cbn [fst snd].
  - destruct H as (old & c & _ & Hinv & _).
    split; [intros q; by eapply inv_outside|].
    split; [by eapply inv_temp_is_dir|].
    split; [|done]. intros q v. by eapply (inv_inside sys s0 Hfresh).
  - split; [intros q; by eapply inv_outside|].
    split; [by eapply inv_temp_is_dir|].
    split; [intros q v; by eapply (inv_inside sys s0 Hfresh)|].
    intros ? _. by destruct H as (_ & HP & _).
Qed.

(** X15: when [setup_builtin_adb] returns, [builtin_adb_path] is
    [temp_dir/adb.exe], that path is a plain file, [temp_dir] is the
    directory just made, and [PATH] is the old [PATH] with that directory
    put in front of it. *)
Theorem setup_success_state sys s0 :
  fresh sys s0 ->
  fst (setup_builtin_adb sys s0) = Ok tt ->
  let s' := snd (setup_builtin_adb sys s0) in
  temp_dir s' = Some (mkdtemp_result sys)
  /\ builtin_adb_path s' = Some (mkdtemp_result sys // "adb.exe")
  /\ is_file (fs s') (mkdtemp_result sys // "adb.exe") = true
  /\ exists old,
       environ_PATH s0 = Some old
       /\ environ_PATH s'
          = Some (path_str (mkdtemp_result sys) +:+ pathsep sys +:+ old).
Proof.
  intros Hfresh Heq. pose proof (setup_outcome sys s0 Hfresh) as H.
  destruct (setup_builtin_adb sys s0) as [[[]|e] s']; [|done].
  cbn [snd]. destruct H as (old & c & Hold & (Ht & HP & _) & Hb & Hf).
  split; [done|]. split; [done|]. split; [|by exists old].
  unfold is_file. by rewrite Hf.
Qed.


(** X17: [setup_builtin_adb] followed by [cleanup] gives back the file
    system as it was before the two, whether the resolution returned or
    raised. *)
Theorem setup_then_cleanup_restores sys s0 :
  fresh sys s0 ->
  path_str (mkdtemp_result sys) <> "" ->
  exists s2,
    cleanup (snd (setup_builtin_adb sys s0)) = (Ok tt, s2)
    /\ fs s2 = fs s0.
Proof.
  intros Hfresh Hne. destruct (setup_keeps_inv sys s0 Hfresh) as [P Hinv].
  eexists. split.
  - apply cleanup_removes with (temp := mkdtemp_result sys); [|done|].
    + by destruct Hinv.
    + by eapply inv_temp_is_dir.
  - cbn. by eapply restored.
Qed.

Lemma ADBManager_unfold sys s :
  ADBManager sys s
  = match setup_builtin_adb sys (new_instance s) with
    | (Ok _, s') => (Ok (instance_of s'), s')
    | (Raise e, s') => (Raise e, s')
    end.
Proof.
  unfold ADBManager, __init__, mbind, M_bind, modify, get. cbn.
  by destruct (setup_builtin_adb sys (new_instance s)) as [[[]|e] s'].
Qed.

Lemma get_adb_manager_unfold sys p :
  _adb_manager p = None ->
  get_adb_manager sys p
  = match setup_builtin_adb sys (new_instance (world p)) with
    | (Ok _, s') =>
        (Ok (instance_of s'),
         {| world := s'; _adb_manager := Some (instance_of s') |})
    | (Raise e, s') => (Raise e, {| world := s'; _adb_manager := None |})
    end.
Proof.
  intros Hnone. unfold get_adb_manager, on_machine, mbind, M_bind, get.
  rewrite Hnone, ADBManager_unfold.
  destruct (setup_builtin_adb sys (new_instance (world p)))
    as [[[]|e] s']; cbn; by rewrite Hnone.
Qed.

Lemma of_instance_of s : of_instance (instance_of s) s = s.
Proof. by destruct s. Qed.

(** X18: [get_adb_manager] keeps the manager it has built: once a call
    has returned, every later call returns the same manager and resolves
    nothing again, whatever the machine has become.  A call that raises
    leaves the global empty, so that the next call tries again. *)
Theorem get_adb_manager_caches sys p :
  _adb_manager p = None ->
  fresh sys (world p) ->
  match get_adb_manager sys p with
  | (Ok self, p') =>
      _adb_manager p' = Some self
      /\ Executor.temp_dir self = Some (mkdtemp_result sys)
      /\ Executor.builtin_adb_path self
         = Some (mkdtemp_result sys // "adb.exe")
      /\ is_file (fs (world p')) (mkdtemp_result sys // "adb.exe") = true
      /\ (forall sys', get_adb_manager sys' p' = (Ok self, p'))
  | (Raise _, p') => _adb_manager p' = None
  end.
Proof.
  intros Hnone Hfresh. rewrite get_adb_manager_unfold by done.
  assert (Hfresh' : fresh sys (new_instance (world p))) by done.
  pose proof (setup_outcome sys _ Hfresh') as H.
  destruct (setup_builtin_adb sys (new_instance (world p)))
    as [[[]|e] s']; [|done].
  destruct H as (old & c & _ & (Ht & _) & Hb & Hf).
  cbn. split; [done|]. split; [done|]. split; [done|].
  split; [unfold is_file; by rewrite Hf|]. done.
Qed.

(** X19: [cleanup_adb_manager] after a [get_adb_manager] that built the
    manager gives back the file system as it was before the two and
    empties the global; [PATH] keeps the entry of the directory that is
    gone; a second [cleanup_adb_manager] does nothing. *)
Theorem cleanup_adb_manager_restores sys p self :
  _adb_manager p = None ->
  fresh sys (world p) ->
  path_str (mkdtemp_result sys) <> "" ->
  fst (get_adb_manager sys p) = Ok self ->
  exists p2,
    cleanup_adb_manager (snd (get_adb_manager sys p)) = (Ok tt, p2)
    /\ _adb_manager p2 = None
    /\ fs (world p2) = fs (world p)
    /\ environ_PATH (world p2)
       = environ_PATH (world (snd (get_adb_manager sys p)))
    /\ cleanup_adb_manager p2 = (Ok tt, p2).
Proof.
  intros Hnone Hfresh Hne. rewrite get_adb_manager_unfold by done.
  assert (Hfresh' : fresh sys (new_instance (world p))) by done.
  pose proof (setup_outcome sys _ Hfresh') as H.
  destruct (setup_builtin_adb sys (new_instance (world p)))
    as [[[]|e] s'] eqn:Hsetup; [|done].
  destruct H as (old & c & _ & Hinv & _). intros _. cbn [snd].
  unfold cleanup_adb_manager at 1, on_machine, mbind, M_bind, get, modify.
  cbn [_adb_manager world]. rewrite of_instance_of.
  rewrite (cleanup_removes s' (mkdtemp_result sys));
    [|by destruct Hinv|done|by eapply inv_temp_is_dir].
  eexists. split; [reflexivity|]. cbn. split; [done|].
  split; [by eapply (restored sys (new_instance (world p)))|]. done.
Qed.

(** X20: in a process that is not frozen, on a machine without [E:/ADB],
    [setup_builtin_adb] raises [FileNotFoundError] whatever the working
    directory, the directory of the executable and the search path hold:
    the alternatives are not consulted.  The temporary directory it has
    made stays behind, empty, and [PATH] is not changed. *)
Theorem from_source_without_E_drive sys s0 :
  frozen sys = false ->
  path_exists (fs s0) E_ADB = false ->
  mkdtemp_result sys <> E_ADB ->
  exists s',
    setup_builtin_adb sys s0
    = (Raise (Exn FileNotFoundError "E盘ADB目录不存在"), s')
    /\ fs s' = <[mkdtemp_result sys := Dir]> (fs s0)
    /\ builtin_adb_path s' = builtin_adb_path s0
    /\ environ_PATH s' = environ_PATH s0.
Proof.
  intros Hfrozen HE Hne.
  assert (HE' : path_exists (<[mkdtemp_result sys := Dir]> (fs s0)) E_ADB
                = false).
  { unfold path_exists in *. by rewrite lookup_insert_ne. }
  unfold setup_builtin_adb, try_excepts, mkdtemp, _copy_adb_from_e_drive,
    try_excepts, mbind, M_bind, get, modify, logger, raise, mret, M_ret.
  rewrite Hfrozen. cbn. rewrite HE'. cbn. by eexists.
Qed.

(** X21: [_try_find_adb_alternative] never raises.  When it answers
    [False] it has changed nothing but the log; when it answers [True],
    [builtin_adb_path] is [temp_dir/adb.exe] and that path exists. *)
Theorem alternative_never_raises sys s :
  exists b s',
    _try_find_adb_alternative sys s = (Ok b, s')
    /\ if b then in_place s s' else unchanged s s'.
Proof.
  pose proof (alternative_cases sys s s eq_refl) as H.
  destruct (_try_find_adb_alternative sys s) as [[b|e] s']; [|done].
  by exists b, s'.
Qed.

(** X22: an [adb] directory in the working directory that holds no
    [adb.exe] ends the search: [_try_find_adb_alternative] answers
    [False] without looking at the directory of the executable or at the
    search path. *)
Theorem empty_adb_directory_ends_search sys s :
  path_exists (fs s) (cwd sys // "adb") = true ->
  file_content (fs s) (cwd sys // "adb" // "adb.exe") = None ->
  exists msg,
    _try_find_adb_alternative sys s
    = (Ok false, with_log ERROR ("备用ADB查找方法失败: " +:+ msg) s).
Proof.
  intros Hdir Hfile.
  destruct (stage_missing_source (cwd sys // "adb" // "adb.exe")
              "从当前目录找到ADB工具: " s Hfile) as [e He].
  exists (exn_text e). unfold _try_find_adb_alternative.
  erewrite try_excepts_raise; cycle 1.
  { unfold mbind at 1, M_bind at 1, get at 1. rewrite Hdir.
    erewrite bind_raise by exact He. reflexivity. }
  reflexivity.
Qed.

Lemma fresh_check_sound sys s0 : fresh_check sys s0 = true -> fresh sys s0.
Proof.
  intros H q Hq. apply bool_decide_eq_true in H.
  destruct (fs s0 !! q) as [v|] eqn:Hv; [|done]. by destruct (H q v Hv).
Qed.

(** X23: in a process that is not frozen, on a machine whose [E:/ADB]
    holds [adb.exe], [setup_builtin_adb] returns, and the temporary
    directory then holds a copy of every plain file of [E:/ADB], under
    the same name and with the same content, and nothing else: the
    directories of [E:/ADB] are not copied. *)
Theorem e_drive_files_staged sys s0 :
  tidy sys s0 ->
  frozen sys = false ->
  is_file (fs s0) (E_ADB // "adb.exe") = true ->
  exists s',
    setup_builtin_adb sys s0 = (Ok tt, s')
    /\ builtin_adb_path s' = Some (mkdtemp_result sys // "adb.exe")
    /\ forall n,
         fs s' !! (mkdtemp_result sys // n)
         = File <$> file_content (fs s0) (E_ADB // n).
Proof.
  intros Htidy Hfrozen Hadb.
  pose (T := mkdtemp_result sys).
  set (s1 := with_log INFO ("创建临时ADB目录: " +:+ path_str T)
               (with_temp_dir T (with_fs (<[T := Dir]> (fs s0)) s0))).
  assert (Hfresh : fresh sys s0) by exact (tidy_new _ _ Htidy).
  assert (Hempty : forall n, fs s1 !! (T // n) = None).
  { intros n. cbn. rewrite lookup_insert_ne by apply not_eq_sym, child_ne_self.
    by apply fresh_child. }
  assert (Hinv : inv sys (fs s0) (environ_PATH s0) s1)
    by (by apply inv_after_mkdtemp).
  rewrite is_file_content in Hadb.
  destruct (file_content (fs s0) (E_ADB // "adb.exe")) as [c|] eqn:Hc;
    [|done].
  apply file_content_Some in Hc.
  assert (HE : path_exists (fs s0) E_ADB = true).
  { apply bool_decide_eq_true_2. rewrite (tidy_tree _ _ Htidy E_ADB "adb.exe");
      [done|by rewrite Hc]. }
  destruct (E_ADB_apart sys s0 Htidy) as [HE1 HE2].
  assert (Hex : path_exists (fs s1) E_ADB = true).
  { unfold path_exists in *. by rewrite (inv_lookup sys s0 s1 E_ADB). }
  destruct (copy_dir_inv sys s0 Htidy "复制文件: " E_ADB s1 Hinv HE1)
    as (s2 & Heq2 & Hinv2 & Hb2 & Hfs2).
  set (s3 := with_log INFO ("从E盘复制ADB工具完成: "
                            +:+ path_str (T // "adb.exe"))
               (with_builtin_adb_path (T // "adb.exe") s2)).
  assert (H3 : primary sys s1 = (Ok tt, s3)).
  { unfold primary. rewrite Hfrozen. unfold _copy_adb_from_e_drive.
    apply try_excepts_ok. unfold mbind at 1, M_bind at 1, get at 1.
    rewrite Hex. cbn [negb].
    erewrite bind_ok by reflexivity.
    erewrite bind_ok by exact Heq2.
    erewrite bind_ok by (by apply (Path_temp_dir_inv sys (fs s0)
                                     (environ_PATH s0))).
    reflexivity. }
  assert (Hfs3 : forall n,
    fs s3 !! (T // n) = File <$> file_content (fs s0) (E_ADB // n)).
  { intros n. cbn [s3 fs with_log with_builtin_adb_path].
    rewrite Hfs2, Hempty. by destruct (file_content _ _). }
  assert (Hf3 : fs s3 !! (T // "adb.exe") = Some (File c)).
  { rewrite Hfs3. apply file_content_Some in Hc. by rewrite Hc. }
  assert (Hinv3 : inv sys (fs s0) (environ_PATH s0) s3)
    by (by apply inv_with_log, inv_with_builtin).
  destruct (finish_ok sys s0 Htidy s3 c Hinv3 eq_refl Hf3)
    as (s4 & H4 & Hb4 & Hf4).
  exists s4. split; [|split; [done|by rewrite Hf4]].
  rewrite setup_builtin_adb_stages. apply try_excepts_ok.
  change ((primary sys;; fallback sys;; finish sys T) s1 = (Ok tt, s4)).
  erewrite bind_ok by exact H3.
  erewrite bind_ok by (by eapply fallback_present). exact H4.
Qed.

Lemma setup_touches_only_temp_dir_witness :
  fresh packaged (machine drive)
  /\ fs (snd (setup_builtin_adb packaged (machine drive)))
       !! ["C:"; "work"; "adb"; "adb.exe"]
     = Some (File [x0c])
  /\ fs (snd (setup_builtin_adb packaged (machine drive)))
       !! mkdtemp_result packaged = Some Dir.
Proof.
  assert (H : fresh packaged (machine drive)).
  { apply fresh_check_sound. vm_compute. reflexivity. }
  split; [exact H|].
  destruct (setup_touches_only_temp_dir packaged (machine drive) H)
    as (Hout & Hdir & _).
  split; [|exact Hdir].
  etrans; [apply (Hout ["C:"; "work"; "adb"; "adb.exe"])|reflexivity].
  intros Hp. apply prefix_cons_inv_2, prefix_cons_inv_1 in Hp.
  discriminate Hp.
Defined.

Lemma setup_success_state_witness :
  fresh packaged (machine drive)
  /\ fst (setup_builtin_adb packaged (machine drive)) = Ok tt
  /\ builtin_adb_path (snd (setup_builtin_adb packaged (machine drive)))
     = Some ["C:"; "Temp"; "adb_tv_tool_k3"; "adb.exe"]
  /\ exists old,
       environ_PATH (machine drive) = Some old
       /\ environ_PATH (snd (setup_builtin_adb packaged (machine drive)))
          = Some (path_str (mkdtemp_result packaged)
                  +:+ pathsep packaged +:+ old).
Proof.
  assert (H : fresh packaged (machine drive)).
  { apply fresh_check_sound. vm_compute. reflexivity. }
  assert (Hok : fst (setup_builtin_adb packaged (machine drive)) = Ok tt).
  { vm_compute. reflexivity. }
  split; [exact H|]. split; [exact Hok|].
  destruct (setup_success_state packaged (machine drive) H Hok)
    as (_ & Hb & _ & HP).
  split; [exact Hb|exact HP].
Defined.


Lemma setup_then_cleanup_restores_witness :
  fresh packaged (machine drive)
  /\ path_str (mkdtemp_result packaged) <> ""
  /\ exists s2,
       cleanup (snd (setup_builtin_adb packaged (machine drive)))
       = (Ok tt, s2)
       /\ fs s2 = fs (machine drive).
Proof.
  assert (H : fresh packaged (machine drive)).
  { apply fresh_check_sound. vm_compute. reflexivity. }
  assert (Hne : path_str (mkdtemp_result packaged) <> "") by discriminate.
  split; [exact H|]. split; [exact Hne|].
  exact (setup_then_cleanup_restores packaged (machine drive) H Hne).
Defined.

Lemma get_adb_manager_caches_witness :
  _adb_manager (process (machine drive)) = None
  /\ fresh packaged (world (process (machine drive)))
  /\ match get_adb_manager packaged (process (machine drive)) with
     | (Ok self, p') =>
         _adb_manager p' = Some self
         /\ Executor.temp_dir self = Some (mkdtemp_result packaged)
         /\ Executor.builtin_adb_path self
            = Some (mkdtemp_result packaged // "adb.exe")
         /\ is_file (fs (world p'))
              (mkdtemp_result packaged // "adb.exe") = true
         /\ (forall sys', get_adb_manager sys' p' = (Ok self, p'))
     | (Raise _, p') => _adb_manager p' = None
     end.
Proof.
  assert (H : fresh packaged (world (process (machine drive)))).
  { apply fresh_check_sound. vm_compute. reflexivity. }
  split; [reflexivity|]. split; [exact H|].
  exact (get_adb_manager_caches packaged (process (machine drive))
           eq_refl H).
Defined.

Lemma cleanup_adb_manager_restores_witness :
  fresh packaged (world (process (machine drive)))
  /\ fst (get_adb_manager packaged (process (machine drive)))
     = Ok {| Executor.builtin_adb_path :=
               Some ["C:"; "Temp"; "adb_tv_tool_k3"; "adb.exe"];
             Executor.temp_dir := Some ["C:"; "Temp"; "adb_tv_tool_k3"] |}
  /\ exists p2,
       cleanup_adb_manager
         (snd (get_adb_manager packaged (process (machine drive))))
       = (Ok tt, p2)
       /\ _adb_manager p2 = None
       /\ fs (world p2) = drive.
Proof.
  assert (H : fresh packaged (world (process (machine drive)))).
  { apply fresh_check_sound. vm_compute. reflexivity. }
  assert (Hok : fst (get_adb_manager packaged (process (machine drive)))
     = Ok {| Executor.builtin_adb_path :=
               Some ["C:"; "Temp"; "adb_tv_tool_k3"; "adb.exe"];
             Executor.temp_dir := Some ["C:"; "Temp"; "adb_tv_tool_k3"] |}).
  { vm_compute. reflexivity. }
  split; [exact H|]. split; [exact Hok|].
  destruct (cleanup_adb_manager_restores packaged (process (machine drive))
              _ eq_refl H ltac:(discriminate) Hok)
    as (p2 & Heq & Hnone & Hfs & _).
  exists p2. split; [exact Heq|]. split; [exact Hnone|exact Hfs].
Defined.

Lemma from_source_without_E_drive_witness :
  frozen from_source = false
  /\ path_exists (fs (machine drive)) E_ADB = false
  /\ mkdtemp_result from_source <> E_ADB
  /\ exists s',
       setup_builtin_adb from_source (machine drive)
       = (Raise (Exn FileNotFoundError "E盘ADB目录不存在"), s')
       /\ fs s' = <[mkdtemp_result from_source := Dir]> (fs (machine drive))
       /\ builtin_adb_path s' = builtin_adb_path (machine drive)
       /\ environ_PATH s' = environ_PATH (machine drive).
Proof.
  split; [reflexivity|]. split; [reflexivity|]. split; [discriminate|].
  apply (from_source_without_E_drive from_source (machine drive)).
  - reflexivity.
  - reflexivity.
  - discriminate.
Defined.

Lemma empty_adb_directory_ends_search_witness :
  path_exists (fs (resolving drive_with_empty_adb)) (cwd packaged // "adb")
  = true
  /\ file_content (fs (resolving drive_with_empty_adb))
       (cwd packaged // "adb" // "adb.exe") = None
  /\ is_file (fs (resolving drive_with_empty_adb))
       (parent (executable packaged) // "adb" // "adb.exe") = true
  /\ exists msg,
       _try_find_adb_alternative packaged (resolving drive_with_empty_adb)
       = (Ok false,
          with_log ERROR ("备用ADB查找方法失败: " +:+ msg)
            (resolving drive_with_empty_adb)).
Proof.
  split; [reflexivity|]. split; [reflexivity|]. split; [reflexivity|].
  apply (empty_adb_directory_ends_search packaged
           (resolving drive_with_empty_adb)).
  - reflexivity.
  - reflexivity.
Defined.

Lemma e_drive_files_staged_witness :
  tidy from_source (machine drive_with_libraries)
  /\ frozen from_source = false
  /\ is_file (fs (machine drive_with_libraries)) (E_ADB // "adb.exe") = true
  /\ exists s',
       setup_builtin_adb from_source (machine drive_with_libraries)
       = (Ok tt, s')
       /\ fs s' !! (mkdtemp_result from_source // "AdbWinApi.dll")
          = Some (File [xa1; xa2])
       /\ fs s' !! (mkdtemp_result from_source // "docs") = None.
Proof.
  assert (H : tidy from_source (machine drive_with_libraries)).
  { apply tidy_check_sound. vm_compute. reflexivity. }
  split; [exact H|]. split; [reflexivity|]. split; [reflexivity|].
  destruct (e_drive_files_staged from_source (machine drive_with_libraries)
              H eq_refl eq_refl) as (s' & Heq & _ & Hfs).
  exists s'. split; [exact Heq|].
  split; rewrite Hfs; reflexivity.
Defined.

End ResolverExtras.

(** * The methods of [str] *)

Module TextFacts.
Import Py Text.

Lemma graphic_code a :
  graphic a = true -> (33 <= code a)%N /\ (code a <= 126)%N.
Proof.
  unfold graphic. intros [H1 H2]%andb_true_iff.
  by apply N.leb_le in H1, H2.
Qed.

Ltac by_codes :=
  let H := fresh in
  intros H; apply graphic_code in H as [? ?];
  unfold ascii_space, space2, space3;
  repeat match goal with
         | |- context [(code ?a =? ?k)%N] =>
             rewrite (proj2 (N.eqb_neq (code a) k)) by lia
         | |- context [(?k <=? code ?a)%N] =>
             first [ rewrite (proj2 (N.leb_le k (code a))) by lia
                   | rewrite (proj2 (N.leb_gt k (code a))) by lia ]
         | |- context [(code ?a <=? ?k)%N] =>
             first [ rewrite (proj2 (N.leb_le (code a) k)) by lia
                   | rewrite (proj2 (N.leb_gt (code a) k)) by lia ]
         end;
  rewrite ?andb_false_r, ?andb_false_l, ?orb_false_r, ?orb_false_l;
  reflexivity.

Lemma graphic_not_space a : graphic a = true -> ascii_space a = false.
Proof. by_codes. Qed.

Lemma graphic_not_space2_l a b : graphic a = true -> space2 a b = false.
Proof. by_codes. Qed.

Lemma graphic_not_space2_r a b : graphic b = true -> space2 a b = false.
Proof. by_codes. Qed.

Lemma graphic_not_space3_1 a b c : graphic a = true -> space3 a b c = false.
Proof. by_codes. Qed.

Lemma graphic_not_space3_2 a b c : graphic b = true -> space3 a b c = false.
Proof. by_codes. Qed.

Lemma graphic_not_space3_3 a b c : graphic c = true -> space3 a b c = false.
Proof. by_codes. Qed.

Lemma lstrip_graphic a r :
  graphic a = true -> lstrip (String a r) = String a r.
Proof.
  intros Ha. cbn [lstrip]. rewrite (graphic_not_space a Ha).
  destruct r as [|b r']; [done|]. rewrite (graphic_not_space2_l a b Ha).
  destruct r' as [|c r'']; [done|]. by rewrite (graphic_not_space3_1 a b c Ha).
Qed.

Lemma append_nil (s : string) : "" +:+ s = s.
Proof. reflexivity. Qed.

Lemma append_cons (c : ascii) (r s : string) :
  String c r +:+ s = String c (r +:+ s).
Proof. reflexivity. Qed.

Lemma lstrip_app_graphic x a y :
  graphic a = true ->
  exists x', lstrip (x +:+ String a y) = x' +:+ String a y.
Proof.
  intros Ha. remember (String.length x) as n eqn:Hn.
  revert x Hn. induction n as [n IH] using lt_wf_ind. intros x ->.
  destruct x as [|c r].
  { exists "". by apply lstrip_graphic. }
  assert (Hrec : forall r0 : string,
            (String.length r0 < String.length (String c r))%nat ->
            exists x', lstrip (r0 +:+ String a y) = x' +:+ String a y).
  { intros r0 Hlt. by eapply IH. }
  assert (Hself : forall t : string,
            t = String c r +:+ String a y ->
            exists x', t = x' +:+ String a y)
    by (intros t ->; by exists (String c r)).
  rewrite append_cons. cbn [lstrip].
  destruct (ascii_space c); [apply Hrec; cbn; lia|].
  destruct r as [|b r'].
  { rewrite append_nil, (graphic_not_space2_r c a Ha).
    destruct y as [|d y']; [by apply Hself|].
    rewrite (graphic_not_space3_2 c a d Ha). by apply Hself. }
  rewrite append_cons.
  destruct (space2 c b); [apply Hrec; cbn; lia|].
  destruct r' as [|d r''].
  { rewrite append_nil, (graphic_not_space3_3 c b a Ha). by apply Hself. }
  rewrite append_cons.
  destruct (space3 c b d); [apply Hrec; cbn; lia|by apply Hself].
Qed.

Lemma append_nonempty x a y : x +:+ String a y <> "".
Proof. by destruct x. Qed.

Lemma eqb_empty_false s : s <> "" -> String.eqb s "" = false.
Proof. intros H. by destruct (String.eqb_spec s ""). Qed.

Lemma rstrip_app_graphic x a y :
  graphic a = true ->
  rstrip (x +:+ String a y) = x +:+ rstrip (String a y).
Proof.
  intros Ha. induction x as [|c r IH]; [done|].
  rewrite !append_cons. cbn [rstrip]. rewrite <- append_cons.
  destruct (lstrip_app_graphic (String c r) a y Ha) as [x' Hx'].
  rewrite Hx', eqb_empty_false by apply append_nonempty.
  by rewrite IH.
Qed.

Lemma lstrip_newlines k : lstrip (newlines k) = "".
Proof. induction k as [|k IH]; [done|]. by cbn [newlines lstrip]. Qed.

Lemma rstrip_newlines k : rstrip (newlines k) = "".
Proof.
  destruct k as [|k]; [done|]. cbn [newlines rstrip].
  change (String Executor.LF (newlines k)) with (newlines (S k)).
  by rewrite lstrip_newlines.
Qed.

Lemma strip_tight x a k :
  starts_graphic (x +:+ String a "") = true ->
  graphic a = true ->
  strip (x +:+ String a (newlines k)) = x +:+ String a "".
Proof.
  intros Hx Ha. unfold strip.
  assert (Hl : lstrip (x +:+ String a (newlines k))
               = x +:+ String a (newlines k)).
  { destruct x as [|c r]; rewrite ?append_nil, ?append_cons in *;
      by apply lstrip_graphic. }
  rewrite Hl, rstrip_app_graphic by done. f_equal.
  cbn [rstrip]. rewrite lstrip_graphic, eqb_empty_false by done.
  by rewrite rstrip_newlines.
Qed.

Lemma ends_graphic_inv s :
  ends_graphic s = true ->
  exists x a, s = x +:+ String a "" /\ graphic a = true.
Proof.
  induction s as [|c r IH]; [done|]. cbn [ends_graphic].
  destruct r as [|d r'].
  - intros Hc. by exists "", c.
  - intros Hr. destruct (IH Hr) as (x & a & Heq & Ha).
    exists (String c x), a. by rewrite Heq, append_cons.
Qed.

Lemma strip_nonempty s : starts_graphic s = true -> strip s <> "".
Proof.
  destruct s as [|a r]; [done|]. cbn [starts_graphic]. intros Ha.
  unfold strip. rewrite lstrip_graphic by done. cbn [rstrip].
  by rewrite lstrip_graphic, eqb_empty_false.
Qed.

Lemma split_no_sep sep s : no_char sep s = true -> split sep s = [s].
Proof.
  induction s as [|a r IH]; [done|]. cbn [no_char split].
  intros [Ha Hr]%andb_true_iff. apply negb_true_iff in Ha.
  by rewrite Ha, IH.
Qed.

Lemma split_app sep a b :
  no_char sep a = true ->
  split sep (a +:+ String sep b) = a :: split sep b.
Proof.
  induction a as [|c r IH]; rewrite ?append_nil, ?append_cons;
    cbn [no_char split].
  - by rewrite Ascii.eqb_refl.
  - intros [Hc Hr]%andb_true_iff. apply negb_true_iff in Hc.
    by rewrite Hc, IH.
Qed.

Lemma concat_cons sep (x y : string) (l : list string) :
  String.concat sep (x :: y :: l) = x +:+ sep +:+ String.concat sep (y :: l).
Proof. reflexivity. Qed.

Lemma split_join sep first rest :
  forallb (no_char sep) (first :: rest) = true ->
  split sep (join (String sep "") (first :: rest)) = first :: rest.
Proof.
  unfold join. revert first. induction rest as [|l rest IH]; intros first.
  - cbn. rewrite andb_true_r. apply split_no_sep.
  - rewrite concat_cons, append_cons, append_nil.
    cbn [forallb]. intros [Hf Hr]%andb_true_iff.
    rewrite split_app by done. f_equal. by apply IH.
Qed.

Lemma all_graphic_no_char c s :
  graphic c = false -> all_graphic s = true -> no_char c s = true.
Proof.
  intros Hc. induction s as [|a r IH]; [done|]. cbn.
  intros [Ha Hr]%andb_true_iff. rewrite IH, andb_true_r by done.
  apply negb_true_iff. destruct (Ascii.eqb_spec a c); [congruence|done].
Qed.

End TextFacts.

(** * The callers *)

Module PagesFacts.
Import Py Text Pages TextFacts.
Import ResolverFacts.

Lemma app_eta (app : App) :
  {| proc := proc app; exec := exec app; registry := registry app;
     signals := signals app |} = app.
Proof. by destruct app. Qed.

Lemma on_proc_cached sys app self :
  Lifecycle._adb_manager (proc app) = Some self ->
  on_proc (Lifecycle.get_adb_manager sys) app = (Ok self, app).
Proof.
  intros H. unfold on_proc, Lifecycle.get_adb_manager, mbind, M_bind, get.
  rewrite H. cbn. by rewrite app_eta.
Qed.

Lemma on_exec_answers app self args timeout text :
  answers app self args timeout text ->
  exists r w,
    on_exec (Executor.run_adb_command self args timeout true
               Executor.no_kwargs) app = (Ok r, ran w app)
    /\ r !! "success" = Some (VBool true)
    /\ r !! "stdout" = Some (VStr text).
Proof.
  intros (_ & t & out & err & so & se & Hspawn & Ht & Hso & Hse & Htext).
  pose proof (ExecutorExtras.run_adb_command_result self args timeout true
                Executor.no_kwargs (exec app)) as Hres.
  rewrite (ExecutorExtras.subprocess_run_decoded
             (Executor.command_of self args) timeout Executor.no_kwargs
             (exec app) t 0 out err so se Hspawn Ht eq_refl Hso Hse) in Hres.
  unfold on_exec.
  destruct (Executor.run_adb_command self args timeout true
              Executor.no_kwargs (exec app)) as [o w].
  cbn [fst] in Hres. subst o. eexists _, w. split; [reflexivity|].
  cbn [Outcomes.record_of]. unfold Outcomes.completed_record.
  cbn [Executor.cp_returncode Executor.cp_stdout Executor.cp_stderr].
  rewrite !ExecutorExtras.or_default_str, Htext. by simplify_map_eq.
Qed.

(** The lines of a well-formed answer. *)

Lemma append_assoc (a b c : string) : (a +:+ b) +:+ c = a +:+ (b +:+ c).
Proof. induction a as [|x a IH]; [done|]. by rewrite !append_cons, IH. Qed.

Lemma ends_graphic_app s c t :
  ends_graphic (s +:+ String c t) = ends_graphic (String c t).
Proof.
  induction s as [|a r IH]; [done|]. rewrite append_cons.
  cbn [ends_graphic]. rewrite IH.
  destruct r; by rewrite ?append_nil, ?append_cons.
Qed.

Lemma last_cons {A} (x d : A) (l : list A) :
  List.last (x :: l) d = List.last l x.
Proof.
  revert x d. induction l as [|y l IH]; intros x d; [done|].
  change (List.last (x :: y :: l) d) with (List.last (y :: l) d).
  by rewrite !IH.
Qed.

Lemma ends_graphic_join first rest :
  ends_graphic (join (String Executor.LF "") (first :: rest))
  = ends_graphic (List.last rest first).
Proof.
  unfold join. revert first. induction rest as [|l rest IH]; intros first.
  - done.
  - rewrite concat_cons, append_cons, append_nil.
    rewrite last_cons, <- IH.
    destruct (String.concat (String Executor.LF "") (l :: rest)) as [|c t].
    + rewrite ends_graphic_app. done.
    + rewrite ends_graphic_app.
      change (String Executor.LF (String c t))
        with (String Executor.LF "" +:+ String c t).
      by rewrite ends_graphic_app.
Qed.

Lemma starts_graphic_join first rest :
  starts_graphic first = true ->
  starts_graphic (join (String Executor.LF "") (first :: rest)) = true.
Proof.
  destruct first as [|a r]; [done|]. intros Ha. unfold join.
  destruct rest; [done|]. by rewrite concat_cons, append_cons.
Qed.

Lemma render_no_LF i :
  item_ok i = true -> no_char Executor.LF (render i) = true.
Proof.
  destruct i as [serial status|line]; cbn [item_ok render].
  - intros [[[_ Hs]%andb_true_iff [_ Ht]%andb_true_iff]%andb_true_iff _]
             %andb_true_iff.
    assert (H : forall a b : string,
              no_char Executor.LF a = true -> no_char Executor.LF b = true ->
              no_char Executor.LF (a +:+ b) = true).
    { intros a b Ha Hb. induction a as [|x a IH]; [done|].
      rewrite append_cons. cbn [no_char] in *.
      apply andb_true_iff in Ha as [-> Ha]. by apply IH. }
    apply H; [by apply all_graphic_no_char|].
    cbn [no_char]. rewrite all_graphic_no_char by done. done.
  - by intros [? _]%andb_true_iff.
Qed.

Lemma listing_lines first items k :
  well_formed first items = true ->
  tail (split Executor.LF (strip (listing first items k)))
  = render <$> items.
Proof.
  unfold well_formed, listing.
  intros [[[Hstart Hfirst]%andb_true_iff Hitems]%andb_true_iff Hend]
           %andb_true_iff.
  rewrite <- ends_graphic_join in Hend.
  destruct (ends_graphic_inv _ Hend) as (x & a & Hx & Ha).
  pose proof (starts_graphic_join first (render <$> items) Hstart) as Hs.
  rewrite Hx in Hs |- *.
  rewrite append_assoc, append_cons, append_nil.
  rewrite strip_tight by done. rewrite <- Hx.
  rewrite split_join; [done|].
  cbn [forallb]. rewrite Hfirst. cbn [andb].
  apply forallb_forall. intros l Hl. apply in_map_iff in Hl as (i & <- & Hi).
  apply render_no_LF. rewrite forallb_forall in Hitems. by apply Hitems.
Qed.

(** One line of the answer. *)

Lemma graphic_word_inv s :
  graphic_word s = true ->
  exists a r, s = String a r /\ graphic a = true /\ all_graphic s = true.
Proof.
  unfold graphic_word. destruct s as [|a r]; [done|]. cbn [negb andb].
  intros H. exists a, r. split; [done|]. split; [|done].
  cbn in H. by apply andb_true_iff in H as [? _].
Qed.

Lemma device_line serial status :
  item_ok (Device serial status) = true ->
  truthy (VStr (strip (render (Device serial status))))
  && negb (startswith (render (Device serial status)) "*") = true
  /\ split TAB (render (Device serial status)) = [serial; status].
Proof.
  cbn [item_ok render].
  intros [[Hs Ht]%andb_true_iff Hstar]%andb_true_iff.
  destruct (graphic_word_inv _ Hs) as (a & r & -> & Ha & Hall).
  destruct (graphic_word_inv _ Ht) as (b & r' & -> & Hb & Hall').
  split.
  - apply andb_true_iff. split.
    + cbn [truthy]. apply negb_true_iff, eqb_empty_false.
      apply strip_nonempty. by rewrite append_cons.
    + rewrite append_cons. unfold startswith in *.
      cbn [String.prefix] in *.
      destruct (ascii_dec _ _); [by destruct r|done].
  - rewrite split_app by (by apply all_graphic_no_char).
    by rewrite split_no_sep by (by apply all_graphic_no_char).
Qed.

Lemma other_line line :
  item_ok (Other line) = true ->
  negb (startswith line "*") = false
  \/ split TAB line = [line].
Proof.
  cbn [item_ok]. intros [_ [H|H]%orb_true_iff]%andb_true_iff.
  - left. by rewrite H.
  - right. by apply split_no_sep.
Qed.

Lemma devices_of_device serial status items :
  devices_of (Device serial status :: items)
  = (serial, status) :: devices_of items.
Proof. reflexivity. Qed.

Lemma devices_of_other line items :
  devices_of (Other line :: items) = devices_of items.
Proof. reflexivity. Qed.

Lemma connected_entries_items items :
  forallb item_ok items = true ->
  connected_entries (render <$> items)
  = connected_entry <$> devices_of items.
Proof.
  induction items as [|i items IH]; [done|]. cbn [forallb].
  intros [Hi Hitems]%andb_true_iff. specialize (IH Hitems).
  rewrite fmap_cons. cbn [connected_entries].
  destruct i as [serial status|line].
  - destruct (device_line serial status Hi) as [-> ->].
    by rewrite IH, devices_of_device.
  - cbn [render]. rewrite devices_of_other.
    destruct (other_line line Hi) as [H|H].
    + by rewrite H, andb_false_r.
    + rewrite H. by destruct (_ && _).
Qed.

Lemma well_formed_items first items :
  well_formed first items = true -> forallb item_ok items = true.
Proof.
  unfold well_formed.
  by intros [[_ ?]%andb_true_iff _]%andb_true_iff.
Qed.

Lemma get_device_name_returns sys serial app :
  exists v app', get_device_name sys serial app = (Ok v, app').
Proof.
  unfold get_device_name, try_excepts.
  match goal with
  | |- context [match ?body app with _ => _ end] =>
      destruct (body app) as [[v|e] app']
  end; cbn; by eexists _, _.
Qed.

Lemma usb_entries_items sys items :
  forallb item_ok items = true ->
  forall app,
  exists ds app',
    usb_entries sys (render <$> items) app = (Ok ds, app')
    /\ (fun d : dict => d !! "serial") <$> ds
       = (fun serial => Some (VStr serial)) <$> usb_serials items
    /\ Forall (fun d : dict =>
                 d !! "type" = Some (VStr "USB")
                 /\ d !! "status" = Some (VStr "已连接")
                 /\ is_Some (d !! "name")) ds.
Proof.
  induction items as [|i items IH]; intros Hitems app.
  { exists [], app. by repeat split. }
  cbn [forallb] in Hitems. apply andb_true_iff in Hitems as [Hi Hitems].
  specialize (IH Hitems). rewrite fmap_cons. cbn [usb_entries].
  destruct i as [serial status|line].
  - destruct (device_line serial status Hi) as [-> ->].
    unfold usb_serials. rewrite devices_of_device, filter_cons. cbn [snd].
    destruct (String.eqb_spec status "device") as [->|Hne].
    + rewrite decide_True by done.
      destruct (get_device_name_returns sys serial app) as (v & app1 & Hname).
      destruct (IH app1) as (ds & app' & Heq & Hser & Hall).
      eexists _, app'. split.
      { erewrite bind_ok by exact Hname. erewrite bind_ok by exact Heq.
        reflexivity. }
      split.
      * rewrite !fmap_cons. cbn [fst]. f_equal. exact Hser.
      * constructor; [|done]. by simplify_map_eq.
    + rewrite decide_False by done. apply IH.
  - cbn [render]. unfold usb_serials. rewrite devices_of_other.
    fold (usb_serials items).
    destruct (other_line line Hi) as [H|H].
    + rewrite H, andb_false_r. apply IH.
    + rewrite H. destruct (_ && _); apply IH.
Qed.

(** X24: when [adb devices] answers with a first line followed by device
    lines, each a serial, a tab and a status, among lines that start with
    a star or hold no tab, [get_connected_devices] returns the devices of
    the answer, all of them, in order, with their serial and status, and
    emits nothing; the line feeds at the end of the answer and the first
    line make no difference. *)
Theorem connected_devices_listed sys app self first items k :
  well_formed first items = true ->
  answers app self ["devices"] 10 (listing first items k) ->
  exists w,
    get_connected_devices sys app
    = (Ok (connected_entry <$> devices_of items), ran w app).
Proof.
  intros Hwf Hans. pose proof Hans as [Hm _].
  destruct (on_exec_answers _ _ _ _ _ Hans) as (r & w & Hrun & Hsucc & Hout).
  exists w. unfold get_connected_devices. apply try_excepts_ok.
  erewrite bind_ok by (by apply on_proc_cached).
  erewrite bind_ok by exact Hrun.
  unfold getitem. rewrite Hsucc, Hout.
  erewrite bind_ok by reflexivity. cbn [truthy].
  erewrite bind_ok by reflexivity.
  erewrite bind_ok by reflexivity.
  erewrite bind_ok by reflexivity.
  rewrite listing_lines by done.
  by rewrite connected_entries_items by (by eapply well_formed_items).
Qed.

(** X25: on the same answer [scan_usb_devices] returns one entry for
    each device whose status is [device], and for no other, in the order
    of the answer; each entry has the serial of its line, the type [USB]
    and a name, whatever the commands that ask for the names do. *)
Theorem usb_devices_listed sys app self first items k :
  well_formed first items = true ->
  answers app self ["devices"] 10 (listing first items k) ->
  exists ds app',
    scan_usb_devices sys app = (Ok ds, app')
    /\ (fun d : dict => d !! "serial") <$> ds
       = (fun serial => Some (VStr serial)) <$> usb_serials items
    /\ Forall (fun d : dict =>
                 d !! "type" = Some (VStr "USB")
                 /\ d !! "status" = Some (VStr "已连接")
                 /\ is_Some (d !! "name")) ds.
Proof.
  intros Hwf Hans. pose proof Hans as [Hm _].
  destruct (on_exec_answers _ _ _ _ _ Hans) as (r & w & Hrun & Hsucc & Hout).
  destruct (usb_entries_items sys items (well_formed_items _ _ Hwf)
              (ran w app)) as (ds & app' & Heq & Hser & Hall).
  exists ds, app'. split; [|done].
  unfold scan_usb_devices. apply try_excepts_ok.
  erewrite bind_ok by (by apply on_proc_cached).
  erewrite bind_ok by exact Hrun.
  unfold getitem. rewrite Hsucc, Hout.
  erewrite bind_ok by reflexivity. cbn [truthy].
  erewrite bind_ok by reflexivity.
  erewrite bind_ok by reflexivity.
  erewrite bind_ok by reflexivity.
  by rewrite listing_lines.
Qed.



Lemma guarded_observers (l : Registry.Listener Window) arg s :
  Registry.observers (snd (Registry.DeviceManager.guarded l arg s))
  = snd (Registry.call l arg (Registry.observers s)).
Proof.
  unfold Registry.DeviceManager.guarded, try_excepts,
    Registry.DeviceManager.invoke.
  by destruct (Registry.call l arg (Registry.observers s)) as [[[]|e] w].
Qed.

Lemma notify_observers (ls : list (Registry.Listener Window)) arg s :
  Registry.observers (snd (Registry.DeviceManager.notify ls arg s))
  = foldl (fun w l => snd (Registry.call l arg w)) (Registry.observers s) ls.
Proof.
  revert s. induction ls as [|l ls IH]; intros s; [done|].
  cbn [Registry.DeviceManager.notify foldl].
  rewrite <- guarded_observers. unfold mbind, M_bind.
  destruct (RegistryFacts.guarded_ok l arg s) as (s1 & Hs1 & _).
  rewrite Hs1. cbn [snd]. apply IH.
Qed.

Lemma others_keep_view me arg (ls : list (Registry.Listener Window)) w :
  (forall l, l ∈ ls -> l = on_device_changed me \/ leaves_view l) ->
  agrees arg w ->
  agrees arg (foldl (fun w l => snd (Registry.call l arg w)) w ls).
Proof.
  revert w. induction ls as [|l ls IH]; intros w Hls Hw; [done|].
  cbn [foldl]. apply IH; [intros l' Hl'; apply Hls; by right|].
  destruct (Hls l) as [->|Hl]; [by left| |].
  - by destruct arg.
  - destruct (Hl arg w) as (H1 & H2 & H3). destruct Hw as (? & ? & ?).
    unfold agrees. by rewrite H1, H2, H3.
Qed.

Lemma window_told me arg (ls : list (Registry.Listener Window)) w :
  on_device_changed me ∈ ls ->
  (forall l, l ∈ ls -> l = on_device_changed me \/ leaves_view l) ->
  agrees arg (foldl (fun w l => snd (Registry.call l arg w)) w ls).
Proof.
  revert w. induction ls as [|l ls IH]; intros w Hin Hls.
  { by apply elem_of_nil in Hin. }
  cbn [foldl]. apply elem_of_cons in Hin as [<-|Hin].
  - apply (others_keep_view me); [intros l' Hl'; apply Hls; by right|].
    by destruct arg.
  - apply IH; [done|]. intros l' Hl'. apply Hls. by right.
Qed.

Lemma set_current_device_notifies d (s : Registry.State Window) :
  Registry.DeviceManager.set_current_device d s
  = Registry.DeviceManager.notify (Registry._device_listeners s) (Some d)
      (Registry.DeviceManager.logged Registry.INFO
         ("设置当前设备: " +:+ Registry.serial d)
         (Registry.DeviceManager.assigned (Some d) s)).
Proof. reflexivity. Qed.

Lemma clear_current_device_notifies (s : Registry.State Window) :
  Registry.DeviceManager.clear_current_device s
  = Registry.DeviceManager.notify (Registry._device_listeners s) None
      (Registry.DeviceManager.logged Registry.INFO "清除当前设备"
         (Registry.DeviceManager.assigned None s)).
Proof. reflexivity. Qed.

(** X26: as long as the window's [on_device_changed] is registered and
    the other listeners leave the window's copy and buttons alone, the
    window follows the registry: after [set_current_device] and after
    [clear_current_device] its own [current_device] is the device of the
    registry, the connect button is enabled exactly when there is none and
    the disconnect button exactly when there is one, whichever listeners
    raise. *)
Theorem window_follows_registry me (s : Registry.State Window) :
  on_device_changed me ∈ Registry._device_listeners s ->
  (forall l, l ∈ Registry._device_listeners s ->
     l = on_device_changed me \/ leaves_view l) ->
  (forall d, exists s',
     Registry.DeviceManager.set_current_device d s = (Ok tt, s')
     /\ Registry._current_device s' = Some d
     /\ agrees (Registry._current_device s') (Registry.observers s'))
  /\ (exists s',
        Registry.DeviceManager.clear_current_device s = (Ok tt, s')
        /\ Registry._current_device s' = None
        /\ agrees (Registry._current_device s') (Registry.observers s')).
Proof.
  intros Hin Hls. split.
  - intros d.
    destruct (RegistryFacts.set_current_device_round d s)
      as (round & s' & Heq & _ & _ & _ & Hd & _).
    exists s'. split; [done|]. split; [done|]. rewrite Hd.
    replace s' with (snd (Registry.DeviceManager.set_current_device d s))
      by (by rewrite Heq).
    rewrite set_current_device_notifies, notify_observers.
    by apply (window_told me).
  - destruct (RegistryFacts.clear_current_device_round s)
      as (round & s' & Heq & _ & _ & _ & Hd & _).
    exists s'. split; [done|]. split; [done|]. rewrite Hd.
    replace s' with (snd (Registry.DeviceManager.clear_current_device s))
      by (by rewrite Heq).
    rewrite clear_current_device_notifies, notify_observers.
    by apply (window_told me).
Qed.




Lemma connected_devices_listed_witness :
  well_formed "* daemon started successfully"
    [Other "List of devices attached"; Device "emulator-5554" "device";
     Device "192.168.1.20:5555" "offline"] = true
  /\ answers (sample_app listing_child) Executor.manager ["devices"] 10
       (listing "* daemon started successfully"
          [Other "List of devices attached"; Device "emulator-5554" "device";
           Device "192.168.1.20:5555" "offline"] 2)
  /\ exists w,
       get_connected_devices Resolver.packaged (sample_app listing_child)
       = (Ok (connected_entry
                <$> [("emulator-5554", "device");
                     ("192.168.1.20:5555", "offline")]),
          ran w (sample_app listing_child)).
Proof.
  assert (Hwf : well_formed "* daemon started successfully"
                  [Other "List of devices attached";
                   Device "emulator-5554" "device";
                   Device "192.168.1.20:5555" "offline"] = true)
    by reflexivity.
  assert (Hans : answers (sample_app listing_child) Executor.manager
                   ["devices"] 10
                   (listing "* daemon started successfully"
                      [Other "List of devices attached";
                       Device "emulator-5554" "device";
                       Device "192.168.1.20:5555" "offline"] 2)).
  { split; [reflexivity|]. eexists 1, _, _, _, _.
    split; [reflexivity|]. split; [lia|].
    split; [vm_compute; reflexivity|]. split; [vm_compute; reflexivity|].
    vm_compute. reflexivity. }
  split; [exact Hwf|]. split; [exact Hans|].
  exact (connected_devices_listed Resolver.packaged
           (sample_app listing_child) Executor.manager _ _ 2 Hwf Hans).
Defined.

Lemma usb_devices_listed_witness :
  well_formed "* daemon started successfully"
    [Other "List of devices attached"; Device "emulator-5554" "device";
     Device "192.168.1.20:5555" "offline"] = true
  /\ answers (sample_app listing_child) Executor.manager ["devices"] 10
       (listing "* daemon started successfully"
          [Other "List of devices attached"; Device "emulator-5554" "device";
           Device "192.168.1.20:5555" "offline"] 2)
  /\ exists ds app',
       scan_usb_devices Resolver.packaged (sample_app listing_child)
       = (Ok ds, app')
       /\ (fun d : dict => d !! "serial") <$> ds
          = [Some (VStr "emulator-5554")].
Proof.
  assert (Hwf : well_formed "* daemon started successfully"
                  [Other "List of devices attached";
                   Device "emulator-5554" "device";
                   Device "192.168.1.20:5555" "offline"] = true)
    by reflexivity.
  assert (Hans : answers (sample_app listing_child) Executor.manager
                   ["devices"] 10
                   (listing "* daemon started successfully"
                      [Other "List of devices attached";
                       Device "emulator-5554" "device";
                       Device "192.168.1.20:5555" "offline"] 2)).
  { split; [reflexivity|]. eexists 1, _, _, _, _.
    split; [reflexivity|]. split; [lia|].
    split; [vm_compute; reflexivity|]. split; [vm_compute; reflexivity|].
    vm_compute. reflexivity. }
  split; [exact Hwf|]. split; [exact Hans|].
  destruct (usb_devices_listed Resolver.packaged
              (sample_app listing_child) Executor.manager _ _ 2 Hwf Hans)
    as (ds & app' & Heq & Hser & _).
  exists ds, app'. split; [exact Heq|]. rewrite Hser. reflexivity.
Defined.

Lemma window_follows_registry_witness :
  on_device_changed 1 ∈ Registry._device_listeners sample_registry
  /\ exists s',
       Registry.DeviceManager.set_current_device Registry.tv_a
         sample_registry = (Ok tt, s')
       /\ Registry._current_device s' = Some Registry.tv_a
       /\ agrees (Registry._current_device s') (Registry.observers s').
Proof.
  assert (Hin : on_device_changed 1
                ∈ Registry._device_listeners sample_registry).
  { cbn. apply elem_of_cons. right. apply elem_of_cons. by left. }
  split; [exact Hin|].
  apply (window_follows_registry 1 sample_registry Hin).
  intros l Hl. cbn in Hl.
  apply elem_of_cons in Hl as [->|Hl]; [right; by intros arg w|].
  apply elem_of_cons in Hl as [->|Hl]; [by left|].
  by apply elem_of_nil in Hl.
Defined.




End PagesFacts.
